(** * Session and navigation orchestration of the industrial monitor

    A shallow embedding of [auth.js] (class [AuthSystem]) and [app.js]
    (class [IndustrialMonitorApp]) together with the part of the browser
    they act on: local storage, the location fragment, the document, timers
    and the foreign module objects held by the application.

    JavaScript values are an inductive type with the language's truthiness;
    methods are state transformers in a small state-and-exception monad, so
    that [try]/[catch], early [return] and the mutations that survive a
    [throw] are written the way the source has them. *)

From Stdlib Require Import ZArith QArith Ascii String.
From stdpp Require Import base gmap strings list pretty.

Local Set Warnings "-register-all".
Local Open Scope string_scope.
Local Open Scope Z_scope.

(** ** JavaScript values *)

(** [JNum] carries the integer-valued numbers (identifiers, timestamps);
    a fractional number behaves like any non-zero one in everything below. *)
Inductive jsval : Type :=
| JUndefined
| JNull
| JBool (b : bool)
| JNum (n : Z)
| JStr (s : string)
| JArr (items : list jsval)
| JObj (props : list (string * jsval)).

(** [!!v] : the language's ToBoolean. *)
Definition truthy (v : jsval) : bool :=
  match v with
  | JUndefined | JNull => false
  | JBool b => b
  | JNum n => negb (n =? 0)
  | JStr s => negb (String.eqb s "")
  | JArr _ | JObj _ => true
  end.

(** [a || b] on values. *)
Definition js_or (a b : jsval) : jsval := if truthy a then a else b.

Fixpoint own_prop (ps : list (string * jsval)) (k : string) : jsval :=
  match ps with
  | [] => JUndefined
  | (k', v) :: rest => if String.eqb k' k then v else own_prop rest k
  end.

(** [v.k] : reading a property. [None] is the TypeError raised on [null]
    and [undefined]; primitives and arrays have none of the properties read
    by this program, so they answer [undefined]. *)
Definition get_prop (v : jsval) (k : string) : option jsval :=
  match v with
  | JUndefined | JNull => None
  | JObj ps => Some (own_prop ps k)
  | _ => Some JUndefined
  end.

(** [v?.k] : optional chaining. *)
Definition opt_prop (v : jsval) (k : string) : jsval :=
  match get_prop v k with
  | Some x => x
  | None => JUndefined
  end.

(** [v === 'literal'] *)
Definition is_str (v : jsval) (lit : string) : bool :=
  match v with
  | JStr s => String.eqb s lit
  | _ => false
  end.

(** ** Strings *)

Definition lower_ascii (c : ascii) : ascii :=
  let n := N_of_ascii c in
  if ((65 <=? n) && (n <=? 90))%N then ascii_of_N (n + 32) else c.

(** [String.prototype.toLowerCase] on the ASCII range. No character outside
    it lower-cases to a letter of the two keys of [DEMO_USERS], so table
    lookups are the same as with the full Unicode mapping. *)
Fixpoint toLowerCase (s : string) : string :=
  match s with
  | EmptyString => EmptyString
  | String c rest => String (lower_ascii c) (toLowerCase rest)
  end.

(** [s.substring(1)] *)
Definition substring1 (s : string) : string :=
  match s with
  | EmptyString => EmptyString
  | String _ rest => rest
  end.

(** [s.startsWith(p)] *)
Fixpoint startsWith (s p : string) {struct p} : bool :=
  match p with
  | EmptyString => true
  | String a p' =>
      match s with
      | EmptyString => false
      | String b s' => Ascii.eqb a b && startsWith s' p'
      end
  end.

(** ** config.js *)

Module config.
Definition API_BASE_URL : string := "http://localhost:8000".
Module ROLES.
Definition OPERATOR : string := "operator".
Definition SUPERVISOR : string := "supervisor".
End ROLES.
Module THEMES.
Definition OPERATOR : string := "operator".
Definition SUPERVISOR : string := "supervisor".
End THEMES.
End config.

(** ** Host functions

    Built-ins whose output format plays no part in the control flow: JSON
    serialisation and parsing (where [None] is the SyntaxError of a
    malformed text), the ISO rendering of a date, date parsing (where
    [None] is the NaN of an invalid date) and the string coercion of a
    value that is not already a string. *)
Class Host := {
  JSON_stringify : jsval → string;
  JSON_parse : string → option jsval;
  Date_toISOString : Z → string;
  Date_getTime : string → option Z;
  coerce_string : jsval → string
}.

Definition ToString `{Host} (v : jsval) : string :=
  match v with
  | JStr s => s
  | _ => coerce_string v
  end.

(** ** The document *)

Definition node := nat.
Bind Scope nat_scope with node.

Record element := Element {
  el_node : node;
  el_parent : option node;
  el_tag : string;
  el_attrs : gmap string string;
  classList : list string;
  textContent : jsval;
  innerHTML : string;
  style : gmap string string
}.

Definition with_classList (f : list string → list string) (e : element) : element :=
  Element (el_node e) (el_parent e) (el_tag e) (el_attrs e)
          (f (classList e)) (textContent e) (innerHTML e) (style e).

Definition with_textContent (v : jsval) (e : element) : element :=
  Element (el_node e) (el_parent e) (el_tag e) (el_attrs e)
          (classList e) v (innerHTML e) (style e).

Definition with_style (f : gmap string string → gmap string string) (e : element) : element :=
  Element (el_node e) (el_parent e) (el_tag e) (el_attrs e)
          (classList e) (textContent e) (innerHTML e) (f (style e)).

(** DOMTokenList operations. *)
Definition contains (c : string) (cl : list string) : bool :=
  bool_decide (c ∈ cl).
Definition class_add (c : string) (cl : list string) : list string :=
  if contains c cl then cl else cl ++ [c].
Definition class_remove (c : string) (cl : list string) : list string :=
  filter (λ x, x ≠ c) cl.
(** [classList.toggle(c, force)] *)
Definition class_toggle (c : string) (force : bool) (cl : list string) : list string :=
  if force then class_add c cl else class_remove c cl.

Definition has_id (i : string) (e : element) : bool :=
  bool_decide (el_attrs e !! "id" = Some i).
Definition has_class (c : string) (e : element) : bool :=
  contains c (classList e).

(** [document.getElementById] : the first element, in document order, with
    that id; [None] is [null]. *)
Definition getElementById (d : list element) (i : string) : option element :=
  List.find (has_id i) d.

Definition querySelectorAll_class (d : list element) (c : string) : list element :=
  List.filter (has_class c) d.

(** Apply [f] to the element with handle [n]. *)
Definition update_node (n : node) (f : element → element) (d : list element) : list element :=
  List.map (λ e, if Nat.eqb (el_node e) n then f e else e) d.

Definition lookup_node (d : list element) (n : node) : option element :=
  List.find (λ e, Nat.eqb (el_node e) n) d.

(** [a] is a proper ancestor of the element [e], following parent links. *)
Fixpoint below (fuel : nat) (d : list element) (a : node) (e : element) : bool :=
  match fuel with
  | O => false
  | S fuel' =>
      match el_parent e with
      | None => false
      | Some p =>
          Nat.eqb p a ||
          match lookup_node d p with
          | Some pe => below fuel' d a pe
          | None => false
          end
      end
  end.

(** [root.querySelector(tag)] : first descendant of [root] with that tag. *)
Definition querySelector_tag (d : list element) (root : node) (t : string) : option element :=
  List.find (λ e, String.eqb (el_tag e) t && below (length d) d root e) d.

(** ** Deferred work *)

(** The callbacks handed to [setTimeout] and [requestAnimationFrame], and
    the [hashchange] event the browser queues when the fragment changes.
    Each closure is kept as data: its code is [run_task] below. *)
Inductive task :=
| NotificationShow (n : node)
| NotificationExpire (n : node)
| NotificationDetach (n : node)
| PageHide (n : node)
| PageEnter (n : node)
| PageSettle (n : node)
| HashChange.

Inductive schedule :=
| After (ms : Z)
| NextFrame
| NextEvent.

Inductive listener :=
| OnHashChange
| OnCloseClick (n : node)
| OnLoginSuccess
| OnLogout
| OnBeforeUnload
| OnUnload
| OnPageHide.

Inductive custom_event :=
| ThemeChanged (theme : string).

(** ** Foreign module objects

    The alert system, the theme manager, the telemetry transport and the
    dashboard controller live outside this program. An object has a private
    state and methods; a call transforms the private state and either
    returns a value or throws ([None]). Foreign code is taken not to reach
    back into the state modelled here. *)
Definition ref := nat.
Bind Scope nat_scope with ref.
Definition method := nat → nat * option jsval.

Record object := Object {
  ostate : nat;
  methods : list (string * method)
}.

Fixpoint find_method (ms : list (string * method)) (name : string) : option method :=
  match ms with
  | [] => None
  | (k, f) :: rest => if String.eqb k name then Some f else find_method rest name
  end.

(** ** Program state *)

Record Browser := mkBrowser {
  localStorage : gmap string string;
  location_hash : string;
  document : list element;
  body_classList : list string;
  root_style : gmap string string;
  next_node : node;
  timers : list (schedule * task);
  listeners : list listener;
  dispatched : list custom_event;
  Date_now : Z
}.

Record Foreign := mkForeign {
  stateStore : gmap string string;
  heap : gmap ref object;
  calls : list (ref * string)
}.

(** The fields of [AuthSystem] ([apiBaseUrl] and [DEMO_USERS] are
    constants). *)
Record AuthSystem := mkAuth {
  token : jsval;
  user : jsval;
  currentTheme : string;
  auth_isInitialized : bool
}.

(** The fields of [IndustrialMonitorApp]. [modules] is a [Map]: insertion
    ordered, one entry per key. A [None] value is anything that is not an
    object (the [undefined] a factory may return). *)
Record IndustrialMonitorApp := mkApp {
  wsService : option ref;
  dashboardController : option ref;
  currentPage : string;
  app_user : jsval;
  app_isInitialized : bool;
  modules : list (string * option ref)
}.

Record world := mkWorld {
  browser : Browser;
  foreign : Foreign;
  auth : AuthSystem;
  app : IndustrialMonitorApp
}.

(** ** State and exceptions *)

Inductive exn :=
| TypeError
| NetworkError
| TimeoutError
| SyntaxError
| ConstructionError
| ForeignError (r : ref) (m : string).

Inductive outcome (A : Type) :=
| Ret (a : A)
| Throw (e : exn).
Arguments Ret {A} a.
Arguments Throw {A} e.

Definition M (A : Type) : Type := world → outcome A * world.

Definition ret {A} (a : A) : M A := λ w, (Ret a, w).
Definition throw {A} (e : exn) : M A := λ w, (Throw e, w).
Definition bind {A B} (m : M A) (k : A → M B) : M B :=
  λ w, match m w with
       | (Ret a, w') => k a w'
       | (Throw e, w') => (Throw e, w')
       end.
(** [try { m } catch (e) { h e }] : the mutations [m] made before throwing
    are kept. *)
Definition try_catch {A} (m : M A) (h : exn → M A) : M A :=
  λ w, match m w with
       | (Ret a, w') => (Ret a, w')
       | (Throw e, w') => h e w'
       end.

Declare Scope js_scope.
Delimit Scope js_scope with js.
Notation "x <- m ;; k" := (bind m (λ x, k))
  (at level 100, m at next level, right associativity) : js_scope.
Notation "m ;; k" := (bind m (λ _, k))
  (at level 100, right associativity) : js_scope.
Local Open Scope js_scope.

Definition gets {A} (f : world → A) : M A := λ w, (Ret (f w), w).
Definition modify (f : world → world) : M unit := λ w, (Ret tt, f w).
Definition skip : M unit := ret tt.
Definition when (b : bool) (m : M unit) : M unit := if b then m else skip.

(** [for (x of l) body(x)] *)
Fixpoint forEach {A} (l : list A) (body : A → M unit) : M unit :=
  match l with
  | [] => skip
  | x :: rest => body x ;; forEach rest body
  end.

Definition on_browser (f : Browser → Browser) : M unit :=
  modify (λ w, mkWorld (f (browser w)) (foreign w) (auth w) (app w)).
Definition on_foreign (f : Foreign → Foreign) : M unit :=
  modify (λ w, mkWorld (browser w) (f (foreign w)) (auth w) (app w)).
Definition on_auth (f : AuthSystem → AuthSystem) : M unit :=
  modify (λ w, mkWorld (browser w) (foreign w) (f (auth w)) (app w)).
Definition on_app (f : IndustrialMonitorApp → IndustrialMonitorApp) : M unit :=
  modify (λ w, mkWorld (browser w) (foreign w) (auth w) (f (app w))).

(** ** Browser operations *)

Definition set_localStorage (s : gmap string string) (b : Browser) : Browser :=
  mkBrowser s (location_hash b) (document b) (body_classList b) (root_style b)
            (next_node b) (timers b) (listeners b) (dispatched b) (Date_now b).
Definition set_location (h : string) (q : list (schedule * task)) (b : Browser) : Browser :=
  mkBrowser (localStorage b) h (document b) (body_classList b) (root_style b)
            (next_node b) q (listeners b) (dispatched b) (Date_now b).
Definition set_document (d : list element) (b : Browser) : Browser :=
  mkBrowser (localStorage b) (location_hash b) d (body_classList b) (root_style b)
            (next_node b) (timers b) (listeners b) (dispatched b) (Date_now b).
Definition set_body_classList (c : list string) (b : Browser) : Browser :=
  mkBrowser (localStorage b) (location_hash b) (document b) c (root_style b)
            (next_node b) (timers b) (listeners b) (dispatched b) (Date_now b).
Definition set_root_style (s : gmap string string) (b : Browser) : Browser :=
  mkBrowser (localStorage b) (location_hash b) (document b) (body_classList b) s
            (next_node b) (timers b) (listeners b) (dispatched b) (Date_now b).
Definition set_next_node (n : node) (b : Browser) : Browser :=
  mkBrowser (localStorage b) (location_hash b) (document b) (body_classList b) (root_style b)
            n (timers b) (listeners b) (dispatched b) (Date_now b).
Definition set_timers (q : list (schedule * task)) (b : Browser) : Browser :=
  mkBrowser (localStorage b) (location_hash b) (document b) (body_classList b) (root_style b)
            (next_node b) q (listeners b) (dispatched b) (Date_now b).
Definition set_listeners (l : list listener) (b : Browser) : Browser :=
  mkBrowser (localStorage b) (location_hash b) (document b) (body_classList b) (root_style b)
            (next_node b) (timers b) l (dispatched b) (Date_now b).
Definition set_dispatched (l : list custom_event) (b : Browser) : Browser :=
  mkBrowser (localStorage b) (location_hash b) (document b) (body_classList b) (root_style b)
            (next_node b) (timers b) (listeners b) l (Date_now b).

Definition getItem (k : string) : M (option string) :=
  gets (λ w, localStorage (browser w) !! k).
Definition setItem (k v : string) : M unit :=
  on_browser (λ b, set_localStorage (<[k := v]> (localStorage b)) b).

(** [window.location.hash = h], with [h] of the form ["#..."]. The browser
    queues a [hashchange] event only when the fragment really changes. *)
Definition assign_hash (h : string) : M unit :=
  on_browser (λ b,
    if String.eqb (location_hash b) h then b
    else set_location h (timers b ++ [(NextEvent, HashChange)]) b).

Definition setTimeout (t : task) (ms : Z) : M unit :=
  on_browser (λ b, set_timers (timers b ++ [(After ms, t)]) b).
Definition requestAnimationFrame (t : task) : M unit :=
  on_browser (λ b, set_timers (timers b ++ [(NextFrame, t)]) b).
Definition addEventListener (l : listener) : M unit :=
  on_browser (λ b, set_listeners (listeners b ++ [l]) b).
Definition dispatchEvent (e : custom_event) : M unit :=
  on_browser (λ b, set_dispatched (dispatched b ++ [e]) b).

Definition the_document : M (list element) := gets (λ w, document (browser w)).
Definition on_document (f : list element → list element) : M unit :=
  on_browser (λ b, set_document (f (document b)) b).
Definition on_node (n : node) (f : element → element) : M unit :=
  on_document (update_node n f).

(** [document.createElement('div')] followed by [appendChild] on the body:
    a fresh element at the end of the document. *)
Definition append_to_body (classes : list string) (html : string) : M node :=
  n <- gets (λ w, next_node (browser w)) ;;
  on_browser (λ b,
    set_next_node (S n)
      (set_document (document b ++ [Element n None "div" ∅ classes JUndefined html ∅]) b)) ;;
  ret n.

(** Modelled from the spec: [stateStore.updateState] of [state/store.js],
    which is not part of the sources at hand. The spec has the session
    store as plain data with mutation and query only; [login] uses it to
    mark the connectivity status. It is a key-value record. *)
Definition stateStore_updateState (k v : string) : M unit :=
  on_foreign (λ f, mkForeign (<[k := v]> (stateStore f)) (heap f) (calls f)).

(** Modelled from the spec: [stateStore.reset] of [state/store.js]. The
    spec asks that the session reset be safely callable any number of
    times: it returns the record to its empty initial state and cannot
    fail. *)
Definition stateStore_reset : M unit :=
  on_foreign (λ f, mkForeign ∅ (heap f) (calls f)).

Definition dq : string := String "034"%char EmptyString.
Definition nl : string := String "010"%char EmptyString.

(** ** auth.js *)

Record demo_user := DemoUser {
  du_role : string;
  du_password : string;
  du_id : string;
  du_name : string;
  du_permissions : list string
}.

(** What [fetch] settles to: a response with its status and the outcome of
    [response.json()] ([None] when the body does not parse), a network
    failure, or the abort raised by [AbortSignal.timeout(10000)]. *)
Inductive fetch_result :=
| Response (status : Z) (json : option jsval)
| NetworkFailure
| TimedOut.

Definition response_ok (status : Z) : bool := (200 <=? status) && (status <=? 299).

(** [{ success: true }] and [{ success: false, error }]. *)
Record login_result := LoginResult {
  success : bool;
  error : option string
}.

Module Auth.
Section WithHost.
Context `{Host}.

Definition DEMO_USERS : gmap string demo_user :=
  <["operador" := DemoUser config.ROLES.OPERATOR "op123" "op_1" "Operador Demo"
                           ["view_dashboard"; "view_alerts"]]>
  (<["supervisor" := DemoUser config.ROLES.SUPERVISOR "sup123" "sup_1" "Supervisor Demo"
                           ["view_dashboard"; "view_alerts"; "manage_users"; "configure_system"]]>
   ∅).

Definition set_token (v : jsval) : M unit :=
  on_auth (λ a, mkAuth v (user a) (currentTheme a) (auth_isInitialized a)).
Definition set_user (v : jsval) : M unit :=
  on_auth (λ a, mkAuth (token a) v (currentTheme a) (auth_isInitialized a)).
Definition set_currentTheme (t : string) : M unit :=
  on_auth (λ a, mkAuth (token a) (user a) t (auth_isInitialized a)).

(** [s || fallback] on what [localStorage.getItem] answers. *)
Definition item_or (item : option string) (fallback : string) : string :=
  match item with
  | Some s => if String.eqb s "" then fallback else s
  | None => fallback
  end.

(** The constructor: the session is read back from local storage. *)
Definition constructor : M unit :=
  storedToken <- getItem "iot_token" ;;
  storedUser <- getItem "iot_user" ;;
  storedTheme <- getItem "iot_theme" ;;
  match JSON_parse (item_or storedUser "null") with
  | None => throw SyntaxError
  | Some parsedUser =>
      on_auth (λ _,
        mkAuth (match storedToken with Some s => JStr s | None => JNull end)
               parsedUser
               (item_or storedTheme config.THEMES.OPERATOR)
               false)
  end.

Definition isAuthenticated : M bool :=
  gets (λ w, truthy (token (auth w)) && truthy (user (auth w))).

(** [hoursSinceLogin > 24], over the rationals: timestamps are integers
    far below 2^53, so nothing is rounded on the way to the comparison.
    An unparsable date gives NaN, for which the comparison is false. *)
Definition isTokenExpired : M bool :=
  lastLogin <- getItem "iot_last_login" ;;
  match lastLogin with
  | None => ret true
  | Some s =>
      if String.eqb s "" then ret true
      else
        currentTime <- gets (λ w, Date_now (browser w)) ;;
        match Date_getTime s with
        | None => ret false
        | Some loginTime =>
            let hoursSinceLogin := (inject_Z (currentTime - loginTime) / inject_Z (1000 * 60 * 60))%Q in
            ret (negb (Qle_bool hoursSinceLogin (inject_Z 24)))
        end
  end.

Definition getCurrentUser : M jsval := gets (λ w, user (auth w)).
Definition getCurrentToken : M jsval := gets (λ w, token (auth w)).

Definition hasRole (role : string) : M bool :=
  gets (λ w, is_str (opt_prop (user (auth w)) "role") role).

Definition saveAuthData : M unit :=
  t <- gets (λ w, token (auth w)) ;;
  setItem "iot_token" (ToString t) ;;
  u <- gets (λ w, user (auth w)) ;;
  setItem "iot_user" (JSON_stringify u) ;;
  now <- gets (λ w, Date_now (browser w)) ;;
  setItem "iot_last_login" (Date_toISOString now).

Definition css_variables (theme : string) : list (string * string) :=
  List.map (λ p : string * string, (fst p, "var(--" +:+ theme +:+ snd p +:+ ")"))
    [("--bg-color", "-bg"); ("--panel-color", "-panel"); ("--border-color", "-border");
     ("--text-color", "-text"); ("--text-secondary-color", "-text-secondary");
     ("--accent-color", "-accent"); ("--danger-color", "-danger");
     ("--warning-color", "-warning"); ("--success-color", "-success");
     ("--info-color", "-info")].

Definition updateCSSVariables : M unit :=
  cur <- gets (λ w, currentTheme (auth w)) ;;
  let theme := if String.eqb cur config.THEMES.SUPERVISOR then "supervisor" else "operator" in
  forEach (css_variables theme) (λ kv,
    on_browser (λ b, set_root_style (<[fst kv := snd kv]> (root_style b)) b)).

(** The theme name is taken to be a class token, as the two names of
    [config.THEMES] are: [classList.add] refuses a name with white space. *)
Definition applyTheme : M unit :=
  cur <- gets (λ w, currentTheme (auth w)) ;;
  on_browser (λ b,
    set_body_classList
      (class_add (cur +:+ "-theme")
         (class_remove "supervisor-theme" (class_remove "operator-theme" (body_classList b)))) b) ;;
  updateCSSVariables.

Definition updateToggleIcon : M unit :=
  d <- the_document ;;
  match getElementById d "theme-toggle" with
  | None => skip
  | Some themeToggle =>
      match querySelector_tag d (el_node themeToggle) "i" with
      | None => skip
      | Some icon =>
          cur <- gets (λ w, currentTheme (auth w)) ;;
          on_node (el_node icon)
            (with_classList (λ _,
               if String.eqb cur config.THEMES.OPERATOR
               then ["fas"; "fa-lightbulb"] else ["fas"; "fa-sun"]))
      end
  end.

(** [icons[type] || 'info-circle'], for a [type] that does not name a member
    of [Object.prototype]. *)
Definition getNotificationIcon (type : string) : string :=
  if String.eqb type "success" then "check-circle"
  else if String.eqb type "error" then "exclamation-circle"
  else if String.eqb type "warning" then "exclamation-triangle"
  else "info-circle".

Definition notification_html (icon message : string) : string :=
  nl +:+ "            <i class=" +:+ dq +:+ "fas fa-" +:+ icon +:+ dq +:+ "></i>" +:+
  nl +:+ "            <span>" +:+ message +:+ "</span>" +:+
  nl +:+ "            <button class=" +:+ dq +:+ "notification-close" +:+ dq +:+
         "><i class=" +:+ dq +:+ "fas fa-times" +:+ dq +:+ "></i></button>" +:+
  nl +:+ "        ".

Definition showNotification (message type : string) : M unit :=
  notification <- append_to_body ["auth-notification"; "notification-" +:+ type]
                    (notification_html (getNotificationIcon type) message) ;;
  setTimeout (NotificationShow notification) 10 ;;
  addEventListener (OnCloseClick notification) ;;
  setTimeout (NotificationExpire notification) 5000.

(** Reading a member of an element that is not there is a TypeError. *)
Definition require_element (i : string) : M element :=
  d <- the_document ;;
  match getElementById d i with
  | Some e => ret e
  | None => throw TypeError
  end.

Definition updateAuthenticatedUI : M unit :=
  u <- gets (λ w, user (auth w)) ;;
  if negb (truthy u) then skip
  else
    isSupervisor <- hasRole config.ROLES.SUPERVISOR ;;
    d <- the_document ;;
    forEach (querySelectorAll_class d "supervisor-only") (λ el,
      on_node (el_node el) (with_classList (class_toggle "hidden" (negb isSupervisor)))) ;;
    d <- the_document ;;
    match getElementById d "current-username" with
    | Some usernameElement =>
        on_node (el_node usernameElement)
          (with_textContent (js_or (opt_prop u "name") (opt_prop u "username")))
    | None => skip
    end ;;
    match getElementById d "current-role" with
    | Some roleElement =>
        on_node (el_node roleElement)
          (with_textContent (JStr (if isSupervisor then "Supervisor" else "Operador")))
    | None => skip
    end ;;
    match getElementById d "theme-toggle" with
    | Some themeToggle =>
        on_node (el_node themeToggle) (with_classList (class_toggle "hidden" (negb isSupervisor))) ;;
        updateToggleIcon
    | None => skip
    end ;;
    header <- require_element "app-header" ;;
    on_node (el_node header) (with_classList (class_remove "hidden")) ;;
    footer <- require_element "app-footer" ;;
    on_node (el_node footer) (with_classList (class_remove "hidden")) ;;
    loginPage <- require_element "login-page" ;;
    on_node (el_node loginPage) (with_classList (class_add "hidden")).

(** [v.k] where a TypeError is possible. *)
Definition read (v : jsval) (k : string) : M jsval :=
  match get_prop v k with
  | Some x => ret x
  | None => throw TypeError
  end.

(** The body of the [try] block of [login]: [Some r] when it reaches
    [return r], [None] when it falls through to the fallback. *)
Definition remote_login (username : string) (net : fetch_result) : M (option login_result) :=
  match net with
  | NetworkFailure => throw NetworkError
  | TimedOut => throw TimeoutError
  | Response status json =>
      if response_ok status then
        match json with
        | None => throw SyntaxError
        | Some data =>
            access_token <- read data "access_token" ;;
            set_token access_token ;;
            data_user <- read data "user" ;;
            id <- read data_user "id" ;;
            uname <- read data_user "username" ;;
            role <- read data_user "role" ;;
            name <- read data_user "name" ;;
            permissions <- read data_user "permissions" ;;
            set_user (JObj [("id", id); ("username", uname); ("role", role);
                            ("name", js_or name (JStr username));
                            ("permissions", js_or permissions (JArr []))]) ;;
            saveAuthData ;;
            updateAuthenticatedUI ;;
            stateStore_updateState "systemStatus" "connected" ;;
            ret (Some (LoginResult true None))
        end
      else ret None
  end.

Definition demo_session (username : string) (demoUser : demo_user) : jsval :=
  JObj [("id", JStr (du_id demoUser)); ("username", JStr username);
        ("role", JStr (du_role demoUser)); ("name", JStr (du_name demoUser));
        ("permissions", JArr (List.map JStr (du_permissions demoUser)))].

Definition demo_token (username : string) (now : Z) : string :=
  "DEMO_TOKEN_" +:+ username +:+ "_" +:+ pretty now.

Definition login_failure : login_result :=
  LoginResult false (Some "Credenciales inválidas o backend fuera de línea").

(** Step 2 of [login]: the fallback on the demonstration credentials. In
    the table lookup, a name inherited from [Object.prototype] finds a
    value whose [password] is [undefined], never equal to the string
    submitted: the same as no entry. *)
Definition demo_login (username password : string) : M login_result :=
  match DEMO_USERS !! toLowerCase username with
  | Some demoUser =>
      if String.eqb (du_password demoUser) password then
        set_user (demo_session username demoUser) ;;
        now <- gets (λ w, Date_now (browser w)) ;;
        set_token (JStr (demo_token username now)) ;;
        saveAuthData ;;
        updateAuthenticatedUI ;;
        stateStore_updateState "systemStatus" "connected" ;;
        ret (LoginResult true None)
      else ret login_failure
  | None => ret login_failure
  end.

(** [login(username, password)], given what the request settles to. The
    wait for the response is taken as one step. *)
Definition login (username password : string) (net : fetch_result) : M login_result :=
  attempt <- try_catch (remote_login username net) (λ _, ret None) ;;
  match attempt with
  | Some r => ret r
  | None => demo_login username password
  end.

Definition toggleTheme : M unit :=
  u <- gets (λ w, user (auth w)) ;;
  isSupervisor <- hasRole config.ROLES.SUPERVISOR ;;
  if negb (truthy u) || negb isSupervisor then
    showNotification "Solo supervisores pueden cambiar el tema" "warning"
  else
    cur <- gets (λ w, currentTheme (auth w)) ;;
    let newTheme := if String.eqb cur config.THEMES.OPERATOR
                    then config.THEMES.SUPERVISOR else config.THEMES.OPERATOR in
    set_currentTheme newTheme ;;
    setItem "iot_theme" newTheme ;;
    applyTheme ;;
    updateToggleIcon ;;
    dispatchEvent (ThemeChanged newTheme).
End WithHost.
End Auth.

(** ** Calls into foreign objects *)

Definition lookup_method (w : world) (r : option ref) (name : string) : option (ref * object * method) :=
  match r with
  | None => None
  | Some p =>
      match heap (foreign w) !! p with
      | None => None
      | Some o =>
          match find_method (methods o) name with
          | None => None
          | Some f => Some (p, o, f)
          end
      end
  end.

(** [r && typeof r.name === 'function'] *)
Definition has_method (r : option ref) (name : string) : M bool :=
  gets (λ w, bool_decide (is_Some (lookup_method w r name))).

(** [r.name()] : the call is recorded, the private state of the object moves
    on, and the method returns or throws. Calling what is not a function is
    a TypeError. *)
Definition call (r : option ref) (name : string) : M jsval :=
  w <- gets id ;;
  match lookup_method w r name with
  | None => throw TypeError
  | Some (p, o, f) =>
      on_foreign (λ fs,
        mkForeign (stateStore fs)
                  (<[p := Object (fst (f (ostate o))) (methods o)]> (heap fs))
                  (calls fs ++ [(p, name)])) ;;
      match snd (f (ostate o)) with
      | Some v => ret v
      | None => throw (ForeignError p name)
      end
  end.

(** ** app.js *)

Module App.
Definition set_modules (ms : list (string * option ref)) : M unit :=
  on_app (λ a, mkApp (wsService a) (dashboardController a) (currentPage a)
                     (app_user a) (app_isInitialized a) ms).

(** [Map.prototype.get] *)
Fixpoint map_get (ms : list (string * option ref)) (k : string) : option ref :=
  match ms with
  | [] => None
  | (k', v) :: rest => if String.eqb k' k then v else map_get rest k
  end.

(** [Map.prototype.set] : an existing key keeps its place. *)
Fixpoint map_set (ms : list (string * option ref)) (k : string) (v : option ref)
  : list (string * option ref) :=
  match ms with
  | [] => [(k, v)]
  | (k', v') :: rest =>
      if String.eqb k' k then (k', v) :: rest else (k', v') :: map_set rest k v
  end.

(** [icons[type] || 'info-circle'], for a [type] that does not name a member
    of [Object.prototype]. *)
Definition getNotificationIcon (type : string) : string :=
  if String.eqb type "success" then "check-circle"
  else if String.eqb type "error" then "exclamation-circle"
  else if String.eqb type "warning" then "exclamation-triangle"
  else "info-circle".

Definition showNotification (message type : string) : M unit :=
  notification <- append_to_body ["global-notification"; "notification-" +:+ type]
                    (Auth.notification_html (getNotificationIcon type) message) ;;
  setTimeout (NotificationShow notification) 10 ;;
  addEventListener (OnCloseClick notification) ;;
  setTimeout (NotificationExpire notification) 5000.

(** The wait for an asynchronous [initialize()] is taken as one step. *)
Definition initializeDashboard : M unit :=
  dc <- gets (λ w, dashboardController (app w)) ;;
  match dc with
  | None => skip
  | Some _ =>
      hasReady <- has_method dc "isReady" ;;
      ready <- (if hasReady then v <- call dc "isReady" ;; ret (truthy v) else ret false) ;;
      if negb ready then
        try_catch
          (hasInit <- has_method dc "initialize" ;;
           when hasInit (call dc "initialize" ;; skip) ;;
           hasShow <- has_method dc "show" ;;
           when hasShow (call dc "show" ;; skip))
          (λ _, showNotification "Error inicializando dashboard" "error")
      else
        hasShow <- has_method dc "show" ;;
        when hasShow (call dc "show" ;; skip)
  end.

Definition initializeAlertsPage : M unit :=
  alertSystem <- gets (λ w, map_get (modules (app w)) "alerts") ;;
  hasRender <- has_method alertSystem "renderHistory" ;;
  when hasRender (call alertSystem "renderHistory" ;; skip).

Definition initializePageModules (pageId : string) : M unit :=
  if String.eqb pageId "dashboard" then initializeDashboard
  else if String.eqb pageId "alerts" then initializeAlertsPage
  else skip.

Definition is_nav_target (targetPageId : string) (e : element) : bool :=
  has_class "nav-item" e &&
  (bool_decide (el_attrs e !! "href" = Some ("#" +:+ targetPageId)) ||
   bool_decide (el_attrs e !! "data-target" = Some targetPageId)).

(** Step 4 of [navigateTo]: leave the active pages, stage the target and
    start its modules. The target receives its [active] class in the
    animation frame callback [PageEnter]. *)
Definition transition (allPages navItems : list element) (targetPage : element)
           (targetPageId : string) : M unit :=
  forEach allPages (λ page,
    when (has_class "active" page)
      (on_node (el_node page)
         (λ e, with_classList (class_remove "active")
                 (with_style (insert "transition" "opacity 0.2s ease-out, visibility 0.2s ease-out") e)) ;;
       setTimeout (PageHide (el_node page)) 200)) ;;
  forEach navItems (λ item, on_node (el_node item) (with_classList (class_remove "active"))) ;;
  on_node (el_node targetPage)
    (with_style (λ s, <["visibility" := "hidden"]> (<["opacity" := "0"]> (<["display" := "block"]> s)))) ;;
  requestAnimationFrame (PageEnter (el_node targetPage)) ;;
  d <- the_document ;;
  match List.find (is_nav_target targetPageId) d with
  | Some activeNavItem => on_node (el_node activeNavItem) (with_classList (class_add "active"))
  | None => skip
  end ;;
  initializePageModules targetPageId.

Definition navigateTo (targetPageId : string) : M unit :=
  d <- the_document ;;
  let allPages := querySelectorAll_class d "page" in
  let targetPage := getElementById d (targetPageId +:+ "-page") in
  let navItems := querySelectorAll_class d "nav-item" in
  u <- gets (λ w, app_user (app w)) ;;
  if negb (String.eqb targetPageId "login") && negb (truthy u) then
    assign_hash "#login"
  else if match targetPage with
          | Some p => has_class "supervisor-only" p
          | None => false
          end && negb (is_str (opt_prop u "role") config.ROLES.SUPERVISOR) then
    assign_hash "#dashboard"
  else if match targetPage with
          | Some p => has_class "active" p
          | None => false
          end then
    skip
  else
    match targetPage with
    | Some p => transition allPages navItems p targetPageId
    | None => assign_hash "#dashboard"
    end.

(** The [hashchange] listener installed by [setupRouting]. A rejected
    navigation is only logged. *)
Definition on_hashchange : M unit :=
  h <- gets (λ w, location_hash (browser w)) ;;
  let hash := substring1 h in
  if String.eqb hash "" then skip
  else try_catch (navigateTo hash) (λ _, skip).

Definition setupRouting : M unit :=
  addEventListener OnHashChange ;;
  h <- gets (λ w, location_hash (browser w)) ;;
  let initialHash := if String.eqb (substring1 h) "" then "dashboard" else substring1 h in
  u <- gets (λ w, app_user (app w)) ;;
  if truthy u then
    try_catch (navigateTo initialHash) (λ _, skip)
  else if String.eqb h "" || String.eqb h "#dashboard" then
    assign_hash "#login"
  else skip.

(** [if (m && typeof m.name === 'function') { try { m.name(); } catch {} }] *)
Definition try_call (m : option ref) (name : string) : M unit :=
  present <- has_method m name ;;
  when present (try_catch (call m name ;; skip) (λ _, skip)).

Definition cleanup : M unit :=
  ws <- gets (λ w, wsService (app w)) ;;
  try_call ws "disconnect" ;;
  dc <- gets (λ w, dashboardController (app w)) ;;
  try_call dc "destroy" ;;
  ms <- gets (λ w, modules (app w)) ;;
  forEach ms (λ entry, try_call (snd entry) "destroy") ;;
  set_modules [] ;;
  stateStore_reset.

Definition set_user (u : jsval) : M unit :=
  on_app (λ a, mkApp (wsService a) (dashboardController a) (currentPage a)
                     u (app_isInitialized a) (modules a)).
Definition set_wsService (r : option ref) : M unit :=
  on_app (λ a, mkApp r (dashboardController a) (currentPage a)
                     (app_user a) (app_isInitialized a) (modules a)).
Definition set_dashboardController (r : option ref) : M unit :=
  on_app (λ a, mkApp (wsService a) r (currentPage a)
                     (app_user a) (app_isInitialized a) (modules a)).
Definition modules_set (k : string) (v : option ref) : M unit :=
  ms <- gets (λ w, modules (app w)) ;;
  set_modules (map_set ms k v).

Definition setupCleanup : M unit :=
  addEventListener OnUnload ;;
  addEventListener OnPageHide.

(** What the module factories hand back: [initializeAlertSystem()],
    [initializeThemeManager(user)], [new WebSocketService(config.WS_URL)]
    ([None] when the constructor throws) and [getDashboardController()]. *)
Record factories := Factories {
  alert_system : option ref;
  theme_manager : option ref;
  web_socket : option ref;
  dashboard_controller : option ref
}.

(** The controller is stored in [dashboardController] and registered under
    "dashboard": one object, reached both ways by [cleanup]. This is the
    method once its three factory calls have returned [f]; the calls
    themselves, which may throw, are in [AppStartup] below. *)
Definition initializeAuthenticatedModules (f : factories) : M unit :=
  modules_set "alerts" (alert_system f) ;;
  modules_set "theme" (theme_manager f) ;;
  try_catch
    (match web_socket f with
     | None => throw ConstructionError
     | Some ws =>
         set_wsService (Some ws) ;;
         hasConnect <- has_method (Some ws) "connect" ;;
         when hasConnect (call (Some ws) "connect" ;; skip) ;;
         modules_set "websocket" (Some ws)
     end)
    (λ _, skip) ;;
  set_dashboardController (dashboard_controller f) ;;
  modules_set "dashboard" (dashboard_controller f) ;;
  setupCleanup.

Definition setupGlobalEvents : M unit :=
  addEventListener OnLoginSuccess ;;
  addEventListener OnLogout ;;
  addEventListener OnBeforeUnload.

(** The [auth:logout] listener. *)
Definition on_logout : M unit :=
  cleanup ;;
  set_user JNull ;;
  try_catch (navigateTo "login") (λ _, skip).

(** ** Deferred callbacks *)

Definition remove_node (n : node) (d : list element) : list element :=
  List.filter (λ e, negb (Nat.eqb (el_node e) n)) d.

(** The close button and the expiry timer both end with this. *)
Definition dismiss (n : node) : M unit :=
  on_node n (with_classList (class_remove "show")) ;;
  setTimeout (NotificationDetach n) 300.

Definition run_task (t : task) : M unit :=
  match t with
  | NotificationShow n => on_node n (with_classList (class_add "show"))
  | NotificationExpire n =>
      d <- the_document ;;
      match lookup_node d n with
      | Some e => when (has_class "show" e) (dismiss n)
      | None => skip
      end
  | NotificationDetach n => on_document (remove_node n)
  | PageHide n =>
      on_node n (with_style (λ s, <["transition" := ""]> (<["display" := "none"]> s)))
  | PageEnter n =>
      on_node n (λ e,
        with_style (λ s, <["visibility" := "visible"]> (<["opacity" := "1"]> s))
          (with_classList (class_add "active")
             (with_style (insert "transition" "opacity 0.3s ease-out, visibility 0.3s ease-out") e))) ;;
      setTimeout (PageSettle n) 300
  | PageSettle n => on_node n (with_style (insert "transition" ""))
  | HashChange =>
      ls <- gets (λ w, listeners (browser w)) ;;
      forEach ls (λ l, match l with OnHashChange => on_hashchange | _ => skip end)
  end.

(** Run the [i]-th pending callback, taking it off the queue. *)
Definition deliver (i : nat) : M unit :=
  q <- gets (λ w, timers (browser w)) ;;
  match q !! i with
  | None => skip
  | Some (_, t) =>
      on_browser (λ b, set_timers (take i (timers b) ++ drop (S i) (timers b)) b) ;;
      run_task t
  end.
End App.

(** ** Specification vocabulary *)

(** The values the language treats as absent in a condition. *)
Definition falsy (v : jsval) : Prop :=
  v = JUndefined ∨ v = JNull ∨ v = JBool false ∨ v = JNum 0 ∨ v = JStr "".

(** The remote attempt failed: a response with a non-success status, a
    network error, or the timeout. *)
Definition remote_failed (net : fetch_result) : Prop :=
  match net with
  | Response status _ => response_ok status = false
  | NetworkFailure | TimedOut => True
  end.

(** The local fallback lookup of [(username, password)]. *)
Definition fallback_matches (username password : string) (d : demo_user) : Prop :=
  Auth.DEMO_USERS !! toLowerCase username = Some d ∧ du_password d = password.

(** The three elements [updateAuthenticatedUI] dereferences without a
    check. *)
Definition shell_ready (d : list element) : Prop :=
  is_Some (getElementById d "app-header") ∧
  is_Some (getElementById d "app-footer") ∧
  is_Some (getElementById d "login-page").

Definition day_ms : Z := 24 * 60 * 60 * 1000.

(** The page element a view identifier resolves to. *)
Definition page_of (w : world) (viewId : string) : option element :=
  getElementById (document (browser w)) (viewId +:+ "-page").

(** The view named by the fragment at startup, "dashboard" when there is
    none. *)
Definition initial_view (w : world) : string :=
  match substring1 (location_hash (browser w)) with
  | EmptyString => "dashboard"
  | fragment => fragment
  end.

(** The state once the [hashchange] listener is installed. *)
Definition listening (w : world) : world := snd (addEventListener OnHashChange w).

(** [r] is an object of the heap with a method [name]. *)
Definition callable (w : world) (r : ref) (name : string) : Prop :=
  is_Some (lookup_method w (Some r) name).

(** [w'] comes from [w] by calls into foreign objects only: the calls [l]
    were appended to the trace, private states may have moved, and every
    object kept its methods. *)
Record after_calls (w w' : world) (l : list (ref * string)) : Prop := {
  ac_browser : browser w' = browser w;
  ac_auth : auth w' = auth w;
  ac_app : app w' = app w;
  ac_store : stateStore (foreign w') = stateStore (foreign w);
  ac_methods : ∀ p, methods <$> heap (foreign w') !! p = methods <$> heap (foreign w) !! p;
  ac_calls : calls (foreign w') = (calls (foreign w) ++ l)%list
}.

(** [w'] differs from [w] in how elements are rendered only: same elements,
    in the same order, with the same attributes. *)
Definition repainted (w w' : world) : Prop :=
  ∃ d',
    w' = mkWorld (set_document d' (browser w)) (foreign w) (auth w) (app w) ∧
    List.map el_attrs d' = List.map el_attrs (document (browser w)).

(** A computation that only repaints, and that returns normally when the
    shell elements are in the document. *)
Definition paints {A} (m : M A) : Prop :=
  ∀ w, ∃ r w',
    m w = (r, w') ∧ repainted w w' ∧
    (shell_ready (document (browser w)) → ∃ a, r = Ret a).

(** ** Example states *)

Definition operator_user : jsval :=
  JObj [("id", JStr "op_1"); ("username", JStr "operador"); ("role", JStr "operator");
        ("name", JStr "Operador Demo");
        ("permissions", JArr [JStr "view_dashboard"; JStr "view_alerts"])].

(** A host that knows one date and one user record. *)
Definition example_host : Host := {|
  JSON_stringify := λ v, match v with JNull => "null" | _ => "{operador}" end;
  JSON_parse := λ s, if String.eqb s "null" then Some JNull
                     else if String.eqb s "{operador}" then Some operator_user
                     else None;
  Date_toISOString := λ _, "2024-01-01T00:00:00.000Z";
  Date_getTime := λ s, if String.eqb s "2024-01-01T00:00:00.000Z" then Some 1704067200000 else None;
  coerce_string := λ _, "undefined"
|}.

Definition div_ (n : nat) (i : string) (cls : list string) : element :=
  Element n None "div" {["id" := i]} cls JUndefined "" ∅.

Definition example_document : list element :=
  [div_ 0 "app-header" ["hidden"]; div_ 1 "app-footer" ["hidden"];
   div_ 2 "login-page" ["page"; "active"]; div_ 3 "dashboard-page" ["page"];
   div_ 4 "reports-page" ["page"; "supervisor-only"];
   div_ 5 "config-page" ["page"; "supervisor-only"]].

Definition example_browser : Browser :=
  mkBrowser ∅ "" example_document [] ∅ 6%nat [] [] [] 1704067200000.

Definition no_modules : Foreign := mkForeign ∅ ∅ [].

Definition logged_out : world :=
  mkWorld example_browser no_modules
          (mkAuth JNull JNull "operator" false)
          (mkApp None None "login" JNull false []).

(** A session holding a user record and the empty string as token. *)
Definition empty_token_session : world :=
  mkWorld example_browser no_modules
          (mkAuth (JStr "") operator_user "operator" false)
          (mkApp None None "login" JNull false []).


(** Local storage with a user record and an empty token entry. *)
Definition empty_token_stored : world :=
  mkWorld (mkBrowser (<["iot_token" := ""]> {["iot_user" := "{operador}"]}) ""
                     example_document [] ∅ 6%nat [] [] [] 1704067200000)
          no_modules
          (mkAuth JUndefined JUndefined "" false)
          (mkApp None None "login" JNull false []).

Definition one_day_later : Z := 1704067200000 + 25 * 60 * 60 * 1000.

(** A session whose login was recorded twenty-five hours ago. *)
Definition stale_login : world :=
  mkWorld
    (mkBrowser {["iot_last_login" := "2024-01-01T00:00:00.000Z"]} "#dashboard"
               example_document [] ∅ 6%nat [] [] [] one_day_later)
    no_modules
    (mkAuth (JStr "DEMO_TOKEN_operador_1704067200000") operator_user "operator" true)
    (mkApp None None "login" JNull false []).

Definition dashboard_document : list element :=
  [div_ 0 "app-header" []; div_ 1 "app-footer" [];
   div_ 2 "login-page" ["page"; "hidden"]; div_ 3 "dashboard-page" ["page"; "active"];
   div_ 4 "reports-page" ["page"; "supervisor-only"];
   div_ 5 "config-page" ["page"; "supervisor-only"]].

Definition dashboard_browser (fragment : string) : Browser :=
  mkBrowser ∅ fragment dashboard_document [] ∅ 6%nat [] [OnHashChange] [] 1704067200000.

(** An operator looking at the dashboard. *)
Definition operator_session : world :=
  mkWorld (dashboard_browser "#dashboard") no_modules
          (mkAuth (JStr "DEMO_TOKEN_operador_1704067200000") operator_user "operator" true)
          (mkApp None None "login" operator_user true []).

(** A start on a deep link, logged out. *)
Definition deep_link_logged_out : world :=
  mkWorld (mkBrowser ∅ "#reports" example_document [] ∅ 6%nat [] [] [] 1704067200000)
          no_modules
          (mkAuth JNull JNull "operator" false)
          (mkApp None None "login" JNull false []).

Definition returning : method := λ s, (S s, Some JUndefined).
Definition throwing : method := λ s, (S s, None).

(** An alert system whose [destroy] throws, a theme manager that is not an
    object, a transport whose [disconnect] throws, and a dashboard
    controller. *)
Definition example_heap : gmap ref object :=
  <[0%nat := Object 0 [("connect", returning); ("disconnect", throwing)]]>
  (<[1%nat := Object 0 [("isReady", returning); ("initialize", returning);
                        ("show", returning); ("destroy", returning)]]>
   (<[2%nat := Object 0 [("renderHistory", returning); ("destroy", throwing)]]> ∅)).

Definition example_factories : App.factories :=
  App.Factories (Some 2%nat) None (Some 0%nat) (Some 1%nat).

(** The operator's session once [initializeAuthenticatedModules] has filled
    the registry. *)
Definition with_registry : world :=
  snd (App.initializeAuthenticatedModules example_factories
         (mkWorld (dashboard_browser "#dashboard") (mkForeign ∅ example_heap [])
                  (auth operator_session) (app operator_session))).

(** Right after a login: the user is set and the login page is still the
    active one. *)
Definition just_logged_in : world :=
  mkWorld example_browser no_modules
          (mkAuth (JStr "DEMO_TOKEN_operador_1704067200000") operator_user "operator" true)
          (mkApp None None "login" operator_user true []).

(** * The rest of the two classes *)

(** [localStorage.removeItem] *)
Definition removeItem (k : string) : M unit :=
  on_browser (λ b, set_localStorage (delete k (localStorage b)) b).

(** [s.includes(p)] on strings. *)
Fixpoint includes_str (s p : string) : bool :=
  startsWith s p ||
  match s with
  | EmptyString => false
  | String _ rest => includes_str rest p
  end.

(** ** The page around the program

    [logout] ends by arming a timer that reloads the page, and the
    authentication events are heard outside the program as well: both are
    kept beside the program state. *)
Inductive auth_event :=
| LogoutEvent
| AlreadyAuthenticatedEvent (detail_user : jsval).

Record page := Page {
  running : world;
  reloads : list Z;
  announced : list auth_event
}.

Definition P (A : Type) : Type := page → outcome A * page.

Definition retP {A} (a : A) : P A := λ p, (Ret a, p).
Definition bindP {A B} (m : P A) (k : A → P B) : P B :=
  λ p, match m p with
       | (Ret a, p') => k a p'
       | (Throw e, p') => (Throw e, p')
       end.
Definition try_catchP {A} (m : P A) (h : exn → P A) : P A :=
  λ p, match m p with
       | (Ret a, p') => (Ret a, p')
       | (Throw e, p') => h e p'
       end.
(** A step of the program proper. *)
Definition lift {A} (m : M A) : P A :=
  λ p, (fst (m (running p)), Page (snd (m (running p))) (reloads p) (announced p)).

Declare Scope page_scope.
Delimit Scope page_scope with page.
Notation "x <- m ;; k" := (bindP m (λ x, k))
  (at level 100, m at next level, right associativity) : page_scope.
Notation "m ;; k" := (bindP m (λ _, k))
  (at level 100, right associativity) : page_scope.

(** [setTimeout(() => window.location.reload(), ms)] *)
Definition reload_after (ms : Z) : P unit :=
  λ p, (Ret tt, Page (running p) (reloads p ++ [ms]) (announced p)).
Definition announce (e : auth_event) : P unit :=
  λ p, (Ret tt, Page (running p) (reloads p) (announced p ++ [e])).

(** The listeners of [auth:logout] inside the program, run in the order
    they were added; what a listener throws does not reach the
    dispatcher. *)
Definition run_logout_listeners : M unit :=
  ls <- gets (λ w, listeners (browser w)) ;;
  forEach ls (λ l,
    match l with
    | OnLogout => try_catch App.on_logout (λ _, skip)
    | _ => skip
    end).

(** ** auth.js, continued *)

Module AuthSession.
Section WithHost.
Context `{Host}.

(** [this.user?.permissions?.includes(permission) || false]. An array is
    searched for the string, a string for the substring; any other value
    that is not [null] or [undefined] has no [includes] to call. *)
Definition hasPermission (permission : string) : M bool :=
  u <- gets (λ w, user (auth w)) ;;
  match opt_prop u "permissions" with
  | JUndefined | JNull => ret false
  | JArr items => ret (existsb (λ item, is_str item permission) items)
  | JStr s => ret (includes_str s permission)
  | _ => throw TypeError
  end.

Definition logout : P unit :=
  (lift (Auth.set_token JNull) ;;
   lift (Auth.set_user JNull) ;;
   lift (removeItem "iot_token") ;;
   lift (removeItem "iot_user") ;;
   announce LogoutEvent ;;
   lift run_logout_listeners ;;
   lift stateStore_reset ;;
   lift (assign_hash "#login") ;;
   reload_after 100)%page.

Definition checkCurrentAuth : P unit :=
  (authenticated <- lift Auth.isAuthenticated ;;
   if authenticated then
     expired <- lift Auth.isTokenExpired ;;
     if expired then logout
     else
       lift Auth.updateAuthenticatedUI ;;
       u <- lift (gets (λ w, user (auth w))) ;;
       announce (AlreadyAuthenticatedEvent u)
   else retP tt)%page.
End WithHost.
End AuthSession.

(** ** app.js, continued *)

Module AppStartup.
Section WithHost.
Context `{Host}.

(** [if (el) el.classList...] for the element with that id. *)
Definition on_element (i : string) (f : list string → list string) : M unit :=
  d <- the_document ;;
  match getElementById d i with
  | Some el => on_node (el_node el) (with_classList f)
  | None => skip
  end.

Definition showAuthenticatedUI : M unit :=
  on_element "app-header" (class_remove "hidden") ;;
  on_element "app-footer" (class_remove "hidden") ;;
  on_element "login-page" (class_add "hidden") ;;
  u <- gets (λ w, app_user (app w)) ;;
  when (truthy u)
    (d <- the_document ;;
     match getElementById d "current-username" with
     | Some usernameElement =>
         on_node (el_node usernameElement)
           (with_textContent (js_or (opt_prop u "username") (JStr "")))
     | None => skip
     end ;;
     match getElementById d "current-role" with
     | Some roleElement =>
         on_node (el_node roleElement)
           (with_textContent
              (JStr (if is_str (opt_prop u "role") config.ROLES.SUPERVISOR
                     then "Supervisor" else "Operador")))
     | None => skip
     end).

Definition showLoginUI : M unit :=
  on_element "app-header" (class_add "hidden") ;;
  on_element "app-footer" (class_add "hidden") ;;
  on_element "login-page" (class_remove "hidden").

(** [checkAuth()], with [window.auth] the [AuthSystem] instance. *)
Definition checkAuth : P unit :=
  try_catchP
    (authenticated <- lift Auth.isAuthenticated ;;
     valid <- (if authenticated : bool
               then expired <- lift Auth.isTokenExpired ;; retP (negb expired)
               else retP false) ;;
     if valid : bool then
       u <- lift Auth.getCurrentUser ;;
       lift (App.set_user u) ;;
       lift showAuthenticatedUI
     else
       lift showLoginUI ;;
       stillExpired <- lift Auth.isTokenExpired ;;
       if stillExpired then AuthSession.logout else retP tt)%page
    (λ _, lift showLoginUI).
End WithHost.

(** What one of the factory calls of [initializeAuthenticatedModules] comes
    to: it hands back its result ([None] for a result that is not an
    object), or it throws. *)
Inductive factory_call :=
| Returns (r : option ref)
| Throws.

(** [initializeAlertSystem()], [initializeThemeManager(this.user)],
    [new WebSocketService(config.WS_URL)] ([None] when the constructor
    throws) and [getDashboardController()]. *)
Record factory_calls := FactoryCalls {
  alert_system_call : factory_call;
  theme_manager_call : factory_call;
  web_socket_call : option ref;
  dashboard_controller_call : factory_call
}.

Definition factory (c : factory_call) : M (option ref) :=
  match c with
  | Returns r => ret r
  | Throws => throw ConstructionError
  end.

(** [initializeAuthenticatedModules()] with its factory calls: only the
    transport is set up inside a [try]. *)
Definition initializeAuthenticatedModules (c : factory_calls) : M unit :=
  alertSystem <- factory (alert_system_call c) ;;
  App.modules_set "alerts" alertSystem ;;
  themeManager <- factory (theme_manager_call c) ;;
  App.modules_set "theme" themeManager ;;
  try_catch
    (match web_socket_call c with
     | None => throw ConstructionError
     | Some ws =>
         App.set_wsService (Some ws) ;;
         hasConnect <- has_method (Some ws) "connect" ;;
         when hasConnect (call (Some ws) "connect" ;; skip) ;;
         App.modules_set "websocket" (Some ws)
     end)
    (λ _, skip) ;;
  dashboardController <- factory (dashboard_controller_call c) ;;
  App.set_dashboardController dashboardController ;;
  App.modules_set "dashboard" dashboardController ;;
  App.setupCleanup.

(** The [auth:loginSuccess] listener, for the user carried by the event. *)
Definition on_loginSuccess (detail_user : jsval) (c : factory_calls) : M unit :=
  try_catch
    (App.set_user detail_user ;;
     initializeAuthenticatedModules c ;;
     App.navigateTo "dashboard")
    (λ _, skip).
End AppStartup.

(** The state at another time of the clock. *)
Definition at_time (t : Z) (w : world) : world :=
  mkWorld (mkBrowser (localStorage (browser w)) (location_hash (browser w))
                     (document (browser w)) (body_classList (browser w))
                     (root_style (browser w)) (next_node (browser w))
                     (timers (browser w)) (listeners (browser w))
                     (dispatched (browser w)) t)
          (foreign w) (auth w) (app w).

(** ** Vocabulary for the further properties *)

(** [m] never changes the part [f] of the state, also when it throws. *)
Definition preserves {A X} (f : world → X) (m : M A) : Prop :=
  ∀ w, f (snd (m w)) = f w.

(** [m] always returns normally. *)
Definition returns {A} (m : M A) : Prop :=
  ∀ w, ∃ a, fst (m w) = Ret a.

(** The theme [toggleTheme] switches to. *)
Definition other_theme (t : string) : string :=
  if bool_decide (t = "operator") then "supervisor" else "operator".

(** The palette [updateCSSVariables] selects. *)
Definition palette_of (t : string) : string :=
  if bool_decide (t = "supervisor") then "supervisor" else "operator".

(** The parts of the state that make up the persisted session. *)
Definition stored (w : world) : gmap string string := localStorage (browser w).

(** The user object of a response payload, when it has one. *)
Definition payload_user (data : jsval) : option jsval :=
  match get_prop data "user" with
  | Some JUndefined | Some JNull | None => None
  | Some du => Some du
  end.

(** The user record [login] builds from a payload. *)
Definition session_of_payload (username : string) (du : jsval) : jsval :=
  JObj [("id", opt_prop du "id"); ("username", opt_prop du "username");
        ("role", opt_prop du "role");
        ("name", js_or (opt_prop du "name") (JStr username));
        ("permissions", js_or (opt_prop du "permissions") (JArr []))].

(** The state with another token in memory. *)
Definition with_token (t : jsval) (w : world) : world :=
  mkWorld (browser w) (foreign w)
          (mkAuth t (user (auth w)) (currentTheme (auth w)) (auth_isInitialized (auth w)))
          (app w).

(** What [saveAuthData] leaves in storage. *)
Definition saved `{Host} (token user : jsval) (now : Z) (s : gmap string string)
  : gmap string string :=
  <["iot_last_login" := Date_toISOString now]>
    (<["iot_user" := JSON_stringify user]> (<["iot_token" := ToString token]> s)).

(** ** Further example states *)

Definition supervisor_user : jsval :=
  JObj [("id", JStr "sup_1"); ("username", JStr "supervisor"); ("role", JStr "supervisor");
        ("name", JStr "Supervisor Demo");
        ("permissions", JArr [JStr "view_dashboard"; JStr "view_alerts";
                              JStr "manage_users"; JStr "configure_system"])].

(** A supervisor looking at the dashboard. *)
Definition supervisor_session : world :=
  mkWorld (dashboard_browser "#dashboard") no_modules
          (mkAuth (JStr "DEMO_TOKEN_supervisor_1704067200000") supervisor_user "operator" true)
          (mkApp None None "login" supervisor_user true []).

Definition operador_entry : demo_user :=
  DemoUser "operator" "op123" "op_1" "Operador Demo" ["view_dashboard"; "view_alerts"].

(** A success payload for a user the backend calls "ana", without a name
    and without permissions. *)
Definition ana_payload : jsval :=
  JObj [("access_token", JStr "jwt-ana");
        ("user", JObj [("id", JNum 7); ("username", JStr "ana"); ("role", JStr "supervisor")])].

(** A success payload that carries a token and no user. *)
Definition userless_payload : jsval := JObj [("access_token", JStr "jwt-orphan")].

(** The application record once [cleanup] has emptied the registry. *)
Definition torn_down (a : IndustrialMonitorApp) : IndustrialMonitorApp :=
  mkApp (wsService a) (dashboardController a) (currentPage a)
        (app_user a) (app_isInitialized a) [].

(** The application record after the [auth:logout] listener. *)
Definition signed_out (a : IndustrialMonitorApp) : IndustrialMonitorApp :=
  mkApp (wsService a) (dashboardController a) (currentPage a)
        JNull (app_isInitialized a) [].

(** The session fields after [logout]. *)
Definition cleared (a : AuthSystem) : AuthSystem :=
  mkAuth JNull JNull (currentTheme a) (auth_isInitialized a).

(** The state with another registry. *)
Definition with_modules (ms : list (string * option ref)) (w : world) : world :=
  mkWorld (browser w) (foreign w) (auth w)
          (mkApp (wsService (app w)) (dashboardController (app w)) (currentPage (app w))
                 (app_user (app w)) (app_isInitialized (app w)) ms).


(** ** Vocabulary for foreign objects *)








(** The stale session seen at the time of its login, and exactly 24 hours
    later. *)
Definition fresh_login : world := at_time 1704067200000 stale_login.
Definition login_at_24h : world := at_time (1704067200000 + day_ms) stale_login.

(** ** Vocabulary for the shell *)

(** The document after [if (el) ...] has been applied to the element with
    id [i]. *)
Definition doc_step (d : list element) (i : string) (f : element → element) : list element :=
  match getElementById d i with
  | Some el => update_node (el_node el) f d
  | None => d
  end.

(** The state with another document. *)
Definition with_document (d : list element) (w : world) : world :=
  mkWorld (set_document d (browser w)) (foreign w) (auth w) (app w).

(** The state in which the application has taken over the user of the
    session. *)
Definition adopted (w : world) : world :=
  mkWorld (browser w) (foreign w) (auth w)
          (mkApp (wsService (app w)) (dashboardController (app w)) (currentPage (app w))
                 (user (auth w)) (app_isInitialized (app w)) (modules (app w))).

(** What [showAuthenticatedUI] shows for the user [u]: header and footer
    are not hidden, the login page is, and the name and role fields carry
    the user's. Each holds of the element with that id when there is
    one. *)
Definition authenticated_shell (u : jsval) (d : list element) : Prop :=
  (∀ e, getElementById d "app-header" = Some e → "hidden" ∉ classList e) ∧
  (∀ e, getElementById d "app-footer" = Some e → "hidden" ∉ classList e) ∧
  (∀ e, getElementById d "login-page" = Some e → "hidden" ∈ classList e) ∧
  (∀ e, getElementById d "current-username" = Some e →
        textContent e = js_or (opt_prop u "username") (JStr "")) ∧
  (∀ e, getElementById d "current-role" = Some e →
        textContent e = JStr (if is_str (opt_prop u "role") config.ROLES.SUPERVISOR
                              then "Supervisor" else "Operador")).

(** ** Further example states, continued *)


(** An operator whose fragment names the configuration view. *)
Definition operator_on_config : world :=
  mkWorld (dashboard_browser "#config") no_modules
          (auth operator_session) (app operator_session).

(** A success payload with a supervisor and no token. *)
Definition tokenless_payload : jsval :=
  JObj [("user", JObj [("id", JNum 7); ("username", JStr "ana"); ("role", JStr "supervisor")])].

(** Factory calls that all return, none of them an object. *)
Definition no_objects : AppStartup.factory_calls :=
  AppStartup.FactoryCalls (AppStartup.Returns None) (AppStartup.Returns None) None
                          (AppStartup.Returns None).

(** The login form submitted with that response: [login] reports success,
    so the form handler dispatches [auth:loginSuccess] with the user of the
    session, the application's listener runs, and the three callbacks of
    its navigation to the dashboard are delivered. *)
Definition tokenless_login : world :=
  snd (@Auth.login example_host "ana" "secret" (Response 200 (Some tokenless_payload))
         logged_out).
Definition tokenless_signed_in : world :=
  snd (forEach [0; 0; 0]%nat App.deliver
         (snd (AppStartup.on_loginSuccess (user (auth tokenless_login)) no_objects
                 tokenless_login))).

(** ** Vocabulary for page transitions *)

(** Every run of [m] takes the state along [R], also when it throws. *)
Definition along {A} (R : world → world → Prop) (m : M A) : Prop :=
  ∀ w, R w (snd (m w)).

(** [e'] is [e] after losing at most the class "active": the same handle,
    the same attributes and the same other classes. *)
Definition dimmed (e e' : element) : Prop :=
  el_node e' = el_node e ∧ el_attrs e' = el_attrs e ∧
  (∀ c, c ∈ classList e' → c ∈ classList e) ∧
  (∀ c, c ≠ "active" → c ∈ classList e → c ∈ classList e').

(** The elements of [w'] are those of [w], dimmed, and nothing was taken
    off the queue of callbacks. *)
Definition settles (w w' : world) : Prop :=
  Forall2 dimmed (document (browser w)) (document (browser w')) ∧
  (∀ t, t ∈ timers (browser w) → t ∈ timers (browser w')).

(** The document of [w'] is that of [w] followed by elements that are not
    pages, and nothing was taken off the queue of callbacks. *)
Definition grows (w w' : world) : Prop :=
  (∃ extra, document (browser w') = (document (browser w) ++ extra)%list ∧
            ∀ e, e ∈ extra → has_class "page" e = false) ∧
  (∀ t, t ∈ timers (browser w) → t ∈ timers (browser w')).

(** No page of the document is marked active. *)
Definition no_active_page (d : list element) : Prop :=
  ∀ e, e ∈ d → has_class "page" e = true → has_class "active" e = false.

(** A callback that neither starts a transition nor finishes one to a page
    other than [n]. *)
Definition settled_for (n : node) (t : task) : Prop :=
  match t with
  | PageEnter m => m = n
  | HashChange => False
  | _ => True
  end.

(** No frame callback of a transition and no [hashchange] event is
    waiting. *)
Definition no_transition_pending (q : list (schedule * task)) : Prop :=
  ∀ s t, (s, t) ∈ q →
         match t with
         | PageEnter _ | HashChange => False
         | _ => True
         end.

(** What has been added to the queue is settled for [n]. *)
Definition queues (n : node) (w w' : world) : Prop :=
  ∀ s t, (s, t) ∈ timers (browser w') → (s, t) ∈ timers (browser w) ∨ settled_for n t.

(** Of the pages, only those with handle [n] are active, if any. *)
Definition at_most_active (n : node) (d : list element) : Prop :=
  ∀ e, e ∈ d → has_class "page" e = true → has_class "active" e = true → el_node e = n.

(** Of the pages, exactly those with handle [n] are active. *)
Definition exactly_active (n : node) (d : list element) : Prop :=
  ∀ e, e ∈ d → has_class "page" e = true → (has_class "active" e = true ↔ el_node e = n).

(** Everything waiting in the queue is settled for [n]. *)
Definition queue_settled (n : node) (w : world) : Prop :=
  ∀ s t, (s, t) ∈ timers (browser w) → settled_for n t.

(** Two navigations before the next animation frame, and then the two
    frame callbacks. *)
Definition two_transitions : world :=
  snd (forEach [1; 1]%nat App.deliver
         (snd (App.navigateTo "login" (snd (App.navigateTo "dashboard" just_logged_in))))).
(** * Properties *)

(** ** Values *)

Lemma truthy_not_falsy (v : jsval) : truthy v = true ↔ ¬ falsy v.
Proof.
  unfold falsy. split.
  - intros Ht [-> | [-> | [-> | [-> | ->]]]]; discriminate Ht.
  - intros Hn. destruct v as [| | [] | n | s | |]; simpl; try reflexivity;
      try (exfalso; apply Hn; tauto).
    + destruct (Z.eqb_spec n 0) as [-> |]; [exfalso; apply Hn; tauto | reflexivity].
    + destruct s; [exfalso; apply Hn; tauto | reflexivity].
Qed.

Lemma is_str_false (v : jsval) (lit : string) : v ≠ JStr lit → is_str v lit = false.
Proof.
  destruct v as [| | | | s | |]; try reflexivity.
  intros Hne. simpl. apply String.eqb_neq. congruence.
Qed.

(** ** Session queries *)

(** C1, as amended. [isAuthenticated()] answers true exactly when neither the
    token nor the user record is one of the values the language treats as
    absent ([undefined], [null], [false], [0] and the empty string), and it
    changes nothing. *)
Theorem isAuthenticated_iff_truthy (w : world) :
  snd (Auth.isAuthenticated w) = w ∧
  (fst (Auth.isAuthenticated w) = Ret true ↔
   ¬ falsy (token (auth w)) ∧ ¬ falsy (user (auth w))).
Proof.
  split; [reflexivity |].
  rewrite <- !truthy_not_falsy. unfold Auth.isAuthenticated, gets. simpl.
  rewrite <- andb_true_iff. split; [congruence | intros ->; reflexivity].
Qed.

(** C1, as stated, fails for a session holding a user record and the empty
    string as token: neither is [null], and [isAuthenticated()] is false. *)
Lemma isAuthenticated_empty_token :
  ¬ (fst (Auth.isAuthenticated empty_token_session) = Ret true ↔
     token (auth empty_token_session) ≠ JNull ∧ user (auth empty_token_session) ≠ JNull).
Proof.
  intros [_ Hback]. discriminate Hback. split; discriminate.
Qed.

(** The constructor restores exactly such a session from a storage whose
    token entry is empty. *)
Example empty_token_restored :
  auth (snd (@Auth.constructor example_host empty_token_stored)) = auth empty_token_session.
Proof. reflexivity. Qed.

Lemma isAuthenticated_iff_truthy_witness :
  ¬ falsy (token (auth operator_session)) ∧
  ¬ falsy (user (auth operator_session)) ∧
  fst (Auth.isAuthenticated operator_session) = Ret true.
Proof.
  assert (¬ falsy (token (auth operator_session))) as Htoken
    by (intros [? | [? | [? | [? | ?]]]]; discriminate).
  assert (¬ falsy (user (auth operator_session))) as Huser
    by (intros [? | [? | [? | [? | ?]]]]; discriminate).
  split; [exact Htoken |]. split; [exact Huser |].
  exact (proj2 (proj2 (isAuthenticated_iff_truthy operator_session)) (conj Htoken Huser)).
Defined.

Section Expiry.
Context `{Host}.

(** C5. [isTokenExpired()] answers true when no last-login timestamp is
    stored, and when the stored one lies more than 24 hours before the
    current time. *)
Theorem isTokenExpired_absent_or_old (w : world) :
  (localStorage (browser w) !! "iot_last_login" = None ∨
   ∃ s loginTime,
     localStorage (browser w) !! "iot_last_login" = Some s ∧
     Date_getTime s = Some loginTime ∧
     day_ms < Date_now (browser w) - loginTime) →
  Auth.isTokenExpired w = (Ret true, w).
Proof.
  unfold Auth.isTokenExpired, getItem, gets, bind, ret.
  intros [-> | (s & t & -> & Hparse & Hold)]; [reflexivity |].
  destruct (String.eqb s ""); [reflexivity |].
  rewrite Hparse. do 2 f_equal.
  apply negb_true_iff, not_true_iff_false. rewrite Qle_bool_iff.
  unfold Qle, Qdiv, Qmult, Qinv, inject_Z. simpl.
  unfold day_ms in Hold. lia.
Qed.
End Expiry.

Lemma isTokenExpired_absent_or_old_witness :
  localStorage (browser logged_out) !! "iot_last_login" = None ∧
  @Auth.isTokenExpired example_host logged_out = (Ret true, logged_out) ∧
  localStorage (browser stale_login) !! "iot_last_login" = Some "2024-01-01T00:00:00.000Z" ∧
  day_ms < Date_now (browser stale_login) - 1704067200000 ∧
  @Auth.isTokenExpired example_host stale_login = (Ret true, stale_login).
Proof.
  assert (localStorage (browser logged_out) !! "iot_last_login" = None) as Habsent by reflexivity.
  assert (localStorage (browser stale_login) !! "iot_last_login" =
          Some "2024-01-01T00:00:00.000Z") as Hstored by reflexivity.
  assert (day_ms < Date_now (browser stale_login) - 1704067200000) as Hold by reflexivity.
  split; [exact Habsent |].
  split; [apply (@isTokenExpired_absent_or_old example_host); left; exact Habsent |].
  split; [exact Hstored |]. split; [exact Hold |].
  apply (@isTokenExpired_absent_or_old example_host). right.
  exists "2024-01-01T00:00:00.000Z", 1704067200000. auto.
Defined.

(** The boundary: exactly 24 hours after the login the token is not yet
    expired. *)
Example isTokenExpired_at_24h :
  fst (@Auth.isTokenExpired example_host
         (mkWorld (mkBrowser {["iot_last_login" := "2024-01-01T00:00:00.000Z"]} ""
                             example_document [] ∅ 6%nat [] [] [] (1704067200000 + day_ms))
                  no_modules (auth stale_login) (app stale_login))) = Ret false.
Proof. reflexivity. Qed.

(** ** Rendering *)

Lemma repainted_refl (w : world) : repainted w w.
Proof. exists (document (browser w)). destruct w as [[] ? ? ?]. split; reflexivity. Qed.

Lemma repainted_trans (w1 w2 w3 : world) : repainted w1 w2 → repainted w2 w3 → repainted w1 w3.
Proof.
  intros (d2 & -> & H2) (d3 & -> & H3). exists d3. split; [reflexivity |].
  simpl in H3. congruence.
Qed.

Lemma getElementById_attrs (d d' : list element) (i : string) :
  List.map el_attrs d = List.map el_attrs d' →
  is_Some (getElementById d i) → is_Some (getElementById d' i).
Proof.
  revert d'. induction d as [| e d IH]; intros [| e' d'] Hmap; try discriminate Hmap.
  - intros Hfound. exact Hfound.
  - injection Hmap as Hattrs Hrest. unfold getElementById. simpl.
    unfold has_id. rewrite Hattrs.
    destruct (bool_decide (el_attrs e' !! "id" = Some i)); [eauto | apply IH, Hrest].
Qed.

Lemma shell_ready_repainted (w w' : world) :
  repainted w w' → shell_ready (document (browser w)) → shell_ready (document (browser w')).
Proof.
  intros (d' & -> & Hattrs) (Hh & Hf & Hl). simpl. symmetry in Hattrs.
  repeat split; eapply getElementById_attrs; eassumption.
Qed.

Lemma paints_ret {A} (a : A) : paints (ret a).
Proof. intros w. exists (Ret a), w. split; [reflexivity |]. split; [apply repainted_refl | eauto]. Qed.

Lemma paints_gets {A} (f : world → A) : paints (gets f).
Proof. intros w. exists (Ret (f w)), w. split; [reflexivity |]. split; [apply repainted_refl | eauto]. Qed.

Lemma paints_bind {A B} (m : M A) (k : A → M B) :
  paints m → (∀ a, paints (k a)) → paints (bind m k).
Proof.
  intros Hm Hk w. destruct (Hm w) as (r & w1 & Hrun & Hre & Hok). unfold bind. rewrite Hrun.
  destruct r as [a | e].
  - destruct (Hk a w1) as (r2 & w2 & Hrun2 & Hre2 & Hok2). exists r2, w2.
    split; [exact Hrun2 |]. split; [eapply repainted_trans; eassumption |].
    intros Hshell. apply Hok2. eapply shell_ready_repainted; eassumption.
  - exists (Throw e), w1. split; [reflexivity |]. split; [exact Hre |].
    intros Hshell. destruct (Hok Hshell) as [a [=]].
Qed.

Lemma paints_forEach {A} (l : list A) (body : A → M unit) :
  (∀ x, paints (body x)) → paints (forEach l body).
Proof.
  intros Hbody. induction l as [| x l IH]; simpl.
  - apply paints_ret.
  - apply paints_bind; [apply Hbody | intros _; exact IH].
Qed.

Lemma update_node_attrs (n : node) (f : element → element) (d : list element) :
  (∀ e, el_attrs (f e) = el_attrs e) →
  List.map el_attrs (update_node n f d) = List.map el_attrs d.
Proof.
  intros Hf. unfold update_node. induction d as [| e d IH]; simpl; [reflexivity |].
  rewrite IH. destruct (Nat.eqb (el_node e) n); [rewrite Hf |]; reflexivity.
Qed.

Lemma paints_on_node (n : node) (f : element → element) :
  (∀ e, el_attrs (f e) = el_attrs e) → paints (on_node n f).
Proof.
  intros Hf w. eexists (Ret tt), _. split; [reflexivity |]. split; [| eauto].
  exists (update_node n f (document (browser w))). split; [reflexivity |].
  apply update_node_attrs, Hf.
Qed.

Lemma paints_require_element (i : string) :
  i = "app-header" ∨ i = "app-footer" ∨ i = "login-page" → paints (Auth.require_element i).
Proof.
  intros Hi w. unfold Auth.require_element, bind, the_document, gets.
  destruct (getElementById (document (browser w)) i) as [e |] eqn:Hfind.
  - exists (Ret e), w. split; [reflexivity |]. split; [apply repainted_refl | eauto].
  - exists (Throw TypeError), w. split; [reflexivity |]. split; [apply repainted_refl |].
    intros (Hh & Hf & Hl). exfalso.
    destruct Hi as [-> | [-> | ->]]; rewrite Hfind in *;
      match goal with Hnone : is_Some None |- _ => destruct Hnone as [? [=]] end.
Qed.

Ltac paint :=
  repeat first
    [ apply paints_ret
    | apply paints_gets
    | apply paints_require_element; tauto
    | apply paints_on_node; intros ?; reflexivity
    | apply paints_forEach; intros ?
    | apply paints_bind; [| intros ?]
    | match goal with
      | |- paints (match ?x with _ => _ end) => destruct x
      | |- paints (if ?b then _ else _) => destruct b
      end ].

Lemma updateToggleIcon_paints : paints Auth.updateToggleIcon.
Proof. unfold Auth.updateToggleIcon, the_document, skip. paint. Qed.

Lemma updateAuthenticatedUI_paints : paints Auth.updateAuthenticatedUI.
Proof.
  unfold Auth.updateAuthenticatedUI, Auth.hasRole, the_document, skip.
  pose proof updateToggleIcon_paints.
  repeat first [ assumption | progress paint ].
Qed.

(** ** Login *)

Lemma DEMO_USERS_lookup (k : string) (d : demo_user) :
  Auth.DEMO_USERS !! k = Some d →
  (k = "operador" ∧ du_role d = "operator" ∧ du_password d = "op123") ∨
  (k = "supervisor" ∧ du_role d = "supervisor" ∧ du_password d = "sup123").
Proof.
  unfold Auth.DEMO_USERS. intros Hk.
  apply lookup_insert_Some in Hk as [[<- <-] | [_ Hk]]; [left; auto |].
  apply lookup_insert_Some in Hk as [[<- <-] | [_ Hk]]; [right; auto |].
  rewrite lookup_empty in Hk. discriminate Hk.
Qed.

Lemma no_entry_for_wrong_password (d : demo_user) : ¬ fallback_matches "operador" "wrong" d.
Proof.
  intros [Hentry Hpass]. apply DEMO_USERS_lookup in Hentry as [(_ & _ & Hp) | (Hk & _)].
  - rewrite Hp in Hpass. discriminate Hpass.
  - discriminate Hk.
Qed.


Section Login.
Context `{Host}.

Lemma remote_failed_falls_through (w : world) (username : string) (net : fetch_result) :
  remote_failed net →
  try_catch (Auth.remote_login username net) (λ _, ret None) w = (Ret None, w).
Proof.
  intros Hnet. unfold try_catch.
  destruct net as [status json | |]; simpl in *; [rewrite Hnet |..]; reflexivity.
Qed.


(** C6, as amended. When the remote attempt fails and the fallback table has
    no entry matching the credentials, [login] returns the failure result
    whose reason is the text below, and leaves the whole state as it was:
    token and user are unchanged and nothing is written to storage. *)
Theorem login_rejected_leaves_state (w : world) (username password : string)
        (net : fetch_result) :
  remote_failed net →
  (∀ d, ¬ fallback_matches username password d) →
  Auth.login username password net w =
    (Ret (LoginResult false (Some "Credenciales inválidas o backend fuera de línea")), w).
Proof.
  intros Hnet Hno. unfold Auth.login, bind.
  rewrite (remote_failed_falls_through _ _ _ Hnet).
  unfold Auth.demo_login.
  destruct (Auth.DEMO_USERS !! toLowerCase username) as [d |] eqn:Hd; [| reflexivity].
  destruct (String.eqb_spec (du_password d) password) as [Hp | Hp]; [| reflexivity].
  exfalso. apply (Hno d). split; assumption.
Qed.
End Login.



(** The supervisor entry, after a response with a non-success status. *)
Example login_supervisor_after_401 :
  fst (@Auth.login example_host "supervisor" "sup123" (Response 401 None) logged_out) =
    Ret (LoginResult true None) ∧
  opt_prop (user (auth (snd (@Auth.login example_host "supervisor" "sup123"
                               (Response 401 None) logged_out)))) "role" = JStr "supervisor".
Proof. split; reflexivity. Qed.

(** C6, as stated, fails on the reason: the failure result carries the
    Spanish sentence of the source, not the English one of the claim. *)
Lemma login_rejected_reason_differs :
  remote_failed TimedOut ∧
  (∀ d, ¬ fallback_matches "operador" "wrong" d) ∧
  fst (@Auth.login example_host "operador" "wrong" TimedOut logged_out) ≠
    Ret (LoginResult false (Some "invalid credentials or backend unavailable")).
Proof.
  split; [exact I |]. split; [exact no_entry_for_wrong_password |].
  vm_compute. discriminate.
Qed.

Lemma login_rejected_leaves_state_witness :
  remote_failed (Response 401 None) ∧
  (∀ d, ¬ fallback_matches "operador" "wrong" d) ∧
  @Auth.login example_host "operador" "wrong" (Response 401 None) stale_login =
    (Ret (LoginResult false (Some "Credenciales inválidas o backend fuera de línea")), stale_login).
Proof.
  assert (remote_failed (Response 401 None)) as Hnet by reflexivity.
  split; [exact Hnet |]. split; [exact no_entry_for_wrong_password |].
  apply (@login_rejected_leaves_state example_host);
    [exact Hnet | exact no_entry_for_wrong_password].
Defined.

(** ** Theme *)

(** C10. When there is no current user, or the current user's role is not
    supervisor, [toggleTheme()] returns normally and neither the current
    theme nor local storage (the persisted theme key included) changes. *)
Theorem toggleTheme_guarded (w : world) :
  truthy (user (auth w)) = false ∨
    opt_prop (user (auth w)) "role" ≠ JStr config.ROLES.SUPERVISOR →
  ∃ w',
    Auth.toggleTheme w = (Ret tt, w') ∧
    currentTheme (auth w') = currentTheme (auth w) ∧
    localStorage (browser w') = localStorage (browser w) ∧
    localStorage (browser w') !! "iot_theme" = localStorage (browser w) !! "iot_theme".
Proof.
  intros Hguard.
  unfold Auth.toggleTheme, Auth.hasRole, bind, gets.
  assert (negb (truthy (user (auth w))) ||
          negb (is_str (opt_prop (user (auth w)) "role") config.ROLES.SUPERVISOR) = true) as ->.
  { destruct Hguard as [-> | Hrole]; [reflexivity |].
    rewrite (is_str_false _ _ Hrole). apply orb_true_r. }
  eexists. split; [reflexivity |]. simpl. auto.
Qed.

Lemma toggleTheme_guarded_witness :
  opt_prop (user (auth operator_session)) "role" ≠ JStr config.ROLES.SUPERVISOR ∧
  ∃ w',
    Auth.toggleTheme operator_session = (Ret tt, w') ∧
    currentTheme (auth w') = "operator" ∧
    localStorage (browser w') !! "iot_theme" = None.
Proof.
  assert (opt_prop (user (auth operator_session)) "role" ≠ JStr config.ROLES.SUPERVISOR)
    as Hrole by discriminate.
  split; [exact Hrole |].
  destruct (toggleTheme_guarded operator_session (or_intror Hrole))
    as (w' & Hrun & Htheme & _ & Hkey).
  exists w'. split; [exact Hrun |]. split; [exact Htheme | exact Hkey].
Defined.

(** ** Navigation *)

(** C3, as amended. [navigateTo] looks at the user held by the
    application, not at the session. With no user held by the application,
    a request for any view other than "login" sets the fragment to "#login"
    and returns: the document is left as it was (no view is activated or
    staged) and no module is called. *)
Theorem navigateTo_unauthenticated_redirects (w : world) (viewId : string) :
  viewId ≠ "login" →
  truthy (app_user (app w)) = false →
  ∃ w',
    App.navigateTo viewId w = (Ret tt, w') ∧
    location_hash (browser w') = "#login" ∧
    document (browser w') = document (browser w) ∧
    foreign w' = foreign w ∧
    app w' = app w ∧
    (timers (browser w') = timers (browser w) ∨
     timers (browser w') = (timers (browser w) ++ [(NextEvent, HashChange)])%list).
Proof.
  intros Hview Huser.
  unfold App.navigateTo, bind, the_document, gets.
  rewrite Huser. apply String.eqb_neq in Hview. rewrite Hview. simpl.
  unfold assign_hash, on_browser, modify. simpl.
  destruct (String.eqb_spec (location_hash (browser w)) "#login") as [Heq | Hne];
    eexists; (split; [reflexivity |]); simpl; auto 10.
Qed.

Lemma navigateTo_unauthenticated_redirects_witness :
  "reports" ≠ "login" ∧
  truthy (app_user (app logged_out)) = false ∧
  ∃ w',
    App.navigateTo "reports" logged_out = (Ret tt, w') ∧
    location_hash (browser w') = "#login" ∧
    document (browser w') = document (browser logged_out) ∧
    foreign w' = foreign logged_out.
Proof.
  assert ("reports" ≠ "login") as Hview by discriminate.
  assert (truthy (app_user (app logged_out)) = false) as Huser by reflexivity.
  split; [exact Hview |]. split; [exact Huser |].
  destruct (navigateTo_unauthenticated_redirects logged_out "reports" Hview Huser)
    as (w' & Hrun & Hhash & Hdoc & Hforeign & _).
  exists w'. auto.
Defined.

(** C3, as stated, fails for a session that is not authenticated while the
    application holds a user. A success response without a token leaves
    such a state once the login event has been handled: the request for
    the configuration view is then not redirected, the view is staged, and
    its frame callback marks it active. *)
Lemma navigateTo_unauthenticated_with_user :
  fst (Auth.isAuthenticated tokenless_signed_in) = Ret false ∧
  truthy (app_user (app tokenless_signed_in)) = true ∧
  "config" ≠ "login" ∧
  fst (App.navigateTo "config" tokenless_signed_in) = Ret tt ∧
  location_hash (browser (snd (App.navigateTo "config" tokenless_signed_in))) ≠ "#login" ∧
  timers (browser (snd (App.navigateTo "config" tokenless_signed_in))) =
    [(After 200, PageHide 3); (NextFrame, PageEnter 5)] ∧
  (has_class "active" <$>
     page_of (snd (App.deliver 1 (snd (App.navigateTo "config" tokenless_signed_in))))
       "config") = Some true.
Proof.
  split; [vm_compute; reflexivity |]. split; [vm_compute; reflexivity |].
  split; [discriminate |]. split; [vm_compute; reflexivity |].
  split; [vm_compute; discriminate |]. split; vm_compute; reflexivity.
Qed.

(** C4, as amended. [navigateTo] looks at the user held by the application,
    not at the session. With such a user whose role is not supervisor, a
    request for a view whose page is marked supervisor-only sets the
    fragment to "#dashboard" and returns, leaving the document and the
    modules untouched. *)
Theorem navigateTo_supervisor_only_redirects (w : world) (viewId : string) (page : element) :
  truthy (app_user (app w)) = true →
  opt_prop (app_user (app w)) "role" ≠ JStr config.ROLES.SUPERVISOR →
  page_of w viewId = Some page →
  has_class "supervisor-only" page = true →
  ∃ w',
    App.navigateTo viewId w = (Ret tt, w') ∧
    location_hash (browser w') = "#dashboard" ∧
    document (browser w') = document (browser w) ∧
    foreign w' = foreign w ∧
    app w' = app w ∧
    (timers (browser w') = timers (browser w) ∨
     timers (browser w') = (timers (browser w) ++ [(NextEvent, HashChange)])%list).
Proof.
  intros Huser Hrole Hpage Hsup. unfold page_of in Hpage.
  unfold App.navigateTo, bind, the_document, gets.
  rewrite Huser, Hpage, Hsup, andb_false_r. simpl.
  rewrite (is_str_false _ _ Hrole). simpl.
  unfold assign_hash, on_browser, modify. simpl.
  destruct (String.eqb_spec (location_hash (browser w)) "#dashboard") as [Heq | Hne];
    eexists; (split; [reflexivity |]); simpl; auto 10.
Qed.

Lemma navigateTo_supervisor_only_redirects_witness :
  truthy (app_user (app operator_on_config)) = true ∧
  opt_prop (app_user (app operator_on_config)) "role" ≠ JStr config.ROLES.SUPERVISOR ∧
  page_of operator_on_config "config" =
    Some (div_ 5 "config-page" ["page"; "supervisor-only"]) ∧
  location_hash (browser operator_on_config) = "#config" ∧
  ∃ w',
    App.navigateTo "config" operator_on_config = (Ret tt, w') ∧
    location_hash (browser w') = "#dashboard" ∧
    document (browser w') = document (browser operator_on_config).
Proof.
  assert (truthy (app_user (app operator_on_config)) = true) as Huser by reflexivity.
  assert (opt_prop (app_user (app operator_on_config)) "role" ≠ JStr config.ROLES.SUPERVISOR)
    as Hrole by discriminate.
  assert (page_of operator_on_config "config" =
          Some (div_ 5 "config-page" ["page"; "supervisor-only"])) as Hpage by reflexivity.
  split; [exact Huser |]. split; [exact Hrole |]. split; [exact Hpage |].
  split; [reflexivity |].
  destruct (navigateTo_supervisor_only_redirects operator_on_config "config" _
              Huser Hrole Hpage eq_refl) as (w' & Hrun & Hhash & Hdoc & _).
  exists w'. auto.
Defined.

(** C4, as stated, fails for an authenticated session of an operator while
    the application holds no user, as after a [login] that was not followed
    by the login event, or before [checkAuth] has run: the request for the
    supervisor-only configuration view is sent to "#login", not to
    "#dashboard". *)
Lemma navigateTo_operator_session_to_login :
  remote_failed TimedOut ∧
  fallback_matches "operador" "op123" operador_entry ∧
  fst (Auth.isAuthenticated
         (snd (@Auth.login example_host "operador" "op123" TimedOut logged_out))) = Ret true ∧
  opt_prop (user (auth (snd (@Auth.login example_host "operador" "op123" TimedOut
                               logged_out)))) "role" = JStr "operator" ∧
  (has_class "supervisor-only" <$>
     page_of (snd (@Auth.login example_host "operador" "op123" TimedOut logged_out))
       "config") = Some true ∧
  location_hash
    (browser (snd (App.navigateTo "config"
                     (snd (@Auth.login example_host "operador" "op123" TimedOut
                             logged_out))))) = "#login".
Proof.
  split; [exact I |]. split; [split; reflexivity |].
  repeat split; vm_compute; reflexivity.
Qed.

(** C7, as amended. At startup, with a user, the first navigation goes to the
    view named by the current fragment, or to "dashboard" when there is no
    fragment. Without a user no navigation is made: the fragment becomes
    "#login" when it is empty or "#dashboard" and is otherwise kept, and the
    document and the modules are untouched. *)
Theorem setupRouting_initial_navigation (w : world) :
  (truthy (app_user (app w)) = true →
   App.setupRouting w =
     try_catch (App.navigateTo (initial_view w)) (λ _, skip) (listening w)) ∧
  (truthy (app_user (app w)) = false →
   ∃ w',
     App.setupRouting w = (Ret tt, w') ∧
     location_hash (browser w') =
       (if bool_decide (location_hash (browser w) = "" ∨ location_hash (browser w) = "#dashboard")
        then "#login" else location_hash (browser w)) ∧
     document (browser w') = document (browser w) ∧
     foreign w' = foreign w ∧
     app w' = app w).
Proof.
  unfold App.setupRouting, listening, initial_view, addEventListener, on_browser, modify, bind, gets.
  simpl. split; intros ->.
  - destruct (substring1 (location_hash (browser w))); reflexivity.
  - simpl. unfold assign_hash, on_browser, modify, skip, ret. simpl.
    destruct (String.eqb_spec (location_hash (browser w)) "") as [Hempty | Hfrag].
    + rewrite bool_decide_eq_true_2 by auto.
      eexists. split; [reflexivity |]. simpl. rewrite Hempty. simpl. auto.
    + destruct (String.eqb_spec (location_hash (browser w)) "#dashboard") as [Hdash | Hother].
      * rewrite bool_decide_eq_true_2 by auto.
        eexists. split; [reflexivity |]. simpl. rewrite Hdash. simpl. auto.
      * rewrite bool_decide_eq_false_2 by (intros [? | ?]; congruence).
        eexists. split; [reflexivity |]. simpl. auto.
Qed.

(** C7, as stated, fails on a deep link: started logged out on "#reports",
    the fragment stays "#reports" and no navigation is queued. *)
Lemma setupRouting_keeps_deep_link :
  truthy (app_user (app deep_link_logged_out)) = false ∧
  fst (App.setupRouting deep_link_logged_out) = Ret tt ∧
  location_hash (browser (snd (App.setupRouting deep_link_logged_out))) = "#reports" ∧
  location_hash (browser (snd (App.setupRouting deep_link_logged_out))) ≠ "#login" ∧
  timers (browser (snd (App.setupRouting deep_link_logged_out))) = [].
Proof.
  repeat split; discriminate.
Qed.

Lemma setupRouting_initial_navigation_witness :
  truthy (app_user (app operator_session)) = true ∧
  App.setupRouting operator_session =
    try_catch (App.navigateTo "dashboard") (λ _, skip) (listening operator_session) ∧
  truthy (app_user (app logged_out)) = false ∧
  ∃ w',
    App.setupRouting logged_out = (Ret tt, w') ∧
    location_hash (browser w') = "#login" ∧
    document (browser w') = document (browser logged_out).
Proof.
  assert (truthy (app_user (app operator_session)) = true) as Huser by reflexivity.
  assert (truthy (app_user (app logged_out)) = false) as Hnone by reflexivity.
  split; [exact Huser |].
  split; [exact (proj1 (setupRouting_initial_navigation operator_session) Huser) |].
  split; [exact Hnone |].
  destruct (proj2 (setupRouting_initial_navigation logged_out) Hnone)
    as (w' & Hrun & Hhash & Hdoc & _).
  exists w'. auto.
Defined.



(** ** Teardown *)

Lemma after_calls_refl (w : world) : after_calls w w [].
Proof. split; try reflexivity. symmetry. apply app_nil_r. Qed.

Lemma after_calls_trans (w1 w2 w3 : world) (l1 l2 : list (ref * string)) :
  after_calls w1 w2 l1 → after_calls w2 w3 l2 → after_calls w1 w3 (l1 ++ l2).
Proof.
  intros [B1 A1 P1 S1 M1 C1] [B2 A2 P2 S2 M2 C2].
  split; [congruence | congruence | congruence | congruence | |].
  - intros p. rewrite M2. apply M1.
  - rewrite C2, C1. symmetry. apply app_assoc.
Qed.

Lemma lookup_method_Some (w : world) (r : option ref) (name : string) p o f :
  lookup_method w r name = Some (p, o, f) →
  r = Some p ∧ heap (foreign w) !! p = Some o ∧ find_method (methods o) name = Some f.
Proof.
  unfold lookup_method. destruct r as [q |]; [| discriminate].
  destruct (heap (foreign w) !! q) as [o' |] eqn:Hq; [| discriminate].
  destruct (find_method (methods o') name) as [f' |] eqn:Hf; [| discriminate].
  intros [= <- <- <-]. auto.
Qed.

Lemma callable_after_calls (w w' : world) (l : list (ref * string)) (r : ref) (name : string) :
  after_calls w w' l → callable w r name → callable w' r name.
Proof.
  intros Hac. unfold callable, lookup_method.
  pose proof (ac_methods _ _ _ Hac r) as Hm.
  destruct (heap (foreign w) !! r) as [o |]; [| intros [? [=]]].
  destruct (heap (foreign w') !! r) as [o' |]; [| discriminate Hm].
  simpl in Hm. injection Hm as ->.
  destruct (find_method (methods o) name); [eauto | intros [? [=]]].
Qed.

(** A guarded call never throws, whatever the method does, and it does call
    the method when there is one. *)
Lemma try_call_spec (m : option ref) (name : string) (w : world) :
  ∃ w' l,
    App.try_call m name w = (Ret tt, w') ∧
    after_calls w w' l ∧
    ∀ r, m = Some r → callable w r name → (r, name) ∈ l.
Proof.
  unfold App.try_call, has_method, bind, gets, when.
  destruct (lookup_method w m name) as [[[p o] f] |] eqn:Hlook.
  - rewrite bool_decide_eq_true_2 by eauto.
    apply lookup_method_Some in Hlook as (-> & Hheap & Hfind).
    unfold try_catch, call, bind, gets, id.
    unfold lookup_method. rewrite Hheap, Hfind.
    unfold on_foreign, modify.
    exists (mkWorld (browser w)
              (mkForeign (stateStore (foreign w))
                         (<[p := Object (fst (f (ostate o))) (methods o)]> (heap (foreign w)))
                         (calls (foreign w) ++ [(p, name)]))
              (auth w) (app w)), [(p, name)].
    split; [destruct (snd (f (ostate o))); reflexivity |].
    split.
    + split; try reflexivity. intros q. simpl.
      destruct (decide (p = q)) as [<- | Hne].
      * rewrite lookup_insert_eq, Hheap. reflexivity.
      * rewrite lookup_insert_ne by assumption. reflexivity.
    + intros r [= <-] _. apply list_elem_of_singleton. reflexivity.
  - rewrite bool_decide_eq_false_2.
    + exists w, []. split; [reflexivity |]. split; [apply after_calls_refl |].
      intros r -> Hc. unfold callable in Hc. rewrite Hlook in Hc. destruct Hc as [? [=]].
    + intros [? [=]].
Qed.

(** The loop over the registry: every entry is visited, in order, whatever
    the earlier ones did. *)
Lemma destroy_all_spec (ms : list (string * option ref)) (w : world) :
  ∃ w' l,
    forEach ms (λ entry, App.try_call (snd entry) "destroy") w = (Ret tt, w') ∧
    after_calls w w' l ∧
    ∀ k r, (k, Some r) ∈ ms → callable w r "destroy" → (r, "destroy") ∈ l.
Proof.
  revert w. induction ms as [| [k0 m0] ms IH]; intros w.
  - exists w, []. split; [reflexivity |]. split; [apply after_calls_refl |].
    intros k r Hin. inversion Hin.
  - destruct (try_call_spec m0 "destroy" w) as (w1 & l1 & Hrun1 & Hac1 & Hcalled1).
    destruct (IH w1) as (w2 & l2 & Hrun2 & Hac2 & Hcalled2).
    exists w2, (l1 ++ l2)%list. split; [| split].
    + simpl. unfold bind. simpl in Hrun1. rewrite Hrun1. exact Hrun2.
    + eapply after_calls_trans; eassumption.
    + intros k r Hin Hc. apply elem_of_app.
      apply elem_of_cons in Hin as [[= Hk Hm] | Hin].
      * left. apply Hcalled1; auto.
      * right. eapply Hcalled2; [exact Hin |].
        eapply callable_after_calls; eassumption.
Qed.

Lemma cleanup_once (w : world) :
  ∃ w' l,
    App.cleanup w = (Ret tt, w') ∧
    modules (app w') = [] ∧
    calls (foreign w') = (calls (foreign w) ++ l)%list ∧
    ∀ k r, (k, Some r) ∈ modules (app w) → callable w r "destroy" → (r, "destroy") ∈ l.
Proof.
  unfold App.cleanup, bind, gets.
  destruct (try_call_spec (wsService (app w)) "disconnect" w) as (w1 & l1 & -> & Hac1 & _).
  destruct (try_call_spec (dashboardController (app w1)) "destroy" w1) as (w2 & l2 & -> & Hac2 & _).
  destruct (destroy_all_spec (modules (app w2)) w2) as (w3 & l3 & -> & Hac3 & Hcalled).
  pose proof (after_calls_trans _ _ _ _ _ Hac1 Hac2) as Hac12.
  pose proof (after_calls_trans _ _ _ _ _ Hac12 Hac3) as Hac.
  eexists _, ((l1 ++ l2) ++ l3)%list. split; [reflexivity |]. simpl.
  split; [reflexivity |]. split; [apply (ac_calls _ _ _ Hac) |].
  intros k r Hin Hc. apply elem_of_app. right.
  apply (Hcalled k r).
  - rewrite (ac_app _ _ _ Hac12). exact Hin.
  - eapply callable_after_calls; eassumption.
Qed.

(** C9. [cleanup()] run twice in a row returns normally both times, with the
    registry empty after each run, whatever the modules' [destroy()] do;
    and in the first run every registered module that has a [destroy]
    method gets it called, a throwing one before it notwithstanding. *)
Theorem cleanup_twice (w : world) :
  ∃ w1 w2 l,
    App.cleanup w = (Ret tt, w1) ∧ modules (app w1) = [] ∧
    App.cleanup w1 = (Ret tt, w2) ∧ modules (app w2) = [] ∧
    calls (foreign w1) = (calls (foreign w) ++ l)%list ∧
    ∀ k r, (k, Some r) ∈ modules (app w) → callable w r "destroy" → (r, "destroy") ∈ l.
Proof.
  destruct (cleanup_once w) as (w1 & l & Hrun1 & Hempty1 & Hcalls & Hall).
  destruct (cleanup_once w1) as (w2 & l' & Hrun2 & Hempty2 & _ & _).
  exists w1, w2, l. auto 10.
Qed.

Lemma cleanup_twice_witness :
  ("dashboard", Some 1%nat) ∈ modules (app with_registry) ∧
  ("alerts", Some 2%nat) ∈ modules (app with_registry) ∧
  callable with_registry 1 "destroy" ∧
  callable with_registry 2 "destroy" ∧
  ∃ w1 w2 l,
    App.cleanup with_registry = (Ret tt, w1) ∧ modules (app w1) = [] ∧
    App.cleanup w1 = (Ret tt, w2) ∧ modules (app w2) = [] ∧
    calls (foreign w1) = ((0%nat, "connect") :: l) ∧
    (1%nat, "destroy") ∈ l ∧ (2%nat, "destroy") ∈ l.
Proof.
  assert (("dashboard", Some 1%nat) ∈ modules (app with_registry)) as Hin1
    by (apply list_elem_of_In; vm_compute; auto).
  assert (("alerts", Some 2%nat) ∈ modules (app with_registry)) as Hin2
    by (apply list_elem_of_In; vm_compute; auto).
  assert (callable with_registry 1 "destroy") as Hc1 by (vm_compute; eauto).
  assert (callable with_registry 2 "destroy") as Hc2 by (vm_compute; eauto).
  repeat (split; [assumption |]).
  destruct (cleanup_twice with_registry) as (w1 & w2 & l & Hrun1 & He1 & Hrun2 & He2 & Hcalls & Hall).
  exists w1, w2, l. repeat (split; [assumption |]). eauto.
Defined.

(** The trace of the first run on the example registry: the controller's
    [destroy] is called directly and again through the registry, after the
    alert system's has thrown. *)
Example registry_filled :
  modules (app with_registry) =
    [("alerts", Some 2%nat); ("theme", None); ("websocket", Some 0%nat);
     ("dashboard", Some 1%nat)] ∧
  wsService (app with_registry) = Some 0%nat ∧
  dashboardController (app with_registry) = Some 1%nat.
Proof. repeat split; reflexivity. Qed.

Example cleanup_trace :
  calls (foreign (snd (App.cleanup with_registry))) =
    [(0%nat, "connect"); (0%nat, "disconnect"); (1%nat, "destroy");
     (2%nat, "destroy"); (1%nat, "destroy")].
Proof. reflexivity. Qed.

(** * Further properties *)

(** ** Frames *)

Lemma preserves_ret {A X} (f : world → X) (a : A) : preserves f (ret a).
Proof. intros w. reflexivity. Qed.

Lemma preserves_throw {A X} (f : world → X) (e : exn) : preserves f (@throw A e).
Proof. intros w. reflexivity. Qed.

Lemma preserves_gets {A X} (f : world → X) (g : world → A) : preserves f (gets g).
Proof. intros w. reflexivity. Qed.

Lemma preserves_bind {A B X} (f : world → X) (m : M A) (k : A → M B) :
  preserves f m → (∀ a, preserves f (k a)) → preserves f (bind m k).
Proof.
  intros Hm Hk w. unfold bind. specialize (Hm w).
  destruct (m w) as [[a | e] w1]; simpl in *.
  - rewrite (Hk a w1). exact Hm.
  - exact Hm.
Qed.

Lemma preserves_try_catch {A X} (f : world → X) (m : M A) (h : exn → M A) :
  preserves f m → (∀ e, preserves f (h e)) → preserves f (try_catch m h).
Proof.
  intros Hm Hh w. unfold try_catch. specialize (Hm w).
  destruct (m w) as [[a | e] w1]; simpl in *.
  - exact Hm.
  - rewrite (Hh e w1). exact Hm.
Qed.

Lemma preserves_forEach {A X} (f : world → X) (l : list A) (body : A → M unit) :
  (∀ x, preserves f (body x)) → preserves f (forEach l body).
Proof.
  intros Hbody. induction l as [| x l IH]; simpl.
  - apply preserves_ret.
  - apply preserves_bind; [apply Hbody | intros _; exact IH].
Qed.

Lemma preserves_when {X} (f : world → X) (b : bool) (m : M unit) :
  preserves f m → preserves f (when b m).
Proof. intros Hm. destruct b; [exact Hm | apply preserves_ret]. Qed.

Lemma preserves_modify {X} (f : world → X) (g : world → world) :
  (∀ w, f (g w) = f w) → preserves f (modify g).
Proof. intros Hg w. apply Hg. Qed.

Lemma returns_ret {A} (a : A) : returns (ret a).
Proof. intros w. eauto. Qed.

Lemma returns_gets {A} (g : world → A) : returns (gets g).
Proof. intros w. eexists. reflexivity. Qed.

Lemma returns_modify (g : world → world) : returns (modify g).
Proof. intros w. eexists. reflexivity. Qed.

Lemma returns_bind {A B} (m : M A) (k : A → M B) :
  returns m → (∀ a, returns (k a)) → returns (bind m k).
Proof.
  intros Hm Hk w. unfold bind. destruct (Hm w) as [a Ha].
  destruct (m w) as [r w1]. simpl in Ha. subst r. apply Hk.
Qed.

Lemma returns_try_catch {A} (m : M A) (h : exn → M A) :
  (∀ e, returns (h e)) → returns (try_catch m h).
Proof.
  intros Hh w. unfold try_catch. destruct (m w) as [[a | e] w1]; [eauto | apply Hh].
Qed.

Lemma returns_forEach {A} (l : list A) (body : A → M unit) :
  (∀ x, returns (body x)) → returns (forEach l body).
Proof.
  intros Hbody. induction l as [| x l IH]; simpl.
  - apply returns_ret.
  - apply returns_bind; [apply Hbody | intros _; exact IH].
Qed.

Lemma returns_when (b : bool) (m : M unit) : returns m → returns (when b m).
Proof. intros Hm. destruct b; [exact Hm | apply returns_ret]. Qed.

(** What a computation that returns and keeps [f] looks like when run. *)
Lemma run_returns {A} (m : M A) (w : world) :
  returns m → ∃ a w', m w = (Ret a, w').
Proof.
  intros Hm. destruct (Hm w) as [a Ha]. destruct (m w) as [r w']. simpl in Ha. subst r. eauto.
Qed.

Ltac frame_step :=
  first
    [ apply preserves_ret | apply preserves_throw | apply preserves_gets
    | apply preserves_when
    | apply preserves_forEach; intros ?
    | apply preserves_try_catch; [| intros ?]
    | apply preserves_bind; [| intros ?]
    | apply preserves_modify; intros ?; reflexivity
    | apply returns_ret | apply returns_gets | apply returns_modify
    | apply returns_when
    | apply returns_forEach; intros ?
    | apply returns_try_catch; intros ?
    | apply returns_bind; [| intros ?]
    | match goal with
      | |- preserves _ (match ?x with _ => _ end) => destruct x
      | |- preserves _ (if ?b then _ else _) => destruct b
      | |- returns (match ?x with _ => _ end) => destruct x
      | |- returns (if ?b then _ else _) => destruct b
      end ].
Ltac frame := repeat frame_step.

Ltac basic_ops :=
  unfold on_node, on_document, the_document, setTimeout, requestAnimationFrame,
    addEventListener, dispatchEvent, setItem, getItem, removeItem, append_to_body,
    stateStore_reset, stateStore_updateState, has_method,
    Auth.set_token, Auth.set_user, Auth.set_currentTheme, Auth.hasRole,
    App.set_modules, App.set_user, App.set_wsService, App.set_dashboardController,
    on_browser, on_foreign, on_auth, on_app, skip.

Lemma preserves_assign_hash {X} (f : world → X) (h : string) :
  (∀ w q, f (mkWorld (set_location h q (browser w)) (foreign w) (auth w) (app w)) = f w) →
  (∀ w, f (mkWorld (browser w) (foreign w) (auth w) (app w)) = f w) →
  preserves f (assign_hash h).
Proof.
  intros Hset Hsame w. unfold assign_hash, on_browser, modify. simpl.
  destruct (String.eqb (location_hash (browser w)) h); [apply Hsame | apply Hset].
Qed.

Lemma returns_assign_hash (h : string) : returns (assign_hash h).
Proof. intros w. eexists. reflexivity. Qed.

(** ** Theme *)

Lemma elem_of_class_add (c x : string) (l : list string) :
  c ∈ class_add x l ↔ c = x ∨ c ∈ l.
Proof.
  unfold class_add, contains. case_bool_decide as Hin.
  - split; [auto |]. intros [-> | Hc]; assumption.
  - rewrite elem_of_app, list_elem_of_singleton. tauto.
Qed.

Lemma elem_of_class_remove (c x : string) (l : list string) :
  c ∈ class_remove x l ↔ c ≠ x ∧ c ∈ l.
Proof. unfold class_remove. rewrite list_elem_of_filter. tauto. Qed.

Lemma updateToggleIcon_returns : returns Auth.updateToggleIcon.
Proof. unfold Auth.updateToggleIcon. basic_ops. frame. Qed.

Lemma updateToggleIcon_keeps {X} (f : world → X) :
  (∀ w d, f (mkWorld (set_document d (browser w)) (foreign w) (auth w) (app w)) = f w) →
  preserves f Auth.updateToggleIcon.
Proof.
  intros Hf. unfold Auth.updateToggleIcon. basic_ops. frame.
  apply preserves_modify. intros w. apply Hf.
Qed.

(** The style properties after the loop of [updateCSSVariables]. *)
Lemma set_properties_run (kvs : list (string * string)) (w : world) :
  forEach kvs (λ kv, on_browser (λ b, set_root_style (<[fst kv := snd kv]> (root_style b)) b)) w =
  (Ret tt,
   mkWorld (set_root_style (foldl (λ m kv, <[fst kv := snd kv]> m) (root_style (browser w)) kvs)
                           (browser w))
           (foreign w) (auth w) (app w)).
Proof.
  revert w. induction kvs as [| kv kvs IH]; intros w; simpl.
  - destruct w as [[] ? ? ?]. reflexivity.
  - unfold bind, on_browser, modify. rewrite IH. reflexivity.
Qed.

Lemma foldl_insert_lookup (kvs : list (string * string)) (m : gmap string string) (k v : string) :
  NoDup (kvs.*1) → (k, v) ∈ kvs →
  foldl (λ m kv, <[fst kv := snd kv]> m) m kvs !! k = Some v.
Proof.
  revert m. induction kvs as [| [k0 v0] kvs IH]; intros m Hnd Hin.
  - inversion Hin.
  - simpl in *. apply NoDup_cons in Hnd as [Hfresh Hnd].
    apply elem_of_cons in Hin as [[= -> ->] | Hin].
    + clear IH. revert m. induction kvs as [| [k1 v1] kvs IH]; intros m; simpl.
      * apply lookup_insert_eq.
      * simpl in *. apply not_elem_of_cons in Hfresh as [Hne Hfresh].
        apply NoDup_cons in Hnd as [_ Hnd].
        rewrite insert_insert_ne by congruence. apply IH; assumption.
    + apply IH; assumption.
Qed.

Lemma foldl_insert_other (kvs : list (string * string)) (m : gmap string string) (k : string) :
  k ∉ kvs.*1 →
  foldl (λ m kv, <[fst kv := snd kv]> m) m kvs !! k = m !! k.
Proof.
  revert m. induction kvs as [| [k0 v0] kvs IH]; intros m Hk; simpl; [reflexivity |].
  simpl in Hk. apply not_elem_of_cons in Hk as [Hne Hk].
  rewrite IH by assumption. apply lookup_insert_ne. congruence.
Qed.

Lemma css_variables_keys (theme : string) :
  (Auth.css_variables theme).*1 =
    ["--bg-color"; "--panel-color"; "--border-color"; "--text-color";
     "--text-secondary-color"; "--accent-color"; "--danger-color";
     "--warning-color"; "--success-color"; "--info-color"].
Proof. reflexivity. Qed.

Lemma css_variables_NoDup (theme : string) : NoDup (Auth.css_variables theme).*1.
Proof.
  rewrite css_variables_keys.
  repeat (apply NoDup_cons_2;
          [rewrite ?not_elem_of_cons; repeat split; try discriminate; apply not_elem_of_nil |]).
  apply NoDup_nil_2.
Qed.

Lemma updateCSSVariables_run (w : world) :
  Auth.updateCSSVariables w =
  (Ret tt,
   mkWorld (set_root_style
              (foldl (λ m kv, <[fst kv := snd kv]> m) (root_style (browser w))
                     (Auth.css_variables (palette_of (currentTheme (auth w)))))
              (browser w))
           (foreign w) (auth w) (app w)).
Proof.
  unfold Auth.updateCSSVariables, bind, gets. rewrite set_properties_run.
  unfold palette_of, config.THEMES.SUPERVISOR.
  destruct (String.eqb_spec (currentTheme (auth w)) "supervisor") as [-> | Hne].
  - reflexivity.
  - rewrite bool_decide_eq_false_2 by assumption. reflexivity.
Qed.

Lemma applyTheme_run (w : world) :
  Auth.applyTheme w =
  (Ret tt,
   mkWorld (set_root_style
              (foldl (λ m kv, <[fst kv := snd kv]> m) (root_style (browser w))
                     (Auth.css_variables (palette_of (currentTheme (auth w)))))
              (set_body_classList
                 (class_add (currentTheme (auth w) +:+ "-theme")
                    (class_remove "supervisor-theme"
                       (class_remove "operator-theme" (body_classList (browser w)))))
                 (browser w)))
           (foreign w) (auth w) (app w)).
Proof.
  unfold Auth.applyTheme, bind, gets, on_browser, modify.
  rewrite updateCSSVariables_run. reflexivity.
Qed.

(** X1. With the current theme one of the two themes, "operator" or
    "supervisor", [applyTheme] leaves the body with the class of that theme
    and without the class of the other one, and keeps every class that is
    not a theme class; each of the ten style variables points at the
    palette of the current theme; all other style properties, the session,
    local storage and the document are left alone. *)
Theorem applyTheme_class_and_palette (w : world) :
  currentTheme (auth w) = config.THEMES.OPERATOR ∨
  currentTheme (auth w) = config.THEMES.SUPERVISOR →
  ∃ w',
    Auth.applyTheme w = (Ret tt, w') ∧
    (currentTheme (auth w) +:+ "-theme") ∈ body_classList (browser w') ∧
    (∀ c, c = "operator-theme" ∨ c = "supervisor-theme" →
          c ∈ body_classList (browser w') → c = currentTheme (auth w) +:+ "-theme") ∧
    (∀ c, c ≠ "operator-theme" → c ≠ "supervisor-theme" →
          (c ∈ body_classList (browser w') ↔ c ∈ body_classList (browser w))) ∧
    (∀ k v, (k, v) ∈ Auth.css_variables (currentTheme (auth w)) →
            root_style (browser w') !! k = Some v) ∧
    root_style (browser w') !! "--bg-color" =
      Some ("var(--" +:+ currentTheme (auth w) +:+ "-bg)") ∧
    (∀ k, k ∉ (Auth.css_variables (currentTheme (auth w))).*1 →
          root_style (browser w') !! k = root_style (browser w) !! k) ∧
    auth w' = auth w ∧ stored w' = stored w ∧ document (browser w') = document (browser w).
Proof.
  intros Htheme.
  assert (palette_of (currentTheme (auth w)) = currentTheme (auth w)) as Hpalette.
  { destruct Htheme as [-> | ->]; reflexivity. }
  eexists. split; [apply applyTheme_run |]. rewrite Hpalette.
  unfold stored.
  cbn [browser body_classList root_style set_root_style set_body_classList auth localStorage
       document].
  split; [| split; [| split; [| split; [| split; [| split]]]]]; [| | | | | | auto].
  - apply elem_of_class_add. auto.
  - intros c Hc Hin. apply elem_of_class_add in Hin as [-> | Hin]; [reflexivity |].
    apply elem_of_class_remove in Hin as [Hs Hin].
    apply elem_of_class_remove in Hin as [Ho Hin]. tauto.
  - intros c Ho Hs. rewrite elem_of_class_add, !elem_of_class_remove.
    assert (c ≠ currentTheme (auth w) +:+ "-theme")
      by (destruct Htheme as [-> | ->]; assumption).
    tauto.
  - intros k v Hin. apply foldl_insert_lookup; [apply css_variables_NoDup | exact Hin].
  - apply foldl_insert_lookup; [apply css_variables_NoDup |]. apply list_elem_of_here.
  - intros k Hk. apply foldl_insert_other. exact Hk.
Qed.

(** The whole of [toggleTheme] for a supervisor. *)
Lemma toggleTheme_supervisor_run (w : world) :
  truthy (user (auth w)) = true →
  opt_prop (user (auth w)) "role" = JStr config.ROLES.SUPERVISOR →
  ∃ w',
    Auth.toggleTheme w = (Ret tt, w') ∧
    auth w' = mkAuth (token (auth w)) (user (auth w)) (other_theme (currentTheme (auth w)))
                     (auth_isInitialized (auth w)) ∧
    stored w' = <["iot_theme" := other_theme (currentTheme (auth w))]> (stored w) ∧
    dispatched (browser w') =
      (dispatched (browser w) ++ [ThemeChanged (other_theme (currentTheme (auth w)))])%list ∧
    (other_theme (currentTheme (auth w)) +:+ "-theme") ∈ body_classList (browser w').
Proof.
  intros Huser Hrole.
  unfold Auth.toggleTheme, Auth.hasRole, bind at 1 2 3, gets.
  rewrite Huser, Hrole.
  change (negb true || negb (is_str (JStr config.ROLES.SUPERVISOR) config.ROLES.SUPERVISOR))
    with false.
  cbv beta iota.
  assert ((if String.eqb (currentTheme (auth w)) config.THEMES.OPERATOR
           then config.THEMES.SUPERVISOR else config.THEMES.OPERATOR) =
          other_theme (currentTheme (auth w))) as ->.
  { unfold other_theme, config.THEMES.OPERATOR, config.THEMES.SUPERVISOR.
    destruct (String.eqb_spec (currentTheme (auth w)) "operator") as [-> | Hne];
      [reflexivity | rewrite bool_decide_eq_false_2 by assumption; reflexivity]. }
  set (t := other_theme (currentTheme (auth w))).
  unfold bind, Auth.set_currentTheme, setItem, on_auth, on_browser, modify.
  rewrite applyTheme_run.
  match goal with
  | |- context [Auth.updateToggleIcon ?w2] =>
      destruct (run_returns Auth.updateToggleIcon w2 updateToggleIcon_returns) as ([] & w3 & Hrun);
      pose proof (updateToggleIcon_keeps auth (λ _ _, eq_refl) w2) as Hauth;
      pose proof (updateToggleIcon_keeps stored (λ _ _, eq_refl) w2) as Hstored;
      pose proof (updateToggleIcon_keeps (λ w, dispatched (browser w)) (λ _ _, eq_refl) w2) as Hdisp;
      pose proof (updateToggleIcon_keeps (λ w, body_classList (browser w)) (λ _ _, eq_refl) w2) as Hbody;
      rewrite Hrun in *
  end.
  simpl in Hauth, Hstored, Hdisp, Hbody.
  eexists. split; [reflexivity |].
  unfold dispatchEvent, on_browser, modify, stored in *.
  cbn [snd auth browser dispatched set_dispatched localStorage body_classList] in *.
  rewrite Hauth, Hstored, Hdisp, Hbody.
  repeat split. apply elem_of_class_add. auto.
Qed.

(** ** Login, continued *)

Section LoginMore.
Context `{Host}.

(** The state a successful fallback login leaves. *)
Lemma demo_login_run (w : world) (username password : string) (d : demo_user) :
  fallback_matches username password d →
  ∃ r w',
    Auth.demo_login username password w = (r, w') ∧
    auth w' = mkAuth (JStr (Auth.demo_token username (Date_now (browser w))))
                     (Auth.demo_session username d)
                     (currentTheme (auth w)) (auth_isInitialized (auth w)) ∧
    stored w' = saved (JStr (Auth.demo_token username (Date_now (browser w))))
                      (Auth.demo_session username d) (Date_now (browser w)) (stored w) ∧
    Date_now (browser w') = Date_now (browser w) ∧
    app w' = app w ∧
    (shell_ready (document (browser w)) →
     r = Ret (LoginResult true None) ∧
     stateStore (foreign w') = <["systemStatus" := "connected"]> (stateStore (foreign w))).
Proof.
  intros [Hentry Hpass].
  unfold Auth.demo_login. rewrite Hentry.
  apply String.eqb_eq in Hpass. rewrite Hpass.
  unfold bind at 1 2 3 4. simpl.
  match goal with
  | |- context [bind Auth.updateAuthenticatedUI ?k ?w3] =>
      destruct (updateAuthenticatedUI_paints w3) as (r & w4 & Hrun & (d' & -> & Hattrs) & Hok);
      unfold bind; rewrite Hrun
  end.
  unfold stored, saved.
  destruct r as [[] | e].
  - eexists _, _. split; [reflexivity |]. simpl. repeat split.
  - eexists _, _. split; [reflexivity |]. simpl. repeat (split; [reflexivity |]).
    intros Hshell. destruct (Hok Hshell) as [? [=]].
Qed.

(** The state a well-formed success response leaves. *)
Lemma remote_login_run (w : world) (username : string) (status : Z) (data du : jsval) :
  response_ok status = true →
  payload_user data = Some du →
  shell_ready (document (browser w)) →
  ∃ w',
    Auth.remote_login username (Response status (Some data)) w =
      (Ret (Some (LoginResult true None)), w') ∧
    auth w' = mkAuth (opt_prop data "access_token") (session_of_payload username du)
                     (currentTheme (auth w)) (auth_isInitialized (auth w)) ∧
    stored w' = saved (opt_prop data "access_token") (session_of_payload username du)
                      (Date_now (browser w)) (stored w) ∧
    stateStore (foreign w') = <["systemStatus" := "connected"]> (stateStore (foreign w)) ∧
    app w' = app w.
Proof.
  intros Hok Hdu Hshell. unfold Auth.remote_login. rewrite Hok.
  unfold payload_user in Hdu.
  destruct (get_prop data "user") as [du' |] eqn:Huser; [| discriminate].
  assert (du' = du ∧ ∀ k, get_prop du k = Some (opt_prop du k)) as [-> Hread].
  { destruct du'; try discriminate; injection Hdu as <-; split; try reflexivity;
      intros k; reflexivity. }
  assert (get_prop data "access_token" = Some (opt_prop data "access_token")) as Htok.
  { destruct data; try discriminate; reflexivity. }
  unfold Auth.read, bind at 1.
  rewrite Htok. cbn [ret]. unfold bind at 1 2. cbn [Auth.set_token on_auth modify].
  rewrite Huser. cbn [ret].
  do 5 (unfold bind at 1; rewrite Hread; cbn [ret]).
  unfold bind at 1 2. simpl.
  match goal with
  | |- context [bind Auth.updateAuthenticatedUI ?k ?w3] =>
      destruct (updateAuthenticatedUI_paints w3) as (r & w4 & Hrun & (d' & -> & Hattrs) & Hret);
      unfold bind; rewrite Hrun
  end.
  destruct Hret as [[] ->]; [exact Hshell |].
  eexists. split; [reflexivity |]. unfold stored, saved. simpl. repeat split.
Qed.
End LoginMore.

Section LoginProperties.
Context `{Host}.

(** X2. A success response with a user object logs in from the payload alone,
    whatever the password and the demonstration table say: the token is the
    payload's [access_token], the user record takes [id], [username] and
    [role] from the payload, [name] defaults to the submitted username and
    [permissions] to the empty array; the session is persisted and the
    store marked connected. *)
Theorem login_remote_success (w : world) (username password : string) (status : Z)
        (data du : jsval) :
  response_ok status = true →
  payload_user data = Some du →
  shell_ready (document (browser w)) →
  ∃ w',
    Auth.login username password (Response status (Some data)) w =
      (Ret (LoginResult true None), w') ∧
    token (auth w') = opt_prop data "access_token" ∧
    user (auth w') = session_of_payload username du ∧
    (opt_prop du "name" = JUndefined → opt_prop (user (auth w')) "name" = JStr username) ∧
    (opt_prop du "permissions" = JUndefined → opt_prop (user (auth w')) "permissions" = JArr []) ∧
    stored w' !! "iot_token" = Some (ToString (opt_prop data "access_token")) ∧
    stored w' !! "iot_user" = Some (JSON_stringify (session_of_payload username du)) ∧
    stateStore (foreign w') !! "systemStatus" = Some "connected".
Proof.
  intros Hok Hdu Hshell.
  destruct (remote_login_run w username status data du Hok Hdu Hshell)
    as (w' & Hrun & Hauth & Hstored & Hstore & _).
  exists w'. unfold Auth.login, bind, try_catch. rewrite Hrun.
  split; [reflexivity |]. rewrite Hauth, Hstored, Hstore. cbn [token user].
  split; [reflexivity |]. split; [reflexivity |].
  split; [intros Hname; cbn; unfold js_or; rewrite Hname; reflexivity |].
  split; [intros Hperm; cbn; unfold js_or; rewrite Hperm; reflexivity |].
  unfold saved. split; [| split].
  - rewrite lookup_insert_ne by discriminate. rewrite lookup_insert_ne by discriminate.
    apply lookup_insert_eq.
  - rewrite lookup_insert_ne by discriminate. apply lookup_insert_eq.
  - apply lookup_insert_eq.
Qed.

(** X3. In a document with the three shell elements, a success response
    whose payload has a user object and no usable [access_token] still
    makes [login] report success, while [isAuthenticated()] is false
    afterwards. *)
Theorem login_success_without_token (w : world) (username password : string) (status : Z)
        (data du : jsval) :
  response_ok status = true →
  payload_user data = Some du →
  truthy (opt_prop data "access_token") = false →
  shell_ready (document (browser w)) →
  ∃ w',
    Auth.login username password (Response status (Some data)) w =
      (Ret (LoginResult true None), w') ∧
    fst (Auth.isAuthenticated w') = Ret false.
Proof.
  intros Hok Hdu Htok Hshell.
  destruct (remote_login_run w username status data du Hok Hdu Hshell)
    as (w' & Hrun & Hauth & _).
  exists w'. unfold Auth.login, bind, try_catch. rewrite Hrun.
  split; [reflexivity |].
  unfold Auth.isAuthenticated, gets. cbn [fst]. rewrite Hauth. cbn [token user].
  rewrite Htok. reflexivity.
Qed.

(** X4. A success status does not help a response that cannot be used. When
    the body does not parse, or is [null], [login] is exactly the fallback
    on the demonstration credentials. When the payload is an object without
    a user, the same holds except that the payload's [access_token] has
    already replaced the token in memory: with credentials the table does
    not know, [login] then reports failure and leaves that token behind. *)
Theorem login_unusable_response (w : world) (username password : string) (status : Z) :
  response_ok status = true →
  Auth.login username password (Response status None) w = Auth.demo_login username password w ∧
  Auth.login username password (Response status (Some JNull)) w =
    Auth.demo_login username password w ∧
  (∀ data,
     data ≠ JNull → data ≠ JUndefined → payload_user data = None →
     Auth.login username password (Response status (Some data)) w =
       Auth.demo_login username password (with_token (opt_prop data "access_token") w) ∧
     ((∀ d, ¬ fallback_matches username password d) →
      Auth.login username password (Response status (Some data)) w =
        (Ret Auth.login_failure, with_token (opt_prop data "access_token") w))).
Proof.
  intros Hok. unfold Auth.login, bind, try_catch, Auth.remote_login. rewrite Hok.
  split; [reflexivity |]. split; [reflexivity |].
  intros data Hnull Hundef Hnone.
  assert (get_prop data "access_token" = Some (opt_prop data "access_token")) as Htok.
  { destruct data; try congruence; reflexivity. }
  assert (∃ du, get_prop data "user" = Some du ∧ get_prop du "id" = None) as (du & Huser & Hid).
  { unfold payload_user in Hnone.
    destruct (get_prop data "user") as [du |] eqn:Huser.
    - exists du. split; [reflexivity |]. destruct du; try discriminate; reflexivity.
    - destruct data; try congruence; discriminate. }
  assert (match
            (access_token <- Auth.read data "access_token" ;;
             Auth.set_token access_token ;;
             data_user <- Auth.read data "user" ;;
             id <- Auth.read data_user "id" ;;
             uname <- Auth.read data_user "username" ;;
             role <- Auth.read data_user "role" ;;
             name <- Auth.read data_user "name" ;;
             permissions <- Auth.read data_user "permissions" ;;
             Auth.set_user
               (JObj [("id", id); ("username", uname); ("role", role);
                      ("name", js_or name (JStr username));
                      ("permissions", js_or permissions (JArr []))]) ;;
             Auth.saveAuthData ;;
             Auth.updateAuthenticatedUI ;;
             stateStore_updateState "systemStatus" "connected" ;;
             ret (Some (LoginResult true None)))%js w
          with
          | (Ret a, w') => (Ret a, w')
          | (Throw _, w') => ret None w'
          end = (Ret None, with_token (opt_prop data "access_token") w)) as ->.
  { unfold Auth.read, bind at 1. rewrite Htok. cbn [ret].
    unfold bind at 1 2. cbn [Auth.set_token on_auth modify]. rewrite Huser. cbn [ret].
    unfold bind at 1. rewrite Hid. reflexivity. }
  split; [reflexivity |].
  intros Hno. unfold Auth.demo_login.
  destruct (Auth.DEMO_USERS !! toLowerCase username) as [d |] eqn:Hd; [| reflexivity].
  destruct (String.eqb_spec (du_password d) password) as [Hp | Hp]; [| reflexivity].
  exfalso. apply (Hno d). split; assumption.
Qed.
End LoginProperties.

Lemma login_remote_success_witness :
  response_ok 200 = true ∧
  payload_user ana_payload =
    Some (JObj [("id", JNum 7); ("username", JStr "ana"); ("role", JStr "supervisor")]) ∧
  shell_ready (document (browser logged_out)) ∧
  ∃ w',
    @Auth.login example_host "Operador" "wrong" (Response 200 (Some ana_payload)) logged_out =
      (Ret (LoginResult true None), w') ∧
    token (auth w') = JStr "jwt-ana" ∧
    opt_prop (user (auth w')) "role" = JStr "supervisor" ∧
    opt_prop (user (auth w')) "name" = JStr "Operador" ∧
    opt_prop (user (auth w')) "permissions" = JArr [] ∧
    stored w' !! "iot_token" = Some "jwt-ana".
Proof.
  assert (response_ok 200 = true) as Hok by reflexivity.
  assert (payload_user ana_payload =
          Some (JObj [("id", JNum 7); ("username", JStr "ana"); ("role", JStr "supervisor")]))
    as Hdu by reflexivity.
  assert (shell_ready (document (browser logged_out))) as Hshell
    by (repeat split; vm_compute; eauto).
  split; [exact Hok |]. split; [exact Hdu |]. split; [exact Hshell |].
  destruct (@login_remote_success example_host logged_out "Operador" "wrong" 200 _ _
              Hok Hdu Hshell)
    as (w' & Hrun & Htoken & Huser & Hname & Hperm & Hstored & _).
  exists w'. split; [exact Hrun |]. split; [exact Htoken |].
  split; [rewrite Huser; reflexivity |].
  split; [exact (Hname eq_refl) |]. split; [exact (Hperm eq_refl) | exact Hstored].
Defined.

Lemma login_success_without_token_witness :
  response_ok 200 = true ∧
  payload_user (JObj [("user", JObj [("id", JNum 7)])]) = Some (JObj [("id", JNum 7)]) ∧
  truthy (opt_prop (JObj [("user", JObj [("id", JNum 7)])]) "access_token") = false ∧
  shell_ready (document (browser logged_out)) ∧
  ∃ w',
    @Auth.login example_host "ana" "secret"
      (Response 200 (Some (JObj [("user", JObj [("id", JNum 7)])]))) logged_out =
      (Ret (LoginResult true None), w') ∧
    fst (Auth.isAuthenticated w') = Ret false.
Proof.
  assert (shell_ready (document (browser logged_out))) as Hshell
    by (repeat split; vm_compute; eauto).
  split; [reflexivity |]. split; [reflexivity |]. split; [reflexivity |].
  split; [exact Hshell |].
  exact (@login_success_without_token example_host logged_out "ana" "secret" 200
           (JObj [("user", JObj [("id", JNum 7)])]) (JObj [("id", JNum 7)])
           eq_refl eq_refl eq_refl Hshell).
Defined.

Lemma login_unusable_response_witness :
  response_ok 200 = true ∧
  payload_user userless_payload = None ∧
  (∀ d, ¬ fallback_matches "operador" "wrong" d) ∧
  @Auth.login example_host "operador" "wrong" (Response 200 (Some userless_payload)) logged_out =
    (Ret Auth.login_failure, with_token (JStr "jwt-orphan") logged_out) ∧
  token (auth logged_out) = JNull.
Proof.
  assert (response_ok 200 = true) as Hok by reflexivity.
  assert (payload_user userless_payload = None) as Hnone by reflexivity.
  split; [exact Hok |]. split; [exact Hnone |].
  split; [exact no_entry_for_wrong_password |]. split; [| reflexivity].
  destruct (@login_unusable_response example_host logged_out "operador" "wrong" 200 Hok)
    as (_ & _ & Hobj).
  destruct (Hobj userless_payload) as [_ Hfail]; [discriminate | discriminate | exact Hnone |].
  exact (Hfail no_entry_for_wrong_password).
Defined.

(** ** Expiry, permissions and restoring a session *)

Section AfterLogin.
Context `{Host}.

Lemma over_24h (d : Z) :
  negb (Qle_bool (inject_Z d / inject_Z (1000 * 60 * 60)) (inject_Z 24)) =
  bool_decide (day_ms < d).
Proof.
  unfold day_ms. case_bool_decide as Hd.
  - apply negb_true_iff, not_true_iff_false. rewrite Qle_bool_iff.
    unfold Qle, Qdiv, Qmult, Qinv, inject_Z. simpl. lia.
  - apply negb_false_iff. rewrite Qle_bool_iff.
    unfold Qle, Qdiv, Qmult, Qinv, inject_Z. simpl. lia.
Qed.

Lemma isTokenExpired_run (w : world) (s : string) (loginTime : Z) :
  stored w !! "iot_last_login" = Some s →
  s ≠ "" →
  Date_getTime s = Some loginTime →
  Auth.isTokenExpired w = (Ret (bool_decide (day_ms < Date_now (browser w) - loginTime)), w).
Proof.
  unfold stored. intros Hs Hne Hparse.
  unfold Auth.isTokenExpired, getItem, gets, bind, ret. rewrite Hs.
  apply String.eqb_neq in Hne. rewrite Hne, Hparse, over_24h. reflexivity.
Qed.

(** X5. [isTokenExpired()] answers false when the stored last-login text is
    not empty and either is not a date at all, or is a date at most 24 hours
    before the current time (exactly 24 hours included). *)
Theorem isTokenExpired_fresh_or_unreadable (w : world) (s : string) :
  stored w !! "iot_last_login" = Some s →
  s ≠ "" →
  (Date_getTime s = None ∨
   ∃ loginTime, Date_getTime s = Some loginTime ∧ Date_now (browser w) - loginTime ≤ day_ms) →
  Auth.isTokenExpired w = (Ret false, w).
Proof.
  intros Hs Hne [Hnone | (t & Hparse & Hfresh)].
  - unfold stored in Hs. unfold Auth.isTokenExpired, getItem, gets, bind, ret. rewrite Hs.
    apply String.eqb_neq in Hne. rewrite Hne, Hnone. reflexivity.
  - rewrite (isTokenExpired_run w s t Hs Hne Hparse).
    rewrite bool_decide_eq_false_2 by lia. reflexivity.
Qed.

(** X6. After a login on the demonstration credentials at time [t0], on a host
    whose date parser reads back what its ISO printer wrote, the session
    counts as expired at time [t1] exactly when [t1 - t0] exceeds 24
    hours. *)
Theorem login_then_expiry (w : world) (username password : string) (net : fetch_result)
        (d : demo_user) (t1 : Z) :
  remote_failed net →
  fallback_matches username password d →
  Date_toISOString (Date_now (browser w)) ≠ "" →
  Date_getTime (Date_toISOString (Date_now (browser w))) = Some (Date_now (browser w)) →
  ∃ r w',
    Auth.login username password net w = (r, w') ∧
    fst (Auth.isTokenExpired (at_time t1 w')) =
      Ret (bool_decide (day_ms < t1 - Date_now (browser w))).
Proof.
  intros Hnet Hmatch Hiso Hback.
  destruct (demo_login_run w username password d Hmatch)
    as (r & w' & Hrun & _ & Hstored & _).
  exists r, w'. unfold Auth.login, bind. rewrite (remote_failed_falls_through _ _ _ Hnet).
  split; [exact Hrun |].
  rewrite (isTokenExpired_run (at_time t1 w') (Date_toISOString (Date_now (browser w)))
             (Date_now (browser w))); [reflexivity | | | ].
  - unfold stored, at_time. cbn [browser localStorage]. fold (stored w'). rewrite Hstored.
    unfold saved. apply lookup_insert_eq.
  - exact Hiso.
  - exact Hback.
Qed.

Lemma includes_listed (permission : string) (ps : list string) :
  existsb (λ item, is_str item permission) (List.map JStr ps) =
  bool_decide (permission ∈ ps).
Proof.
  induction ps as [| p ps IH]; [reflexivity |].
  cbn. rewrite IH. destruct (String.eqb_spec p permission) as [-> | Hne].
  - cbn. symmetry. apply bool_decide_eq_true_2, list_elem_of_here.
  - cbn. apply bool_decide_ext. rewrite elem_of_cons.
    split; [auto | intros [? | ?]; congruence].
Qed.

(** X7. After a login on the demonstration credentials, [hasPermission(p)]
    answers true exactly for the permissions listed in the table entry. *)
Theorem login_then_hasPermission (w : world) (username password : string) (net : fetch_result)
        (d : demo_user) (permission : string) :
  remote_failed net →
  fallback_matches username password d →
  ∃ r w',
    Auth.login username password net w = (r, w') ∧
    AuthSession.hasPermission permission w' =
      (Ret (bool_decide (permission ∈ du_permissions d)), w').
Proof.
  intros Hnet Hmatch.
  destruct (demo_login_run w username password d Hmatch) as (r & w' & Hrun & Hauth & _).
  exists r, w'. unfold Auth.login, bind. rewrite (remote_failed_falls_through _ _ _ Hnet).
  split; [exact Hrun |].
  unfold AuthSession.hasPermission, bind, gets. rewrite Hauth.
  cbn [user Auth.demo_session opt_prop get_prop own_prop String.eqb Ascii.eqb Bool.eqb].
  rewrite includes_listed. reflexivity.
Qed.

(** X8. A session saved by a login on the demonstration credentials is read
    back by the constructor: from any state with that storage, on a host
    whose JSON parser reads back the serialised user record, the constructor
    restores the same token and user, and the restored session is
    authenticated. *)
Theorem login_then_constructor (w v : world) (username password : string) (net : fetch_result)
        (d : demo_user) :
  remote_failed net →
  fallback_matches username password d →
  JSON_stringify (Auth.demo_session username d) ≠ "" →
  JSON_parse (JSON_stringify (Auth.demo_session username d)) =
    Some (Auth.demo_session username d) →
  ∃ r w',
    Auth.login username password net w = (r, w') ∧
    (stored v = stored w' →
     ∃ v',
       Auth.constructor v = (Ret tt, v') ∧
       token (auth v') = token (auth w') ∧
       user (auth v') = user (auth w') ∧
       fst (Auth.isAuthenticated v') = Ret true).
Proof.
  intros Hnet Hmatch Hne Hback.
  destruct (demo_login_run w username password d Hmatch)
    as (r & w' & Hrun & Hauth & Hstored & _).
  exists r, w'. unfold Auth.login, bind. rewrite (remote_failed_falls_through _ _ _ Hnet).
  split; [exact Hrun |].
  intros Hsame. rewrite Hstored in Hsame. unfold stored, saved in Hsame.
  unfold Auth.constructor, bind, getItem, gets. rewrite Hsame.
  rewrite (lookup_insert_ne _ "iot_last_login" "iot_token") by discriminate.
  rewrite (lookup_insert_ne _ "iot_user" "iot_token") by discriminate.
  rewrite lookup_insert_eq.
  rewrite (lookup_insert_ne _ "iot_last_login" "iot_user") by discriminate.
  rewrite lookup_insert_eq.
  unfold Auth.item_or at 1. apply String.eqb_neq in Hne. rewrite Hne, Hback.
  eexists. split; [reflexivity |]. rewrite Hauth. cbn. repeat split.
Qed.
End AfterLogin.

(** ** Frames of the application's methods *)

Ltac frames :=
  repeat first
    [ progress basic_ops
    | frame_step
    | apply returns_assign_hash
    | apply preserves_assign_hash; intros; reflexivity ].

Lemma initializePageModules_keeps {X} (f : world → X) (pageId : string) :
  (∀ w b fs, localStorage b = localStorage (browser w) →
             f (mkWorld b fs (auth w) (app w)) = f w) →
  preserves f (App.initializePageModules pageId).
Proof.
  intros Hf.
  assert (∀ w fs, f (mkWorld (browser w) fs (auth w) (app w)) = f w) as Hfs
    by (intros; apply Hf; reflexivity).
  assert (∀ w b, localStorage b = localStorage (browser w) →
                 f (mkWorld b (foreign w) (auth w) (app w)) = f w) as Hb
    by (intros; apply Hf; assumption).
  unfold App.initializePageModules, App.initializeDashboard, App.initializeAlertsPage.
  frames.
  all: apply preserves_modify; intros w; apply Hf; reflexivity.
Qed.

Lemma navigateTo_keeps {X} (f : world → X) (viewId : string) :
  (∀ w b fs, localStorage b = localStorage (browser w) →
             f (mkWorld b fs (auth w) (app w)) = f w) →
  preserves f (App.navigateTo viewId).
Proof.
  intros Hf.
  assert (∀ w b, localStorage b = localStorage (browser w) →
                 f (mkWorld b (foreign w) (auth w) (app w)) = f w) as Hb
    by (intros; apply Hf; assumption).
  unfold App.navigateTo, App.transition.
  frames.
  all: first
         [ apply (initializePageModules_keeps f _ Hf)
         | apply preserves_modify; intros w; apply Hf; reflexivity
         | apply preserves_assign_hash; intros; apply Hb; reflexivity ].
Qed.

(** [cleanup] touches the foreign objects, the store and the registry, and
    nothing else. *)
Lemma cleanup_run (w : world) :
  ∃ w',
    App.cleanup w = (Ret tt, w') ∧
    browser w' = browser w ∧ auth w' = auth w ∧
    app w' = torn_down (app w) ∧
    stateStore (foreign w') = ∅.
Proof.
  unfold App.cleanup, bind, gets.
  destruct (try_call_spec (wsService (app w)) "disconnect" w) as (w1 & l1 & -> & Hac1 & _).
  destruct (try_call_spec (dashboardController (app w1)) "destroy" w1) as (w2 & l2 & -> & Hac2 & _).
  destruct (destroy_all_spec (modules (app w2)) w2) as (w3 & l3 & -> & Hac3 & _).
  pose proof (after_calls_trans _ _ _ _ _ (after_calls_trans _ _ _ _ _ Hac1 Hac2) Hac3) as Hac.
  eexists. split; [reflexivity |]. cbn.
  rewrite (ac_app _ _ _ Hac), (ac_auth _ _ _ Hac), (ac_browser _ _ _ Hac).
  repeat split.
Qed.

Lemma on_logout_run (w : world) :
  ∃ w',
    App.on_logout w = (Ret tt, w') ∧
    auth w' = auth w ∧ stored w' = stored w ∧
    app w' = signed_out (app w).
Proof.
  unfold App.on_logout, bind.
  destruct (cleanup_run w) as (w1 & -> & Hb & Ha & Happ & _).
  unfold App.set_user, on_app, modify.
  match goal with
  | |- context [try_catch (App.navigateTo "login") ?h ?w2] =>
      pose proof (preserves_try_catch auth _ h
                    (navigateTo_keeps auth "login" (λ _ _ _ _, eq_refl))
                    (λ _, preserves_ret auth tt) w2) as Hauth;
      pose proof (preserves_try_catch stored _ h
                    (navigateTo_keeps stored "login" (λ _ _ _ H, H))
                    (λ _, preserves_ret stored tt) w2) as Hstored;
      pose proof (preserves_try_catch app _ h
                    (navigateTo_keeps app "login" (λ _ _ _ _, eq_refl))
                    (λ _, preserves_ret app tt) w2) as Happ';
      destruct (run_returns (try_catch (App.navigateTo "login") h) w2
                  (returns_try_catch _ _ (λ _, returns_ret tt))) as ([] & w3 & Hrun);
      rewrite Hrun in *
  end.
  cbn in Hauth, Hstored, Happ'. unfold stored in *. cbn in Hstored.
  exists w3. split; [reflexivity |].
  rewrite Hauth, Hstored, Happ', Ha, Hb, Happ. repeat split.
Qed.

(** The listeners of [auth:logout]: none of them throws into the
    dispatcher, the session is not theirs to change, and if the application
    is listening it ends signed out. *)
Lemma run_logout_listeners_spec (w : world) :
  ∃ w',
    run_logout_listeners w = (Ret tt, w') ∧
    auth w' = auth w ∧ stored w' = stored w ∧
    (app w' = app w ∨ app w' = signed_out (app w)) ∧
    (OnLogout ∈ listeners (browser w) → app w' = signed_out (app w)) ∧
    (OnLogout ∉ listeners (browser w) → w' = w).
Proof.
  unfold run_logout_listeners, bind, gets.
  generalize (listeners (browser w)) as ls. intros ls. revert w.
  induction ls as [| l ls IH]; intros w.
  - exists w. split; [reflexivity |]. repeat split; auto. intros Hin. inversion Hin.
  - assert (∃ w1, match l with
                  | OnLogout => try_catch App.on_logout (λ _, skip)
                  | _ => skip
                  end w = (Ret tt, w1) ∧
                  auth w1 = auth w ∧ stored w1 = stored w ∧
                  (l = OnLogout → app w1 = signed_out (app w)) ∧
                  (l ≠ OnLogout → w1 = w)) as (w1 & Hrun1 & Ha1 & Hs1 & Hyes & Hno).
    { destruct l; try (exists w; split; [reflexivity |]; repeat split; congruence).
      destruct (on_logout_run w) as (w1 & Hrun & Ha & Hs & Happ).
      exists w1. unfold try_catch. rewrite Hrun. repeat split; auto. congruence. }
    destruct (IH w1) as (w2 & Hrun2 & Ha2 & Hs2 & Heither & Hin2 & Hout2).
    exists w2. simpl. unfold bind. rewrite Hrun1. split; [exact Hrun2 |].
    split; [congruence |]. split; [congruence |].
    assert (signed_out (signed_out (app w)) = signed_out (app w)) as Hidem by reflexivity.
    assert (l = OnLogout ∨ l ≠ OnLogout) as [Hl | Hl]
      by (destruct l; first [left; reflexivity | right; discriminate]).
    + specialize (Hyes Hl). split; [| split].
      * right. destruct Heither as [-> | ->]; rewrite Hyes; reflexivity.
      * intros _. destruct Heither as [-> | ->]; rewrite Hyes; reflexivity.
      * intros Hout. exfalso. apply Hout. rewrite Hl. apply list_elem_of_here.
    + specialize (Hno Hl). subst w1. split; [exact Heither |]. split.
      * intros Hin. apply Hin2. apply elem_of_cons in Hin as [Heq | Hin]; [congruence | exact Hin].
      * intros Hout. apply Hout2. intros Hin. apply Hout. apply list_elem_of_further, Hin.
Qed.

(** The whole of [logout]. *)
Lemma logout_run (p : page) :
  ∃ w',
    AuthSession.logout p =
      (Ret tt, Page w' (reloads p ++ [100]) (announced p ++ [LogoutEvent])) ∧
    auth w' = cleared (auth (running p)) ∧
    stored w' = delete "iot_user" (delete "iot_token" (stored (running p))) ∧
    location_hash (browser w') = "#login" ∧
    stateStore (foreign w') = ∅ ∧
    (app w' = app (running p) ∨ app w' = signed_out (app (running p))) ∧
    (OnLogout ∈ listeners (browser (running p)) → app w' = signed_out (app (running p))).
Proof.
  unfold AuthSession.logout, bindP, lift, announce, reload_after.
  cbn [fst snd running reloads announced Auth.set_token Auth.set_user removeItem
       on_auth on_browser modify auth browser token user currentTheme auth_isInitialized
       foreign app set_localStorage localStorage].
  match goal with
  | |- context [run_logout_listeners ?w4] =>
      destruct (run_logout_listeners_spec w4) as (w5 & Hrun & Ha & Hs & Heither & Hin & _);
      rewrite Hrun
  end.
  unfold stored in *. cbn in Ha, Hs, Heither, Hin.
  unfold stateStore_reset, assign_hash, on_foreign, on_browser, modify.
  cbn [fst snd browser foreign auth app].
  destruct (String.eqb_spec (location_hash (browser w5)) "#login") as [Heq | Hne];
    (eexists; split; [reflexivity |]); cbn; rewrite Ha, Hs; unfold cleared; auto 10.
Qed.

(** ** Logout and the checks at startup *)

(** X9. [logout()] never throws and leaves no session: token and user are
    [null], [isAuthenticated()] is false, the "iot_token" and "iot_user"
    entries are gone and every other entry of local storage is as it was
    (the last-login time and the theme among them); the fragment is
    "#login", the store is reset, the logout event has been dispatched once
    and one reload of the page is due after 100 ms. *)
Theorem logout_clears_session (p : page) :
  ∃ w',
    AuthSession.logout p =
      (Ret tt, Page w' (reloads p ++ [100]) (announced p ++ [LogoutEvent])) ∧
    token (auth w') = JNull ∧ user (auth w') = JNull ∧
    fst (Auth.isAuthenticated w') = Ret false ∧
    stored w' !! "iot_token" = None ∧ stored w' !! "iot_user" = None ∧
    (∀ k, k ≠ "iot_token" → k ≠ "iot_user" → stored w' !! k = stored (running p) !! k) ∧
    location_hash (browser w') = "#login" ∧
    stateStore (foreign w') = ∅.
Proof.
  destruct (logout_run p) as (w' & Hrun & Hauth & Hstored & Hhash & Hstore & _).
  exists w'. split; [exact Hrun |].
  unfold Auth.isAuthenticated, gets. cbn [fst]. rewrite Hauth, Hstored. cbn [cleared token user].
  repeat split; try assumption.
  - rewrite lookup_delete_ne by discriminate. apply lookup_delete_eq.
  - apply lookup_delete_eq.
  - intros k Ht Hu. rewrite !lookup_delete_ne by congruence. reflexivity.
Qed.

(** X10. When the application listens to [auth:logout], a [logout()] also signs
    the application out: its registry is empty and its user is [null]
    afterwards. Without that listener the application record is not
    touched. *)
Theorem logout_signs_application_out (p : page) :
  ∃ w',
    fst (AuthSession.logout p) = Ret tt ∧ running (snd (AuthSession.logout p)) = w' ∧
    (OnLogout ∈ listeners (browser (running p)) →
     modules (app w') = [] ∧ app_user (app w') = JNull) ∧
    (OnLogout ∉ listeners (browser (running p)) → app w' = app (running p)).
Proof.
  unfold AuthSession.logout, bindP, lift, announce, reload_after.
  cbn [fst snd running reloads announced Auth.set_token Auth.set_user removeItem
       on_auth on_browser modify auth browser token user currentTheme auth_isInitialized
       foreign app set_localStorage localStorage].
  match goal with
  | |- context [run_logout_listeners ?w4] =>
      destruct (run_logout_listeners_spec w4) as (w5 & Hrun & _ & _ & _ & Hin & Hout);
      rewrite Hrun
  end.
  cbn in Hin, Hout.
  eexists. split; [reflexivity |]. split; [reflexivity |].
  unfold stateStore_reset, assign_hash, on_foreign, on_browser, modify.
  cbn [fst snd running app].
  split.
  - intros Hl. rewrite (Hin Hl). split; reflexivity.
  - intros Hl. rewrite (Hout Hl). reflexivity.
Qed.

Section StartupChecks.
Context `{Host}.

Lemma isTokenExpired_repainted (w w' : world) (b : bool) :
  repainted w w' → Auth.isTokenExpired w = (Ret b, w) → Auth.isTokenExpired w' = (Ret b, w').
Proof.
  intros (d' & -> & _). unfold Auth.isTokenExpired, getItem, gets, bind, ret. cbn.
  destruct (localStorage (browser w) !! "iot_last_login") as [s |];
    [| intros [= <-]; reflexivity].
  destruct (String.eqb s ""); [intros [= <-]; reflexivity |].
  destruct (Date_getTime s); intros [= <-]; reflexivity.
Qed.

Lemma returns_paints_run {A} (m : M A) (w : world) :
  returns m → paints m → ∃ a w', m w = (Ret a, w') ∧ repainted w w'.
Proof.
  intros Hr Hp. destruct (Hp w) as (r & w' & Hrun & Hre & _).
  destruct (Hr w) as [a Ha]. rewrite Hrun in Ha. cbn in Ha. subst r. eauto.
Qed.

Lemma showLoginUI_run (w : world) :
  ∃ w', AppStartup.showLoginUI w = (Ret tt, w') ∧ repainted w w'.
Proof.
  destruct (returns_paints_run AppStartup.showLoginUI w) as ([] & w' & Hrun & Hre); [| | eauto].
  - unfold AppStartup.showLoginUI, AppStartup.on_element. frames.
  - unfold AppStartup.showLoginUI, AppStartup.on_element, the_document, skip. paint.
Qed.

Lemma showAuthenticatedUI_run (w : world) :
  ∃ w', AppStartup.showAuthenticatedUI w = (Ret tt, w') ∧ repainted w w'.
Proof.
  destruct (returns_paints_run AppStartup.showAuthenticatedUI w) as ([] & w' & Hrun & Hre);
    [| | eauto].
  - unfold AppStartup.showAuthenticatedUI, AppStartup.on_element. frames.
  - unfold AppStartup.showAuthenticatedUI, AppStartup.on_element, when, the_document, skip.
    paint.
Qed.
End StartupChecks.

(** *** What the authenticated shell shows *)

Lemma NoDup_fmap_elem {A B} (f : A → B) (l : list A) (x y : A) :
  NoDup (f <$> l) → x ∈ l → y ∈ l → f x = f y → x = y.
Proof.
  induction l as [| a l IH]; intros Hnd Hx Hy Hf; [inversion Hx |].
  cbn in Hnd. apply NoDup_cons in Hnd as [Hfresh Hnd].
  apply elem_of_cons in Hx as [-> | Hx]; apply elem_of_cons in Hy as [-> | Hy].
  - reflexivity.
  - exfalso. apply Hfresh. rewrite Hf. apply list_elem_of_fmap. eauto.
  - exfalso. apply Hfresh. rewrite <- Hf. apply list_elem_of_fmap. eauto.
  - apply IH; assumption.
Qed.

Lemma getElementById_update_node (n : node) (f : element → element) (d : list element)
      (i : string) :
  (∀ e, el_attrs (f e) = el_attrs e) →
  getElementById (update_node n f d) i =
    (λ e, if Nat.eqb (el_node e) n then f e else e) <$> getElementById d i.
Proof.
  intros Hattrs. unfold getElementById, update_node.
  induction d as [| e d IH]; [reflexivity |]. cbn.
  assert (has_id i (if Nat.eqb (el_node e) n then f e else e) = has_id i e) as ->.
  { unfold has_id. destruct (Nat.eqb (el_node e) n); [rewrite Hattrs |]; reflexivity. }
  destruct (has_id i e); [reflexivity | exact IH].
Qed.

Lemma getElementById_elem (d : list element) (i : string) (e : element) :
  getElementById d i = Some e → e ∈ d ∧ el_attrs e !! "id" = Some i.
Proof.
  intros Hfind. apply List.find_some in Hfind as [Hin Hid].
  split; [apply list_elem_of_In, Hin |].
  unfold has_id in Hid. apply bool_decide_eq_true in Hid. exact Hid.
Qed.

Lemma update_node_nodes (n : node) (f : element → element) (d : list element) :
  (∀ e, el_node (f e) = el_node e) → el_node <$> update_node n f d = el_node <$> d.
Proof.
  intros Hnode. unfold update_node. induction d as [| e d IH]; [reflexivity |].
  cbn. rewrite IH. destruct (Nat.eqb (el_node e) n); [rewrite Hnode |]; reflexivity.
Qed.

Lemma doc_step_nodes (d : list element) (j : string) (f : element → element) :
  (∀ e, el_node (f e) = el_node e) → el_node <$> doc_step d j f = el_node <$> d.
Proof.
  intros Hnode. unfold doc_step. destruct (getElementById d j); [| reflexivity].
  apply update_node_nodes, Hnode.
Qed.

(** With distinct handles, a step on the element with id [j] changes that
    element and leaves the elements with other ids alone. *)
Lemma doc_step_lookup (d : list element) (i j : string) (f : element → element) :
  NoDup (el_node <$> d) →
  (∀ e, el_attrs (f e) = el_attrs e) →
  getElementById (doc_step d j f) i =
    if String.eqb i j then f <$> getElementById d i else getElementById d i.
Proof.
  intros Hnd Hattrs. unfold doc_step.
  destruct (getElementById d j) as [el |] eqn:Hj.
  - rewrite (getElementById_update_node _ _ _ _ Hattrs).
    destruct (String.eqb_spec i j) as [-> | Hne].
    + rewrite Hj. cbn. rewrite Nat.eqb_refl. reflexivity.
    + destruct (getElementById d i) as [el_i |] eqn:Hi; [| reflexivity]. cbn.
      destruct (Nat.eqb_spec (el_node el_i) (el_node el)) as [Heq | _]; [| reflexivity].
      apply getElementById_elem in Hj as [Hin_j Hid_j].
      apply getElementById_elem in Hi as [Hin_i Hid_i].
      assert (el_i = el) as -> by (apply (NoDup_fmap_elem el_node d); assumption).
      congruence.
  - destruct (String.eqb_spec i j) as [-> | _]; [rewrite Hj |]; reflexivity.
Qed.

Lemma on_element_run (i : string) (g : list string → list string) (w : world) :
  AppStartup.on_element i g w =
    (Ret tt, with_document (doc_step (document (browser w)) i (with_classList g)) w).
Proof.
  unfold AppStartup.on_element, doc_step, bind, the_document, gets.
  destruct (getElementById (document (browser w)) i); [reflexivity |].
  destruct w as [[] ? ? ?]. reflexivity.
Qed.

Lemma showAuthenticatedUI_shell (w : world) :
  NoDup (el_node <$> document (browser w)) →
  truthy (app_user (app w)) = true →
  ∃ d',
    AppStartup.showAuthenticatedUI w = (Ret tt, with_document d' w) ∧
    authenticated_shell (app_user (app w)) d'.
Proof.
  intros Hnd Huser. unfold AppStartup.showAuthenticatedUI.
  unfold bind at 1. rewrite on_element_run.
  unfold bind at 1. rewrite on_element_run.
  unfold bind at 1. rewrite on_element_run.
  unfold bind at 1, gets. cbn [with_document app]. rewrite Huser. cbn [when].
  unfold bind at 1, the_document, gets.
  cbn [with_document browser document set_document].
  set (d := document (browser w)) in *.
  set (d1 := doc_step d "app-header" (with_classList (class_remove "hidden"))).
  set (d2 := doc_step d1 "app-footer" (with_classList (class_remove "hidden"))).
  set (d3 := doc_step d2 "login-page" (with_classList (class_add "hidden"))).
  set (name := with_textContent (js_or (opt_prop (app_user (app w)) "username") (JStr ""))).
  set (role := with_textContent
                 (JStr (if is_str (opt_prop (app_user (app w)) "role") config.ROLES.SUPERVISOR
                        then "Supervisor" else "Operador"))).
  set (d4 := doc_step d3 "current-username" name).
  set (d5 := doc_step d4 "current-role" role).
  assert (NoDup (el_node <$> d1)) as Hnd1
    by (unfold d1; rewrite doc_step_nodes; [exact Hnd | reflexivity]).
  assert (NoDup (el_node <$> d2)) as Hnd2
    by (unfold d2; rewrite doc_step_nodes; [exact Hnd1 | reflexivity]).
  assert (NoDup (el_node <$> d3)) as Hnd3
    by (unfold d3; rewrite doc_step_nodes; [exact Hnd2 | reflexivity]).
  assert (NoDup (el_node <$> d4)) as Hnd4
    by (unfold d4; rewrite doc_step_nodes; [exact Hnd3 | reflexivity]).
  assert (getElementById d4 "current-role" = getElementById d3 "current-role") as Hrole.
  { unfold d4. rewrite (doc_step_lookup _ _ _ _ Hnd3) by reflexivity. reflexivity. }
  exists d5. split.
  - unfold bind, on_node, on_document, on_browser, modify, skip, ret.
    assert (∀ v d0, with_document d0 (with_document d3 v) = with_document d0 v) as Hagain
      by reflexivity.
    unfold d5. unfold doc_step at 1. rewrite Hrole. unfold d4, doc_step.
    destruct (getElementById d3 "current-username") as [el_u |];
      destruct (getElementById d3 "current-role") as [el_r |]; reflexivity.
  - unfold authenticated_shell, d5, d4, d3, d2, d1.
    repeat split; intros e He;
      repeat (rewrite doc_step_lookup in He
                by first [assumption | reflexivity
                         | unfold d4, d3, d2, d1; rewrite ?doc_step_nodes by reflexivity;
                           exact Hnd]);
      cbn [String.eqb Ascii.eqb Bool.eqb] in He.
    all: destruct (getElementById d _) as [e0 |]; [| discriminate He];
      cbn in He; injection He as <-; cbn.
    + intros Hin. apply elem_of_class_remove in Hin as [Hne _]. congruence.
    + intros Hin. apply elem_of_class_remove in Hin as [Hne _]. congruence.
    + apply elem_of_class_add. auto.
    + reflexivity.
    + reflexivity.
Qed.

Section StartupProperties.
Context `{Host}.

Lemma page_eta (p : page) : Page (running p) (reloads p) (announced p) = p.
Proof. destruct p. reflexivity. Qed.

(** X11. [checkCurrentAuth()] by cases. Without an authenticated session it
    does nothing at all. With an authenticated session that has expired it
    is exactly [logout()]. With an authenticated session that has not
    expired, and the shell elements in the document, it only repaints and
    dispatches the already-authenticated event with the current user: the
    session, local storage and the reload timers are as before. *)
Theorem checkCurrentAuth_cases (p : page) (expired : bool) :
  Auth.isTokenExpired (running p) = (Ret expired, running p) →
  (fst (Auth.isAuthenticated (running p)) = Ret false →
   AuthSession.checkCurrentAuth p = (Ret tt, p)) ∧
  (fst (Auth.isAuthenticated (running p)) = Ret true → expired = true →
   AuthSession.checkCurrentAuth p = AuthSession.logout p) ∧
  (fst (Auth.isAuthenticated (running p)) = Ret true → expired = false →
   shell_ready (document (browser (running p))) →
   ∃ w',
     AuthSession.checkCurrentAuth p =
       (Ret tt, Page w' (reloads p)
                     (announced p ++ [AlreadyAuthenticatedEvent (user (auth (running p)))])) ∧
     repainted (running p) w').
Proof.
  intros Hexp. unfold AuthSession.checkCurrentAuth, bindP, lift.
  unfold Auth.isAuthenticated, gets. cbn [fst snd running reloads announced].
  split; [| split].
  - intros [= ->]. unfold retP. rewrite page_eta. reflexivity.
  - intros [= ->] ->. cbn [fst snd running reloads announced].
    rewrite Hexp. cbn [fst snd]. rewrite page_eta. reflexivity.
  - intros [= ->] -> Hshell. cbn [fst snd running reloads announced].
    rewrite Hexp. cbn [fst snd running reloads announced].
    destruct (updateAuthenticatedUI_paints (running p))
      as (r & w' & Hrun & Hre & Hok).
    destruct (Hok Hshell) as [[] ->]. rewrite Hrun. cbn [fst snd running reloads announced].
    exists w'. split; [| exact Hre].
    destruct Hre as (d' & -> & _). reflexivity.
Qed.

(** The whole of [checkAuth]. *)
Lemma checkAuth_run (p : page) (expired : bool) :
  Auth.isTokenExpired (running p) = (Ret expired, running p) →
  let authenticated :=
    truthy (token (auth (running p))) && truthy (user (auth (running p))) in
  if authenticated && negb expired then
    ∃ w',
      AppStartup.checkAuth p = (Ret tt, Page w' (reloads p) (announced p)) ∧
      auth w' = auth (running p) ∧ stored w' = stored (running p) ∧
      app w' = mkApp (wsService (app (running p))) (dashboardController (app (running p)))
                     (currentPage (app (running p))) (user (auth (running p)))
                     (app_isInitialized (app (running p))) (modules (app (running p))) ∧
      AppStartup.showAuthenticatedUI (adopted (running p)) = (Ret tt, w')
  else if expired then
    ∃ w1,
      repainted (running p) w1 ∧
      AppStartup.checkAuth p = AuthSession.logout (Page w1 (reloads p) (announced p))
  else
    ∃ w',
      AppStartup.checkAuth p = (Ret tt, Page w' (reloads p) (announced p)) ∧
      repainted (running p) w'.
Proof.
  intros Hexp authenticated. subst authenticated.
  assert (∀ q : page,
            running q = running p → reloads q = reloads p → announced q = announced p →
            ∃ w1, repainted (running p) w1 ∧
                  (lift AppStartup.showLoginUI ;;
                   stillExpired <- lift Auth.isTokenExpired ;;
                   if stillExpired : bool then AuthSession.logout else retP tt)%page q =
                  if expired then AuthSession.logout (Page w1 (reloads p) (announced p))
                  else (Ret tt, Page w1 (reloads p) (announced p))) as Helse.
  { intros q Hq Hr Ha. unfold bindP, lift. rewrite Hq, Hr, Ha.
    destruct (showLoginUI_run (running p)) as (w1 & Hrun & Hre). rewrite Hrun.
    cbn [fst snd running reloads announced].
    rewrite (isTokenExpired_repainted _ _ _ Hre Hexp). cbn [fst snd running reloads announced].
    exists w1. split; [exact Hre |]. destruct expired; reflexivity. }
  assert (∀ authenticated : bool,
            truthy (token (auth (running p))) && truthy (user (auth (running p))) = authenticated →
            AppStartup.checkAuth p =
            try_catchP
              (valid <- (if authenticated
                         then expired <- lift Auth.isTokenExpired ;; retP (negb expired)
                         else retP false) ;;
               if valid : bool then
                 u <- lift Auth.getCurrentUser ;;
                 lift (App.set_user u) ;;
                 lift AppStartup.showAuthenticatedUI
               else
                 lift AppStartup.showLoginUI ;;
                 stillExpired <- lift Auth.isTokenExpired ;;
                 if stillExpired : bool then AuthSession.logout else retP tt)%page
              (λ _, lift AppStartup.showLoginUI) p) as Hstart.
  { intros authenticated <-. unfold AppStartup.checkAuth, try_catchP.
    unfold bindP at 1, lift at 1. unfold Auth.isAuthenticated, gets.
    cbn [fst snd running reloads announced]. rewrite page_eta. reflexivity. }
  destruct (Helse p eq_refl eq_refl eq_refl) as (w1 & Hre & Hlogin).
  destruct (truthy (token (auth (running p))) && truthy (user (auth (running p)))) eqn:Hauth;
    destruct expired; cbn [andb negb];
    rewrite (Hstart _ eq_refl); unfold try_catchP; unfold bindP at 1.
  - unfold bindP at 1, lift at 1. rewrite Hexp. unfold retP at 1.
    cbn [fst snd running reloads announced negb]. rewrite page_eta.
    rewrite Hlogin. exists w1. split; [exact Hre |].
    destruct (logout_run (Page w1 (reloads p) (announced p))) as (w2 & -> & _). reflexivity.
  - unfold bindP at 1, lift at 1. rewrite Hexp. unfold retP at 1.
    cbn [fst snd running reloads announced negb]. rewrite page_eta.
    unfold bindP, lift, Auth.getCurrentUser, gets, App.set_user, on_app, modify.
    cbn [fst snd running reloads announced].
    match goal with
    | |- context [AppStartup.showAuthenticatedUI ?w1] =>
        destruct (showAuthenticatedUI_run w1) as (w2 & Hrun & (d' & -> & _)); rewrite Hrun
    end.
    eexists. split; [reflexivity |]. repeat split. exact Hrun.
  - unfold retP at 1. rewrite Hlogin.
    exists w1. split; [exact Hre |].
    destruct (logout_run (Page w1 (reloads p) (announced p))) as (w2 & -> & _). reflexivity.
  - unfold retP at 1. rewrite Hlogin.
    exists w1. split; [reflexivity | exact Hre].
Qed.
End StartupProperties.

Section CheckAuth.
Context `{Host}.

(** X12. With an authenticated session that has not expired, [checkAuth()]
    makes the session's user the application's user and paints the
    authenticated shell: the document keeps its elements and their
    attributes, and when the element handles are distinct the header and
    the footer end up not hidden, the login page hidden, and the name and
    role fields with the user's name and role. The session and local
    storage are untouched, no logout happens and no reload is armed. *)
Theorem checkAuth_adopts_user (p : page) :
  fst (Auth.isAuthenticated (running p)) = Ret true →
  Auth.isTokenExpired (running p) = (Ret false, running p) →
  ∃ w',
    AppStartup.checkAuth p = (Ret tt, Page w' (reloads p) (announced p)) ∧
    app_user (app w') = user (auth (running p)) ∧
    truthy (app_user (app w')) = true ∧
    auth w' = auth (running p) ∧ stored w' = stored (running p) ∧
    List.map el_attrs (document (browser w')) =
      List.map el_attrs (document (browser (running p))) ∧
    (NoDup (el_node <$> document (browser (running p))) →
     authenticated_shell (user (auth (running p))) (document (browser w'))).
Proof.
  intros Hauth Hexp. pose proof (checkAuth_run p false Hexp) as Hrun.
  unfold Auth.isAuthenticated, gets in Hauth. cbn [fst] in Hauth. injection Hauth as Hauth.
  cbn zeta in Hrun. rewrite Hauth in Hrun. cbn [andb negb] in Hrun.
  destruct Hrun as (w' & Hrun & Ha & Hs & Happ & Hshow).
  apply andb_true_iff in Hauth as [_ Hu].
  exists w'. split; [exact Hrun |]. rewrite Happ. cbn [app_user].
  split; [reflexivity |]. split; [exact Hu |]. split; [exact Ha |]. split; [exact Hs |].
  split.
  { destruct (showAuthenticatedUI_run (adopted (running p))) as (w'' & Hshow' & d' & -> & Hattrs).
    rewrite Hshow' in Hshow. injection Hshow as <-. exact Hattrs. }
  intros Hnd.
  destruct (showAuthenticatedUI_shell (adopted (running p)) Hnd Hu) as (d' & Hshell & Hpainted).
  rewrite Hshell in Hshow. injection Hshow as <-. exact Hpainted.
Qed.

(** X13. When no last-login time is stored, [checkAuth()] ends in [logout()]
    whatever the session: the page is left unauthenticated on "#login" with
    a reload due after 100 ms, and still without a stored last-login time,
    so that the next load of the page meets the same condition. *)
Theorem checkAuth_without_timestamp_reloads (p : page) :
  stored (running p) !! "iot_last_login" = None →
  ∃ w',
    AppStartup.checkAuth p =
      (Ret tt, Page w' (reloads p ++ [100]) (announced p ++ [LogoutEvent])) ∧
    fst (Auth.isAuthenticated w') = Ret false ∧
    location_hash (browser w') = "#login" ∧
    stored w' !! "iot_last_login" = None.
Proof.
  intros Hnone.
  assert (Auth.isTokenExpired (running p) = (Ret true, running p)) as Hexp.
  { unfold stored in Hnone. unfold Auth.isTokenExpired, getItem, gets, bind, ret.
    rewrite Hnone. reflexivity. }
  pose proof (checkAuth_run p true Hexp) as Hrun. cbn zeta in Hrun.
  rewrite andb_false_r in Hrun.
  destruct Hrun as (w1 & (d' & -> & _) & ->).
  match goal with
  | |- context [AuthSession.logout ?q] =>
      destruct (logout_run q) as (w' & -> & Ha & Hs & Hhash & _)
  end.
  exists w'. split; [reflexivity |].
  unfold Auth.isAuthenticated, gets. cbn [fst]. rewrite Ha, Hs.
  split; [reflexivity |]. split; [exact Hhash |].
  rewrite !lookup_delete_ne by discriminate. exact Hnone.
Qed.

(** X14. Starting without an application user, the application has a user after
    [checkAuth()] exactly when the session is authenticated and has not
    expired: this is the user the navigation guard looks at. *)
Theorem checkAuth_user_iff (p : page) (expired : bool) :
  Auth.isTokenExpired (running p) = (Ret expired, running p) →
  truthy (app_user (app (running p))) = false →
  ∃ p',
    AppStartup.checkAuth p = (Ret tt, p') ∧
    (truthy (app_user (app (running p'))) = true ↔
     fst (Auth.isAuthenticated (running p)) = Ret true ∧ expired = false).
Proof.
  intros Hexp Hnouser. pose proof (checkAuth_run p expired Hexp) as Hrun. cbn zeta in Hrun.
  unfold Auth.isAuthenticated, gets. cbn [fst].
  destruct (truthy (token (auth (running p))) && truthy (user (auth (running p)))) eqn:Hauth;
    destruct expired; cbn [andb negb] in Hrun.
  - destruct Hrun as (w1 & (d' & -> & _) & ->).
    match goal with
    | |- context [AuthSession.logout ?q] =>
        destruct (logout_run q) as (w' & -> & _ & _ & _ & _ & Heither & _)
    end.
    eexists. split; [reflexivity |]. cbn [running] in *.
    split; [| intros [_ [=]]].
    destruct Heither as [-> | ->]; cbn; [rewrite Hnouser |]; discriminate.
  - destruct Hrun as (w' & -> & _ & _ & Happ & _).
    eexists. split; [reflexivity |]. cbn [running]. rewrite Happ. cbn [app_user].
    apply andb_true_iff in Hauth as [_ ->]. tauto.
  - destruct Hrun as (w1 & (d' & -> & _) & ->).
    match goal with
    | |- context [AuthSession.logout ?q] =>
        destruct (logout_run q) as (w' & -> & _ & _ & _ & _ & Heither & _)
    end.
    eexists. split; [reflexivity |]. cbn [running] in *.
    split; [| intros [[=] _]].
    destruct Heither as [-> | ->]; cbn; [rewrite Hnouser |]; discriminate.
  - destruct Hrun as (w' & -> & (d' & -> & _)).
    eexists. split; [reflexivity |]. cbn. rewrite Hnouser.
    split; [discriminate | intros [[=] _]].
Qed.
End CheckAuth.

(** ** Navigation, continued *)

(** X15. A request that passes the authentication check for a view with no page
    element in the document is answered by setting the fragment to
    "#dashboard": nothing is activated and no module is called. *)
Theorem navigateTo_unknown_view (w : world) (viewId : string) :
  viewId = "login" ∨ truthy (app_user (app w)) = true →
  page_of w viewId = None →
  ∃ w',
    App.navigateTo viewId w = (Ret tt, w') ∧
    location_hash (browser w') = "#dashboard" ∧
    document (browser w') = document (browser w) ∧
    foreign w' = foreign w ∧
    app w' = app w ∧ auth w' = auth w.
Proof.
  intros Hauth Hpage. unfold page_of in Hpage.
  unfold App.navigateTo, bind, the_document, gets. rewrite Hpage.
  assert (negb (String.eqb viewId "login") && negb (truthy (app_user (app w))) = false) as ->.
  { destruct Hauth as [-> | ->]; [reflexivity | apply andb_false_r]. }
  cbn [andb]. unfold assign_hash, on_browser, modify.
  destruct (String.eqb_spec (location_hash (browser w)) "#dashboard") as [Heq | Hne];
    eexists; (split; [reflexivity |]); cbn; auto.
Qed.

(** ** Teardown, continued *)

(** The calls one run of [cleanup] makes on what the application holds. *)
Lemma cleanup_calls (w : world) :
  ∃ w' l1 l2 l3,
    App.cleanup w = (Ret tt, w') ∧
    after_calls w (mkWorld (browser w') (mkForeign (stateStore (foreign w)) (heap (foreign w'))
                                                   (calls (foreign w')))
                           (auth w') (app w)) ((l1 ++ l2) ++ l3) ∧
    app w' = torn_down (app w) ∧
    (∀ r, wsService (app w) = Some r → callable w r "disconnect" → (r, "disconnect") ∈ l1) ∧
    (∀ r, dashboardController (app w) = Some r → callable w r "destroy" → (r, "destroy") ∈ l2) ∧
    (∀ k r, (k, Some r) ∈ modules (app w) → callable w r "destroy" → (r, "destroy") ∈ l3).
Proof.
  unfold App.cleanup, bind, gets.
  destruct (try_call_spec (wsService (app w)) "disconnect" w) as (w1 & l1 & -> & Hac1 & Hc1).
  destruct (try_call_spec (dashboardController (app w1)) "destroy" w1)
    as (w2 & l2 & -> & Hac2 & Hc2).
  destruct (destroy_all_spec (modules (app w2)) w2) as (w3 & l3 & -> & Hac3 & Hc3).
  pose proof (after_calls_trans _ _ _ _ _ Hac1 Hac2) as Hac12.
  pose proof (after_calls_trans _ _ _ _ _ Hac12 Hac3) as Hac.
  eexists _, l1, l2, l3. split; [reflexivity |]. cbn.
  split; [| split; [| split; [| split]]].
  - destruct Hac as [Hb Ha Hp Hs Hm Hc]. split; cbn; auto.
  - rewrite (ac_app _ _ _ Hac). reflexivity.
  - intros r Hr Hc. apply Hc1; assumption.
  - intros r Hr Hc. apply Hc2.
    + rewrite (ac_app _ _ _ Hac1). exact Hr.
    + eapply callable_after_calls; eassumption.
  - intros k r Hin Hc. apply (Hc3 k r).
    + rewrite (ac_app _ _ _ Hac12). exact Hin.
    + eapply callable_after_calls; eassumption.
Qed.

Lemma callable_same_heap (w w' : world) (r : ref) (name : string) :
  (∀ p, methods <$> heap (foreign w') !! p = methods <$> heap (foreign w) !! p) →
  callable w r name → callable w' r name.
Proof.
  intros Hm. unfold callable, lookup_method. specialize (Hm r).
  destruct (heap (foreign w) !! r) as [o |]; [| intros [? [=]]].
  destruct (heap (foreign w') !! r) as [o' |]; [| discriminate Hm].
  simpl in Hm. injection Hm as ->.
  destruct (find_method (methods o) name); [eauto | intros [? [=]]].
Qed.

(** X16. [cleanup()] does not let go of the transport and the controller: a
    second run calls [disconnect()] on the transport and [destroy()] on the
    controller again. *)
Theorem cleanup_repeats_on_held_objects (w : world) (socket controller : ref) :
  wsService (app w) = Some socket → callable w socket "disconnect" →
  dashboardController (app w) = Some controller → callable w controller "destroy" →
  ∃ w1 w2 first second,
    App.cleanup w = (Ret tt, w1) ∧ App.cleanup w1 = (Ret tt, w2) ∧
    calls (foreign w1) = (calls (foreign w) ++ first)%list ∧
    calls (foreign w2) = (calls (foreign w1) ++ second)%list ∧
    (socket, "disconnect") ∈ first ∧ (controller, "destroy") ∈ first ∧
    (socket, "disconnect") ∈ second ∧ (controller, "destroy") ∈ second.
Proof.
  intros Hws Hcws Hdc Hcdc.
  destruct (cleanup_calls w) as (w1 & l1 & l2 & l3 & Hrun1 & Hac1 & Happ1 & Hd1 & Hk1 & _).
  assert (callable w1 socket "disconnect" ∧ callable w1 controller "destroy") as [Hcws1 Hcdc1].
  { split; eapply callable_same_heap; try eassumption; intros p; apply (ac_methods _ _ _ Hac1 p). }
  destruct (cleanup_calls w1) as (w2 & m1 & m2 & m3 & Hrun2 & Hac2 & _ & Hd2 & Hk2 & _).
  exists w1, w2, ((l1 ++ l2) ++ l3)%list, ((m1 ++ m2) ++ m3)%list.
  split; [exact Hrun1 |]. split; [exact Hrun2 |].
  split; [exact (ac_calls _ _ _ Hac1) |]. split; [exact (ac_calls _ _ _ Hac2) |].
  rewrite Happ1 in Hd2, Hk2. cbn in Hd2, Hk2.
  rewrite !elem_of_app. auto 10.
Qed.

(** X17. A controller that is held in [dashboardController] and registered in
    the registry as well has its [destroy()] called twice by one
    [cleanup()]: once directly and once through the registry. *)
Theorem cleanup_destroys_registered_controller_twice (w : world) (k : string) (controller : ref) :
  dashboardController (app w) = Some controller →
  (k, Some controller) ∈ modules (app w) →
  callable w controller "destroy" →
  ∃ w' before direct through,
    App.cleanup w = (Ret tt, w') ∧
    calls (foreign w') = (calls (foreign w) ++ (before ++ direct) ++ through)%list ∧
    (controller, "destroy") ∈ direct ∧ (controller, "destroy") ∈ through.
Proof.
  intros Hdc Hin Hc.
  destruct (cleanup_calls w) as (w' & l1 & l2 & l3 & Hrun & Hac & _ & _ & Hk & Hreg).
  exists w', l1, l2, l3. split; [exact Hrun |].
  split; [exact (ac_calls _ _ _ Hac) |]. split; [apply Hk; assumption | eapply Hreg; eassumption].
Qed.

(** ** The registry *)

Lemma map_get_set_eq (ms : list (string * option ref)) (k : string) (v : option ref) :
  App.map_get (App.map_set ms k v) k = v.
Proof.
  induction ms as [| [k' v'] ms IH]; cbn.
  - rewrite String.eqb_refl. reflexivity.
  - destruct (String.eqb_spec k' k) as [-> | Hne]; cbn.
    + rewrite String.eqb_refl. reflexivity.
    + apply String.eqb_neq in Hne. rewrite Hne. exact IH.
Qed.

Lemma map_get_set_ne (ms : list (string * option ref)) (k k' : string) (v : option ref) :
  k ≠ k' → App.map_get (App.map_set ms k v) k' = App.map_get ms k'.
Proof.
  intros Hne. induction ms as [| [k0 v0] ms IH]; cbn.
  - apply String.eqb_neq in Hne. rewrite Hne. reflexivity.
  - destruct (String.eqb_spec k0 k) as [-> | Hne0]; cbn.
    + apply String.eqb_neq in Hne. rewrite Hne. reflexivity.
    + rewrite IH. reflexivity.
Qed.

Lemma map_set_keys (ms : list (string * option ref)) (k : string) (v : option ref) :
  (App.map_set ms k v).*1 = if bool_decide (k ∈ ms.*1) then ms.*1 else (ms.*1 ++ [k])%list.
Proof.
  induction ms as [| [k' v'] ms IH]; cbn; [reflexivity |].
  destruct (String.eqb_spec k' k) as [-> | Hne]; cbn.
  - rewrite bool_decide_eq_true_2 by apply list_elem_of_here. reflexivity.
  - rewrite IH. case_bool_decide as Hin.
    + rewrite bool_decide_eq_true_2 by (apply list_elem_of_further; exact Hin). reflexivity.
    + rewrite bool_decide_eq_false_2; [reflexivity |].
      intros Hin'. apply elem_of_cons in Hin' as [-> | Hin']; [congruence | contradiction].
Qed.

Lemma map_set_NoDup (ms : list (string * option ref)) (k : string) (v : option ref) :
  NoDup ms.*1 → NoDup (App.map_set ms k v).*1.
Proof.
  intros Hnd. rewrite map_set_keys. case_bool_decide as Hin; [exact Hnd |].
  apply NoDup_app. split; [exact Hnd |]. split.
  - intros x Hx Hxk. apply list_elem_of_singleton in Hxk as ->. contradiction.
  - apply NoDup_singleton.
Qed.

Lemma modules_set_run (k : string) (v : option ref) (w : world) :
  App.modules_set k v w = (Ret tt, with_modules (App.map_set (modules (app w)) k v) w).
Proof. reflexivity. Qed.

(** What the attempt to open the transport leaves, by what [connect()]
    does. *)
Lemma open_socket_run (w : world) (s : ref) :
  ∃ w' (registered : bool),
    try_catch
      (App.set_wsService (Some s) ;;
       hasConnect <- has_method (Some s) "connect" ;;
       when hasConnect (call (Some s) "connect" ;; skip) ;;
       App.modules_set "websocket" (Some s))%js
      (λ _, skip) w = (Ret tt, w') ∧
    browser w' = browser w ∧ auth w' = auth w ∧
    wsService (app w') = Some s ∧
    dashboardController (app w') = dashboardController (app w) ∧
    app_user (app w') = app_user (app w) ∧
    modules (app w') =
      (if registered then App.map_set (modules (app w)) "websocket" (Some s)
       else modules (app w)) ∧
    (registered = false ↔
     ∃ o g, lookup_method w (Some s) "connect" = Some (s, o, g) ∧ snd (g (ostate o)) = None).
Proof.
  unfold call, App.set_wsService, App.modules_set, App.set_modules, has_method,
    on_app, on_foreign.
  unfold try_catch, bind, modify, gets, when, skip, ret, throw.
  cbn [fst snd app browser foreign auth wsService modules id].
  change (lookup_method
            (mkWorld (browser w) (foreign w) (auth w)
                     (mkApp (Some s) (dashboardController (app w)) (currentPage (app w))
                            (app_user (app w)) (app_isInitialized (app w)) (modules (app w))))
            (Some s) "connect")
    with (lookup_method w (Some s) "connect").
  destruct (lookup_method w (Some s) "connect") as [[[p o] g] |] eqn:Hlook.
  - rewrite bool_decide_eq_true_2 by eauto.
    change (lookup_method
              (mkWorld (browser w) (foreign w) (auth w)
                       (mkApp (Some s) (dashboardController (app w)) (currentPage (app w))
                              (app_user (app w)) (app_isInitialized (app w)) (modules (app w))))
              (Some s) "connect")
      with (lookup_method w (Some s) "connect").
    rewrite Hlook.
    pose proof (lookup_method_Some _ _ _ _ _ _ Hlook) as ([= <-] & _ & _).
    destruct (snd (g (ostate o))) as [v |] eqn:Hres.
    + eexists _, true. split; [reflexivity |]. cbn. repeat split; try discriminate.
      intros (o' & g' & [= <- <-] & Hthrow). congruence.
    + eexists _, false. split; [reflexivity |]. cbn. repeat split; eauto.
  - rewrite bool_decide_eq_false_2 by (intros [? [=]]).
    eexists _, true. split; [reflexivity |]. cbn. repeat split; try discriminate.
    intros (o' & g' & [=] & _).
Qed.

(** The whole of [initializeAuthenticatedModules]. [registered] tells
    whether the transport made it into the registry. *)
Lemma initializeAuthenticatedModules_run (w : world) (f : App.factories) :
  ∃ w' (registered : bool),
    App.initializeAuthenticatedModules f w = (Ret tt, w') ∧
    App.map_get (modules (app w')) "alerts" = App.alert_system f ∧
    App.map_get (modules (app w')) "theme" = App.theme_manager f ∧
    App.map_get (modules (app w')) "dashboard" = App.dashboard_controller f ∧
    dashboardController (app w') = App.dashboard_controller f ∧
    (NoDup (modules (app w)).*1 → NoDup (modules (app w')).*1) ∧
    auth w' = auth w ∧ stored w' = stored w ∧ app_user (app w') = app_user (app w) ∧
    listeners (browser w') = (listeners (browser w) ++ [OnUnload; OnPageHide])%list ∧
    wsService (app w') =
      match App.web_socket f with Some s => Some s | None => wsService (app w) end ∧
    App.map_get (modules (app w')) "websocket" =
      (if registered then App.web_socket f
       else App.map_get (modules (app w)) "websocket") ∧
    (registered = false ↔
     App.web_socket f = None ∨
     ∃ s o g, App.web_socket f = Some s ∧
              lookup_method w (Some s) "connect" = Some (s, o, g) ∧
              snd (g (ostate o)) = None).
Proof.
  unfold App.initializeAuthenticatedModules.
  unfold bind at 1. rewrite modules_set_run.
  unfold bind at 1. rewrite modules_set_run.
  unfold bind at 1.
  set (ms2 := App.map_set (modules (app (with_modules
                 (App.map_set (modules (app w)) "alerts" (App.alert_system f)) w)))
                          "theme" (App.theme_manager f)).
  set (w2 := with_modules ms2 _).
  assert (∃ w3 (registered : bool),
            try_catch
              match App.web_socket f with
              | Some ws =>
                  (App.set_wsService (Some ws) ;;
                   hasConnect <- has_method (Some ws) "connect" ;;
                   when hasConnect (call (Some ws) "connect" ;; skip) ;;
                   App.modules_set "websocket" (Some ws))%js
              | None => throw ConstructionError
              end (λ _, skip) w2 = (Ret tt, w3) ∧
            browser w3 = browser w ∧ auth w3 = auth w ∧
            app_user (app w3) = app_user (app w) ∧
            wsService (app w3) =
              match App.web_socket f with Some s => Some s | None => wsService (app w) end ∧
            modules (app w3) =
              (if registered then App.map_set ms2 "websocket" (App.web_socket f) else ms2) ∧
            (registered = false ↔
             App.web_socket f = None ∨
             ∃ s o g, App.web_socket f = Some s ∧
                      lookup_method w (Some s) "connect" = Some (s, o, g) ∧
                      snd (g (ostate o)) = None))
    as (w3 & registered & Hrun & Hb & Ha & Hu & Hws & Hms & Hreg).
  { destruct (App.web_socket f) as [s |].
    - destruct (open_socket_run w2 s)
        as (w3 & reg & Hrun & Hb & Ha & Hws & _ & Hu & Hms & Hreg).
      exists w3, reg. split; [exact Hrun |].
      repeat (split; [assumption |]). rewrite Hreg. split.
      + intros (o & g & Hlook & Hthrow). right. exists s, o, g. auto.
      + intros [[=] | (s' & o & g & [= <-] & Hlook & Hthrow)]. eauto.
    - exists w2, false. split; [reflexivity |]. repeat (split; [reflexivity |]).
      split; auto. }
  rewrite Hrun.
  unfold App.set_dashboardController, App.setupCleanup, addEventListener, on_app, on_browser,
    modify, bind.
  cbn [fst snd app browser foreign auth wsService dashboardController currentPage app_user
       app_isInitialized modules].
  eexists _, registered. split; [reflexivity |].
  unfold stored.
  cbn [fst snd app browser foreign auth wsService dashboardController currentPage app_user
       app_isInitialized modules listeners set_listeners localStorage].
  rewrite Hms, Hb, Ha, Hu, Hws.
  set (ms3 := if registered then App.map_set ms2 "websocket" (App.web_socket f) else ms2).
  assert (App.map_get ms2 "alerts" = App.alert_system f ∧
          App.map_get ms2 "theme" = App.theme_manager f ∧
          App.map_get ms2 "websocket" = App.map_get (modules (app w)) "websocket" ∧
          (NoDup (modules (app w)).*1 → NoDup ms2.*1)) as (Hal2 & Hth2 & Hso2 & Hnd2).
  { subst ms2. cbn [with_modules app modules]. split; [| split; [| split]].
    - rewrite map_get_set_ne by discriminate. apply map_get_set_eq.
    - apply map_get_set_eq.
    - rewrite !map_get_set_ne by discriminate. reflexivity.
    - intros Hnd. apply map_set_NoDup, map_set_NoDup, Hnd. }
  assert (App.map_get ms3 "alerts" = App.alert_system f ∧
          App.map_get ms3 "theme" = App.theme_manager f ∧
          App.map_get ms3 "websocket" =
            (if registered then App.web_socket f
             else App.map_get (modules (app w)) "websocket") ∧
          (NoDup (modules (app w)).*1 → NoDup ms3.*1)) as (Hal & Hth & Hso & Hnd).
  { subst ms3. destruct registered; [| auto].
    rewrite !map_get_set_ne by discriminate. rewrite map_get_set_eq.
    split; [exact Hal2 |]. split; [exact Hth2 |]. split; [reflexivity |].
    intros Hn. apply map_set_NoDup, Hnd2, Hn. }
  split; [rewrite map_get_set_ne by discriminate; exact Hal |].
  split; [rewrite map_get_set_ne by discriminate; exact Hth |].
  split; [apply map_get_set_eq |]. split; [reflexivity |].
  split; [intros Hn; apply map_set_NoDup, Hnd, Hn |].
  do 3 (split; [reflexivity |]).
  split; [rewrite <- app_assoc; reflexivity |].
  split; [reflexivity |].
  split; [rewrite map_get_set_ne by discriminate; exact Hso | exact Hreg].
Qed.

(** X18. Once the module factories have handed back their objects,
    [initializeAuthenticatedModules()] returns normally whatever the
    transport does, and registers them: afterwards the registry answers
    the alert system under "alerts", the theme manager under "theme" and
    the dashboard controller under "dashboard", replacing earlier entries
    under these keys without duplicating a key; the controller is also held
    in [dashboardController]; the session and the application's user are
    untouched and two more teardown listeners are installed. *)
Theorem initializeAuthenticatedModules_registers (w : world) (f : App.factories) :
  ∃ w',
    App.initializeAuthenticatedModules f w = (Ret tt, w') ∧
    App.map_get (modules (app w')) "alerts" = App.alert_system f ∧
    App.map_get (modules (app w')) "theme" = App.theme_manager f ∧
    App.map_get (modules (app w')) "dashboard" = App.dashboard_controller f ∧
    dashboardController (app w') = App.dashboard_controller f ∧
    (NoDup (modules (app w)).*1 → NoDup (modules (app w')).*1) ∧
    auth w' = auth w ∧ stored w' = stored w ∧ app_user (app w') = app_user (app w) ∧
    listeners (browser w') = (listeners (browser w) ++ [OnUnload; OnPageHide])%list.
Proof.
  destruct (initializeAuthenticatedModules_run w f)
    as (w' & registered & Hrun & Hal & Hth & Hda & Hdc & Hnd & Ha & Hs & Hu & Hl & _).
  exists w'. auto 12.
Qed.

(** ** Switching the theme *)

Section ThemeSwitch.
Context `{Host}.

(** X20. For a supervisor [toggleTheme()] switches to the other theme
    ("supervisor" from "operator", "operator" from anything else), keeps
    the session, persists the new theme under "iot_theme", puts the class
    of the new theme on the body and announces the change once. *)
Theorem toggleTheme_supervisor_switches (w : world) :
  truthy (user (auth w)) = true →
  opt_prop (user (auth w)) "role" = JStr config.ROLES.SUPERVISOR →
  ∃ w',
    Auth.toggleTheme w = (Ret tt, w') ∧
    currentTheme (auth w') = other_theme (currentTheme (auth w)) ∧
    currentTheme (auth w') ≠ currentTheme (auth w) ∧
    token (auth w') = token (auth w) ∧ user (auth w') = user (auth w) ∧
    stored w' !! "iot_theme" = Some (other_theme (currentTheme (auth w))) ∧
    (∀ k, k ≠ "iot_theme" → stored w' !! k = stored w !! k) ∧
    (other_theme (currentTheme (auth w)) +:+ "-theme") ∈ body_classList (browser w') ∧
    dispatched (browser w') =
      (dispatched (browser w) ++ [ThemeChanged (other_theme (currentTheme (auth w)))])%list.
Proof.
  intros Huser Hrole.
  destruct (toggleTheme_supervisor_run w Huser Hrole)
    as (w' & Hrun & Hauth & Hstored & Hdisp & Hbody).
  exists w'. split; [exact Hrun |]. rewrite Hauth, Hstored. cbn [currentTheme token user].
  split; [reflexivity |]. split.
  { unfold other_theme. case_bool_decide as Ht; [rewrite Ht; discriminate |].
    intros Heq. apply Ht. symmetry. exact Heq. }
  split; [reflexivity |]. split; [reflexivity |].
  split; [apply lookup_insert_eq |].
  split; [intros k Hk; apply lookup_insert_ne; congruence |].
  split; [exact Hbody | exact Hdisp].
Qed.

(** X21. Two calls of [toggleTheme()] by a supervisor bring back the theme
    they started from when that theme is "operator" or "supervisor"; from
    any other theme name they end on "supervisor". The stored theme follows
    the theme in memory. *)
Theorem toggleTheme_twice (w : world) :
  truthy (user (auth w)) = true →
  opt_prop (user (auth w)) "role" = JStr config.ROLES.SUPERVISOR →
  ∃ w1 w2,
    Auth.toggleTheme w = (Ret tt, w1) ∧ Auth.toggleTheme w1 = (Ret tt, w2) ∧
    currentTheme (auth w2) =
      (if bool_decide (currentTheme (auth w) = "operator") then "operator" else "supervisor") ∧
    (currentTheme (auth w) = "operator" ∨ currentTheme (auth w) = "supervisor" →
     currentTheme (auth w2) = currentTheme (auth w)) ∧
    stored w2 !! "iot_theme" = Some (currentTheme (auth w2)).
Proof.
  intros Huser Hrole.
  destruct (toggleTheme_supervisor_run w Huser Hrole) as (w1 & Hrun1 & Hauth1 & _).
  assert (truthy (user (auth w1)) = true) as Huser1 by (rewrite Hauth1; exact Huser).
  assert (opt_prop (user (auth w1)) "role" = JStr config.ROLES.SUPERVISOR) as Hrole1
    by (rewrite Hauth1; exact Hrole).
  destruct (toggleTheme_supervisor_run w1 Huser1 Hrole1) as (w2 & Hrun2 & Hauth2 & Hstored2 & _).
  exists w1, w2. split; [exact Hrun1 |]. split; [exact Hrun2 |].
  rewrite Hstored2, Hauth2, Hauth1. cbn [currentTheme].
  assert (other_theme (other_theme (currentTheme (auth w))) =
          if bool_decide (currentTheme (auth w) = "operator") then "operator" else "supervisor")
    as Htwice.
  { unfold other_theme. destruct (bool_decide (currentTheme (auth w) = "operator"));
      reflexivity. }
  split; [exact Htwice |]. split; [| apply lookup_insert_eq].
  rewrite Htwice. intros [-> | ->]; reflexivity.
Qed.

(** X22. The theme a supervisor switched to is the theme the next page load
    starts with: the constructor, run on the state [toggleTheme()] left and
    on a host that can parse the stored user entry, reads it back. *)
Theorem toggleTheme_then_constructor (w : world) (parsedUser : jsval) :
  truthy (user (auth w)) = true →
  opt_prop (user (auth w)) "role" = JStr config.ROLES.SUPERVISOR →
  JSON_parse (Auth.item_or (stored w !! "iot_user") "null") = Some parsedUser →
  ∃ w' v,
    Auth.toggleTheme w = (Ret tt, w') ∧
    Auth.constructor w' = (Ret tt, v) ∧
    currentTheme (auth v) = currentTheme (auth w') ∧
    currentTheme (auth v) = other_theme (currentTheme (auth w)).
Proof.
  intros Huser Hrole Hparse.
  destruct (toggleTheme_supervisor_run w Huser Hrole) as (w' & Hrun & Hauth & Hstored & _).
  exists w'. unfold Auth.constructor, bind, getItem, gets. fold (stored w').
  rewrite Hstored. rewrite (lookup_insert_ne _ "iot_theme" "iot_user") by discriminate.
  rewrite Hparse, lookup_insert_eq.
  eexists. split; [exact Hrun |]. split; [reflexivity |].
  rewrite Hauth. cbn [snd auth currentTheme].
  assert (Auth.item_or (Some (other_theme (currentTheme (auth w)))) config.THEMES.OPERATOR =
          other_theme (currentTheme (auth w))) as ->; [| auto].
  unfold other_theme. case_bool_decide; reflexivity.
Qed.
End ThemeSwitch.
(** ** Starting the dashboard *)












(** ** The life of a notification *)

Lemma update_node_fresh (n : node) (f : element → element) (d : list element) :
  lookup_node d n = None → update_node n f d = d.
Proof.
  unfold lookup_node, update_node. induction d as [| e d IH]; [reflexivity |].
  cbn. destruct (Nat.eqb (el_node e) n); [discriminate |].
  intros Hd. rewrite IH by exact Hd. reflexivity.
Qed.

Lemma remove_node_fresh (n : node) (d : list element) :
  lookup_node d n = None → App.remove_node n d = d.
Proof.
  unfold lookup_node, App.remove_node. induction d as [| e d IH]; [reflexivity |].
  cbn. destruct (Nat.eqb (el_node e) n); [discriminate |].
  intros Hd. cbn. rewrite IH by exact Hd. reflexivity.
Qed.

Lemma lookup_node_last (n : node) (d : list element) (e : element) :
  lookup_node d n = None → el_node e = n → lookup_node (d ++ [e]) n = Some e.
Proof.
  unfold lookup_node. intros Hd He. induction d as [| e0 d IH]; cbn in *.
  - rewrite He, Nat.eqb_refl. reflexivity.
  - destruct (Nat.eqb (el_node e0) n); [discriminate | auto].
Qed.

Lemma update_node_last (n : node) (f : element → element) (d : list element) (e : element) :
  lookup_node d n = None → el_node e = n →
  update_node n f (d ++ [e]) = (d ++ [f e])%list.
Proof.
  intros Hd He. unfold update_node. rewrite List.map_app.
  fold (update_node n f d). rewrite update_node_fresh by exact Hd.
  cbn. rewrite He, Nat.eqb_refl. reflexivity.
Qed.

Lemma remove_node_last (n : node) (d : list element) (e : element) :
  lookup_node d n = None → el_node e = n → App.remove_node n (d ++ [e]) = d.
Proof.
  intros Hd He. unfold App.remove_node. rewrite List.filter_app.
  fold (App.remove_node n d). rewrite remove_node_fresh by exact Hd.
  cbn. rewrite He, Nat.eqb_refl. cbn. apply app_nil_r.
Qed.

(** X26. A notification left alone goes away by itself. With the handle of the
    new element not yet in use, [showNotification] appends the element and
    queues its show and expiry callbacks; run in that order, the first
    makes it visible, the second hides it again and queues its removal
    after 300 ms, and the removal leaves the document exactly as it was
    before the notification. *)
Theorem notification_expires (w : world) (message type : string) :
  lookup_node (document (browser w)) (next_node (browser w)) = None →
  ∃ w1 w2 w3 w4 shown,
    App.showNotification message type w = (Ret tt, w1) ∧
    timers (browser w1) =
      (timers (browser w) ++ [(After 10, NotificationShow (next_node (browser w)));
                              (After 5000, NotificationExpire (next_node (browser w)))])%list ∧
    App.run_task (NotificationShow (next_node (browser w))) w1 = (Ret tt, w2) ∧
    lookup_node (document (browser w2)) (next_node (browser w)) = Some shown ∧
    has_class "show" shown = true ∧
    App.run_task (NotificationExpire (next_node (browser w))) w2 = (Ret tt, w3) ∧
    timers (browser w3) =
      (timers (browser w2) ++ [(After 300, NotificationDetach (next_node (browser w)))])%list ∧
    App.run_task (NotificationDetach (next_node (browser w))) w3 = (Ret tt, w4) ∧
    document (browser w4) = document (browser w).
Proof.
  intros Hfresh.
  set (n := next_node (browser w)) in *.
  set (e := Element n None "div" ∅ ["global-notification"; "notification-" +:+ type]
                    JUndefined
                    (Auth.notification_html (App.getNotificationIcon type) message) ∅).
  assert (el_node e = n) as He by reflexivity.
  eexists _, _, _, _, (with_classList (class_add "show") e).
  split; [reflexivity |].
  split; [cbn; rewrite <- app_assoc; reflexivity |].
  split; [reflexivity |].
  cbn [App.run_task App.showNotification]. cbn.
  fold n. fold e.
  fold (update_node n (with_classList (class_add "show")) (document (browser w) ++ [e])).
  rewrite (update_node_last n _ _ e Hfresh He).
  fold (lookup_node (document (browser w) ++ [with_classList (class_add "show") e]) n).
  rewrite (lookup_node_last n _ (with_classList (class_add "show") e) Hfresh eq_refl).
  split; [reflexivity |]. split; [reflexivity |].
  split; [reflexivity |]. split; [reflexivity |]. split; [reflexivity |].
  cbn.
  fold (update_node n (with_classList (class_remove "show"))
          (document (browser w) ++ [with_classList (class_add "show") e])).
  rewrite (update_node_last n _ _ (with_classList (class_add "show") e) Hfresh eq_refl).
  fold (App.remove_node n
          (document (browser w) ++
           [with_classList (class_remove "show") (with_classList (class_add "show") e)])).
  apply remove_node_last; [exact Hfresh | reflexivity].
Qed.

(** X27. A notification closed by hand is removed once. After the close click
    the element is hidden and its removal is queued; the expiry callback
    that fires later finds nothing to do, whether it runs before or after
    the removal, and the removal leaves the document as it was before the
    notification. *)
Theorem notification_closed_by_hand (w : world) (message type : string) :
  lookup_node (document (browser w)) (next_node (browser w)) = None →
  ∃ w1 w2 w3 w4,
    App.showNotification message type w = (Ret tt, w1) ∧
    OnCloseClick (next_node (browser w)) ∈ listeners (browser w1) ∧
    App.run_task (NotificationShow (next_node (browser w))) w1 = (Ret tt, w2) ∧
    App.dismiss (next_node (browser w)) w2 = (Ret tt, w3) ∧
    timers (browser w3) =
      (timers (browser w2) ++ [(After 300, NotificationDetach (next_node (browser w)))])%list ∧
    App.run_task (NotificationExpire (next_node (browser w))) w3 = (Ret tt, w3) ∧
    App.run_task (NotificationDetach (next_node (browser w))) w3 = (Ret tt, w4) ∧
    document (browser w4) = document (browser w) ∧
    App.run_task (NotificationExpire (next_node (browser w))) w4 = (Ret tt, w4).
Proof.
  intros Hfresh.
  set (n := next_node (browser w)) in *.
  set (e := Element n None "div" ∅ ["global-notification"; "notification-" +:+ type]
                    JUndefined
                    (Auth.notification_html (App.getNotificationIcon type) message) ∅).
  assert (el_node e = n) as He by reflexivity.
  eexists _, _, _, _.
  split; [reflexivity |].
  split; [cbn; apply elem_of_app; right; apply list_elem_of_here |].
  split; [reflexivity |].
  cbn [App.run_task App.showNotification]. cbn.
  fold n. fold e.
  fold (update_node n (with_classList (class_add "show")) (document (browser w) ++ [e])).
  rewrite (update_node_last n _ _ e Hfresh He).
  fold (update_node n (with_classList (class_remove "show"))
          (document (browser w) ++ [with_classList (class_add "show") e])).
  rewrite (update_node_last n _ _ (with_classList (class_add "show") e) Hfresh eq_refl).
  split; [reflexivity |]. split; [reflexivity |].
  cbn. fold n. fold e.
  set (hidden := with_classList (class_remove "show") (with_classList (class_add "show") e)).
  fold (lookup_node (document (browser w) ++ [hidden]) n).
  rewrite (lookup_node_last n _ hidden Hfresh eq_refl).
  split; [reflexivity |]. split; [reflexivity |].
  cbn.
  pose proof (remove_node_last n _ hidden Hfresh eq_refl) as Hgone.
  unfold App.remove_node, hidden in Hgone. rewrite Hgone.
  split; [reflexivity |].
  fold (lookup_node (document (browser w)) n). rewrite Hfresh. reflexivity.
Qed.
(** ** The login event and navigation *)

(** X28. Navigation never writes to the application record, the session or
    local storage, whatever the view and whether it returns or throws: in
    particular [currentPage] is never updated by [navigateTo()]. *)
Theorem navigateTo_never_records_page (w : world) (viewId : string) :
  app (snd (App.navigateTo viewId w)) = app w ∧
  currentPage (app (snd (App.navigateTo viewId w))) = currentPage (app w) ∧
  auth (snd (App.navigateTo viewId w)) = auth w ∧
  stored (snd (App.navigateTo viewId w)) = stored w.
Proof.
  pose proof (navigateTo_keeps app viewId (λ _ _ _ _, eq_refl) w) as Happ.
  pose proof (navigateTo_keeps auth viewId (λ _ _ _ _, eq_refl) w) as Hauth.
  pose proof (navigateTo_keeps stored viewId (λ _ _ _ Hl, Hl) w) as Hstored.
  rewrite Happ. auto.
Qed.

Lemma factories_returned (c : AppStartup.factory_calls) (a t d : option ref) (w : world) :
  AppStartup.alert_system_call c = AppStartup.Returns a →
  AppStartup.theme_manager_call c = AppStartup.Returns t →
  AppStartup.dashboard_controller_call c = AppStartup.Returns d →
  AppStartup.initializeAuthenticatedModules c w =
    App.initializeAuthenticatedModules (App.Factories a t (AppStartup.web_socket_call c) d) w.
Proof. destruct c. cbn. intros -> -> ->. reflexivity. Qed.

Lemma initializeAuthenticatedModules_keeps {X} (f : world → X) (c : AppStartup.factory_calls) :
  (∀ w b fs ap, localStorage b = localStorage (browser w) →
                app_user ap = app_user (app w) →
                f (mkWorld b fs (auth w) ap) = f w) →
  preserves f (AppStartup.initializeAuthenticatedModules c).
Proof.
  intros Hf.
  unfold AppStartup.initializeAuthenticatedModules, AppStartup.factory, App.modules_set,
    App.setupCleanup, call.
  frames.
  all: apply preserves_modify; intros w; apply Hf; reflexivity.
Qed.

(** X29. For an event that carries a detail, the [auth:loginSuccess]
    listener never throws, whatever the factories, the modules and the
    navigation do, and it leaves the session and local storage as they
    were; afterwards the application's user is the user of that detail. When the three factory calls return, the
    dashboard controller is registered under "dashboard" and held in
    [dashboardController]; when the first of them throws, the user is set
    all the same and nothing is registered. *)
Theorem on_loginSuccess_signs_in (w : world) (detail_user : jsval)
        (c : AppStartup.factory_calls) :
  ∃ w',
    AppStartup.on_loginSuccess detail_user c w = (Ret tt, w') ∧
    app_user (app w') = detail_user ∧
    auth w' = auth w ∧ stored w' = stored w ∧
    (∀ a t d,
       AppStartup.alert_system_call c = AppStartup.Returns a →
       AppStartup.theme_manager_call c = AppStartup.Returns t →
       AppStartup.dashboard_controller_call c = AppStartup.Returns d →
       App.map_get (modules (app w')) "dashboard" = d ∧
       dashboardController (app w') = d) ∧
    (AppStartup.alert_system_call c = AppStartup.Throws →
     modules (app w') = modules (app w) ∧
     dashboardController (app w') = dashboardController (app w) ∧
     listeners (browser w') = listeners (browser w)).
Proof.
  unfold AppStartup.on_loginSuccess, try_catch, bind at 1, App.set_user, on_app, modify.
  set (w0 := mkWorld (browser w) (foreign w) (auth w) _).
  unfold bind.
  pose proof (initializeAuthenticatedModules_keeps auth c (λ _ _ _ _ _ _, eq_refl) w0) as Ha1.
  pose proof (initializeAuthenticatedModules_keeps stored c (λ _ _ _ _ Hl _, Hl) w0) as Hs1.
  pose proof (initializeAuthenticatedModules_keeps (λ v, app_user (app v)) c
                (λ _ _ _ _ _ Hu, Hu) w0) as Hu1.
  destruct (AppStartup.initializeAuthenticatedModules c w0) as [[[] | e] w1] eqn:Hinit;
    cbn [snd] in Ha1, Hs1, Hu1.
  - pose proof (navigateTo_keeps app "dashboard" (λ _ _ _ _, eq_refl) w1) as Happ.
    pose proof (navigateTo_keeps auth "dashboard" (λ _ _ _ _, eq_refl) w1) as Hauth.
    pose proof (navigateTo_keeps stored "dashboard" (λ _ _ _ Hl, Hl) w1) as Hstored.
    assert (∃ w2, (let (o, w') := App.navigateTo "dashboard" w1 in
                   match o with
                   | Ret a => (Ret a, w')
                   | Throw _ => skip w'
                   end) = (Ret tt, w2) ∧ w2 = snd (App.navigateTo "dashboard" w1))
      as (w2 & -> & ->).
    { destruct (App.navigateTo "dashboard" w1) as [[[] | e] w2]; eauto. }
    eexists. split; [reflexivity |]. rewrite Happ, Hauth, Hstored, Hu1, Ha1, Hs1.
    split; [reflexivity |]. split; [reflexivity |]. split; [reflexivity |]. split.
    + intros a t d Hal Hth Hdc.
      rewrite (factories_returned c a t d w0 Hal Hth Hdc) in Hinit.
      destruct (initializeAuthenticatedModules_run w0 (App.Factories a t
                  (AppStartup.web_socket_call c) d))
        as (w1' & registered & Hrun & _ & _ & Hda & Hdash & _).
      rewrite Hrun in Hinit. injection Hinit as ->. auto.
    + intros Hthrows. exfalso.
      unfold AppStartup.initializeAuthenticatedModules, bind at 1 in Hinit.
      rewrite Hthrows in Hinit. discriminate Hinit.
  - eexists. split; [reflexivity |]. cbn [skip ret snd]. rewrite Hu1, Ha1, Hs1.
    split; [reflexivity |]. split; [reflexivity |]. split; [reflexivity |]. split.
    + intros a t d Hal Hth Hdc. exfalso.
      rewrite (factories_returned c a t d w0 Hal Hth Hdc) in Hinit.
      destruct (initializeAuthenticatedModules_run w0 (App.Factories a t
                  (AppStartup.web_socket_call c) d)) as (w1' & registered & Hrun & _).
      rewrite Hrun in Hinit. discriminate Hinit.
    + intros Hthrows.
      unfold AppStartup.initializeAuthenticatedModules, bind at 1 in Hinit.
      rewrite Hthrows in Hinit. injection Hinit as _ <-. auto.
Qed.

(** ** Page transitions *)

Lemma along_ret {A} (R : world → world → Prop) (a : A) :
  (∀ w, R w w) → along R (ret a).
Proof. intros Hrefl w. apply Hrefl. Qed.

Lemma along_bind {A B} (R : world → world → Prop) (m : M A) (k : A → M B) :
  (∀ w1 w2 w3, R w1 w2 → R w2 w3 → R w1 w3) →
  along R m → (∀ a, along R (k a)) → along R (bind m k).
Proof.
  intros Htrans Hm Hk w. unfold bind. specialize (Hm w).
  destruct (m w) as [[a | e] w1]; cbn [snd] in *; [| exact Hm].
  eapply Htrans; [exact Hm | apply Hk].
Qed.

Lemma along_try_catch {A} (R : world → world → Prop) (m : M A) (h : exn → M A) :
  (∀ w1 w2 w3, R w1 w2 → R w2 w3 → R w1 w3) →
  along R m → (∀ e, along R (h e)) → along R (try_catch m h).
Proof.
  intros Htrans Hm Hh w. unfold try_catch. specialize (Hm w).
  destruct (m w) as [[a | e] w1]; cbn [snd] in *; [exact Hm |].
  eapply Htrans; [exact Hm | apply Hh].
Qed.

Lemma along_forEach {A} (R : world → world → Prop) (l : list A) (body : A → M unit) :
  (∀ w, R w w) → (∀ w1 w2 w3, R w1 w2 → R w2 w3 → R w1 w3) →
  (∀ x, along R (body x)) → along R (forEach l body).
Proof.
  intros Hrefl Htrans Hbody. induction l as [| x l IH]; cbn [forEach].
  - apply along_ret, Hrefl.
  - apply along_bind; [exact Htrans | apply Hbody | intros _; exact IH].
Qed.

Lemma dimmed_refl (e : element) : dimmed e e.
Proof. repeat split; auto. Qed.

Lemma dimmed_trans (e1 e2 e3 : element) : dimmed e1 e2 → dimmed e2 e3 → dimmed e1 e3.
Proof.
  intros (Hn1 & Ha1 & Hl1 & Hk1) (Hn2 & Ha2 & Hl2 & Hk2).
  repeat split; [congruence | congruence | auto | auto].
Qed.

Lemma settles_refl (w : world) : settles w w.
Proof.
  split; [| auto]. induction (document (browser w)); constructor; [apply dimmed_refl | assumption].
Qed.

Lemma Forall2_dimmed_trans (d1 d2 d3 : list element) :
  Forall2 dimmed d1 d2 → Forall2 dimmed d2 d3 → Forall2 dimmed d1 d3.
Proof.
  intros H12. revert d3. induction H12 as [| e1 e2 d1 d2 He H12 IH]; intros d3 H23.
  - inversion H23. constructor.
  - inversion H23 as [| ? e3 ? d3' He23 H23']; subst.
    constructor; [eapply dimmed_trans; eassumption | apply IH; assumption].
Qed.

Lemma settles_trans (w1 w2 w3 : world) : settles w1 w2 → settles w2 w3 → settles w1 w3.
Proof.
  intros [Hd1 Ht1] [Hd2 Ht2]. split; [eapply Forall2_dimmed_trans; eassumption | auto].
Qed.

Lemma Forall2_dimmed_update (n : node) (f : element → element) (d : list element) :
  (∀ e, dimmed e (f e)) → Forall2 dimmed d (update_node n f d).
Proof.
  intros Hf. unfold update_node. induction d as [| e d IH]; cbn; constructor; [| exact IH].
  destruct (Nat.eqb (el_node e) n); [apply Hf | apply dimmed_refl].
Qed.

Lemma settles_on_node (n : node) (f : element → element) :
  (∀ e, dimmed e (f e)) → along settles (on_node n f).
Proof.
  intros Hf w. split; [| auto]. cbn. apply Forall2_dimmed_update, Hf.
Qed.

Lemma settles_setTimeout (t : task) (ms : Z) : along settles (setTimeout t ms).
Proof.
  intros w. split; cbn.
  - apply (settles_refl w).
  - intros t0 Ht0. apply elem_of_app. auto.
Qed.

Lemma dimmed_leave (s : gmap string string → gmap string string) (e : element) :
  dimmed e (with_classList (class_remove "active") (with_style s e)).
Proof.
  repeat split; cbn.
  - intros c Hc. apply elem_of_class_remove in Hc as [_ Hc]. exact Hc.
  - intros c Hne Hc. apply elem_of_class_remove. auto.
Qed.

Lemma dimmed_style (s : gmap string string → gmap string string) (e : element) :
  dimmed e (with_style s e).
Proof. repeat split; auto. Qed.

Lemma dimmed_unmark (e : element) : dimmed e (with_classList (class_remove "active") e).
Proof.
  repeat split; cbn.
  - intros c Hc. apply elem_of_class_remove in Hc as [_ Hc]. exact Hc.
  - intros c Hne Hc. apply elem_of_class_remove. auto.
Qed.

(** The first loop of the transition. *)
Lemma leave_pages_settles (ps : list element) :
  along settles
    (forEach ps (λ page,
       when (has_class "active" page)
         (on_node (el_node page)
            (λ e, with_classList (class_remove "active")
                    (with_style (insert "transition"
                                   "opacity 0.2s ease-out, visibility 0.2s ease-out") e)) ;;
          setTimeout (PageHide (el_node page)) 200))).
Proof.
  apply along_forEach; [apply settles_refl | apply settles_trans |].
  intros page. unfold when. destruct (has_class "active" page).
  - apply along_bind; [apply settles_trans | | intros _; apply settles_setTimeout].
    apply settles_on_node. intros e. apply dimmed_leave.
  - apply along_ret, settles_refl.
Qed.

Lemma leave_pages_returns (ps : list element) :
  returns
    (forEach ps (λ page,
       when (has_class "active" page)
         (on_node (el_node page)
            (λ e, with_classList (class_remove "active")
                    (with_style (insert "transition"
                                   "opacity 0.2s ease-out, visibility 0.2s ease-out") e)) ;;
          setTimeout (PageHide (el_node page)) 200))).
Proof. frames. Qed.

Lemma Forall2_dimmed_elem (d d' : list element) (e' : element) :
  Forall2 dimmed d d' → e' ∈ d' → ∃ e, e ∈ d ∧ dimmed e e'.
Proof.
  intros Hd. induction Hd as [| e0 e0' d d' He Hd IH]; intros Hin.
  - inversion Hin.
  - apply elem_of_cons in Hin as [-> | Hin].
    + exists e0. split; [apply list_elem_of_here | exact He].
    + destruct (IH Hin) as (e & He_in & Hdim). exists e.
      split; [apply list_elem_of_further, He_in | exact Hdim].
Qed.

Lemma Forall2_dimmed_nodes (d d' : list element) :
  Forall2 dimmed d d' → el_node <$> d' = el_node <$> d.
Proof.
  intros Hd. induction Hd as [| e e' d d' (Hn & _) Hd IH]; [reflexivity |].
  cbn. rewrite Hn, IH. reflexivity.
Qed.

Lemma update_node_elem (n : node) (f : element → element) (d : list element) (e' : element) :
  e' ∈ update_node n f d →
  ∃ e, e ∈ d ∧ e' = if Nat.eqb (el_node e) n then f e else e.
Proof.
  unfold update_node. intros Hin. apply list_elem_of_In, List.in_map_iff in Hin as (e & <- & Hin).
  exists e. split; [apply list_elem_of_In, Hin | reflexivity].
Qed.

(** Every page that was active when the loop started is not active when it
    ends. *)
Lemma leave_pages_deactivates (ps : list element) (w : world) (page e' : element) :
  page ∈ ps → has_class "active" page = true →
  e' ∈ document (browser (snd (forEach ps (λ page,
       when (has_class "active" page)
         (on_node (el_node page)
            (λ e, with_classList (class_remove "active")
                    (with_style (insert "transition"
                                   "opacity 0.2s ease-out, visibility 0.2s ease-out") e)) ;;
          setTimeout (PageHide (el_node page)) 200)) w))) →
  el_node e' = el_node page →
  "active" ∉ classList e'.
Proof.
  revert w. induction ps as [| p0 ps IH]; intros w Hin Hact He' Hnode.
  - inversion Hin.
  - cbn [forEach] in He'. unfold bind at 1 in He'.
    destruct (when (has_class "active" p0) _ w) as [[[] | ex] w1] eqn:Hhead.
    2: { exfalso. destruct (has_class "active" p0); cbn in Hhead; discriminate. }
    apply elem_of_cons in Hin as [<- | Hin]; [| apply (IH w1); assumption].
    rewrite Hact in Hhead. cbn in Hhead. injection Hhead as Hw1.
    pose proof (leave_pages_settles ps w1) as [Hset _].
    destruct (Forall2_dimmed_elem _ _ _ Hset He') as (e1 & He1 & (Hn1 & _ & Hl1 & _)).
    rewrite <- Hw1 in He1. cbn in He1.
    apply update_node_elem in He1 as (e0 & _ & ->).
    intros Hactive. apply Hl1 in Hactive.
    assert (el_node e0 = el_node page) as Hsame.
    { destruct (Nat.eqb (el_node e0) (el_node page)); cbn in Hn1; congruence. }
    rewrite <- Hsame, Nat.eqb_refl in Hactive. cbn in Hactive.
    apply elem_of_class_remove in Hactive as [Hcontra _]. congruence.
Qed.

Lemma along_gets {A} (R : world → world → Prop) (g : world → A) :
  (∀ w, R w w) → along R (gets g).
Proof. intros Hrefl w. apply Hrefl. Qed.

Lemma along_throw {A} (R : world → world → Prop) (e : exn) :
  (∀ w, R w w) → along R (@throw A e).
Proof. intros Hrefl w. apply Hrefl. Qed.

Lemma along_modify (R : world → world → Prop) (g : world → world) :
  (∀ w, R w (g w)) → along R (modify g).
Proof. intros Hg w. apply Hg. Qed.

Lemma along_when (R : world → world → Prop) (b : bool) (m : M unit) :
  (∀ w, R w w) → along R m → along R (when b m).
Proof. intros Hrefl Hm. destruct b; [exact Hm | apply along_ret, Hrefl]. Qed.

Lemma grows_refl (w : world) : grows w w.
Proof.
  split; [| auto]. exists []. split; [symmetry; apply app_nil_r |].
  intros e He. inversion He.
Qed.

Lemma grows_trans (w1 w2 w3 : world) : grows w1 w2 → grows w2 w3 → grows w1 w3.
Proof.
  intros [(x1 & Hd1 & Hx1) Ht1] [(x2 & Hd2 & Hx2) Ht2]. split; [| auto].
  exists (x1 ++ x2)%list. split; [rewrite Hd2, Hd1; symmetry; apply app_assoc |].
  intros e He. apply elem_of_app in He as [He | He]; auto.
Qed.

Lemma grows_same_browser (w w' : world) : browser w' = browser w → grows w w'.
Proof.
  intros Hb. split; rewrite Hb; [| auto].
  exists []. split; [symmetry; apply app_nil_r |]. intros e He. inversion He.
Qed.

Lemma showNotification_grows (message type : string) :
  along grows (App.showNotification message type).
Proof.
  intros w. split; cbn.
  - eexists [_]. split; [reflexivity |].
    intros e He. apply list_elem_of_singleton in He as ->.
    unfold has_class, contains. cbn [classList]. apply bool_decide_eq_false_2.
    rewrite !elem_of_cons. intros [[=] | [[=] | Hnil]]. inversion Hnil.
  - intros t Ht. rewrite !elem_of_app. auto.
Qed.

Ltac grow_step :=
  first
    [ apply showNotification_grows
    | apply along_ret; exact grows_refl
    | apply along_gets; exact grows_refl
    | apply along_throw; exact grows_refl
    | apply along_when; [exact grows_refl |]
    | apply along_try_catch; [exact grows_trans | | intros ?]
    | apply along_bind; [exact grows_trans | | intros ?]
    | apply along_modify; intros ?; apply grows_same_browser; reflexivity
    | match goal with
      | |- along _ (match ?x with _ => _ end) => destruct x
      | |- along _ (if ?b then _ else _) => destruct b
      end ].

Lemma initializePageModules_grows (pageId : string) :
  along grows (App.initializePageModules pageId).
Proof.
  unfold App.initializePageModules, App.initializeDashboard, App.initializeAlertsPage.
  unfold call, has_method, on_foreign, skip.
  repeat grow_step.
Qed.
Lemma step_along {A B} (R : world → world → Prop) (m : M A) (k : A → M B) (w : world) :
  returns m → along R m →
  ∃ a w1, m w = (Ret a, w1) ∧ R w w1 ∧ bind m k w = k a w1.
Proof.
  intros Hret Hal. destruct (run_returns m w Hret) as (a & w1 & Hrun).
  exists a, w1. split; [exact Hrun |].
  split; [| unfold bind; rewrite Hrun; reflexivity].
  specialize (Hal w). rewrite Hrun in Hal. exact Hal.
Qed.

Lemma has_class_dimmed (e e' : element) (c : string) :
  dimmed e e' → has_class c e' = true → has_class c e = true.
Proof.
  intros (_ & _ & Hl & _). unfold has_class, contains.
  rewrite !bool_decide_eq_true. apply Hl.
Qed.

(** Step 4 of [navigateTo]. *)
Lemma transition_run (w : world) (navItems : list element) (p : element) (viewId : string) :
  NoDup (el_node <$> document (browser w)) →
  (∀ e, e ∈ document (browser w) → has_class "page" e = true →
        has_class "nav-item" e = false) →
  ∃ r w',
    App.transition (querySelectorAll_class (document (browser w)) "page") navItems p viewId w =
      (r, w') ∧
    no_active_page (document (browser w')) ∧
    (NextFrame, PageEnter (el_node p)) ∈ timers (browser w').
Proof.
  intros Hnd Hdisjoint. unfold App.transition.
  set (allPages := querySelectorAll_class (document (browser w)) "page").
  match goal with
  | |- context [bind (forEach allPages ?body) ?k] =>
      destruct (step_along settles (forEach allPages body) k w
                  (leave_pages_returns allPages) (leave_pages_settles allPages))
        as ([] & w1 & Hrun1 & Hset1 & ->);
      pose proof (λ page e', leave_pages_deactivates allPages w page e') as Hdeact
  end.
  cbn beta in Hdeact. rewrite Hrun1 in Hdeact. cbn [snd] in Hdeact.
  match goal with
  | |- context [bind (forEach navItems ?body) ?k] =>
      destruct (step_along settles (forEach navItems body) k w1) as ([] & w2 & _ & Hset2 & ->)
  end.
  { frames. }
  { apply along_forEach; [apply settles_refl | apply settles_trans |].
    intros item. apply settles_on_node. intros e. apply dimmed_unmark. }
  match goal with
  | |- context [bind (on_node ?n ?f) ?k] =>
      destruct (step_along settles (on_node n f) k w2) as ([] & w3 & _ & Hset3 & ->)
  end.
  { frames. }
  { apply settles_on_node. intros e. apply dimmed_style. }
  match goal with
  | |- context [bind (requestAnimationFrame ?t) ?k] =>
      destruct (step_along (λ v v', settles v v' ∧ (NextFrame, t) ∈ timers (browser v'))
                  (requestAnimationFrame t) k w3) as ([] & w4 & _ & [Hset4 Hframe] & ->)
  end.
  { frames. }
  { intros v. cbn. split; [split |].
    - apply (settles_refl v).
    - intros t Ht. apply elem_of_app. auto.
    - apply elem_of_app. right. apply list_elem_of_here. }
  pose proof (settles_trans _ _ _ Hset2 (settles_trans _ _ _ Hset3 Hset4)) as [Hd14 _].
  destruct Hset1 as [Hd01 _].
  pose proof (Forall2_dimmed_trans _ _ _ Hd01 Hd14) as Hd04.
  (* no page is active before the navigation entry is marked *)
  assert (no_active_page (document (browser w4))) as Hnone4.
  { intros e4 He4 Hpage4. apply not_true_iff_false. intros Hact4.
    destruct (Forall2_dimmed_elem _ _ _ Hd14 He4) as (e1 & He1 & Hdim14).
    destruct (Forall2_dimmed_elem _ _ _ Hd01 He1) as (e0 & He0 & Hdim01).
    pose proof (has_class_dimmed _ _ _ Hdim14 Hact4) as Hact1.
    pose proof (has_class_dimmed _ _ _ Hdim01 Hact1) as Hact0.
    pose proof (has_class_dimmed _ _ _ Hdim01 (has_class_dimmed _ _ _ Hdim14 Hpage4)) as Hpage0.
    apply (Hdeact e0 e1); [| exact Hact0 | exact He1 | apply Hdim01 |].
    - apply list_elem_of_In, List.filter_In. split; [apply list_elem_of_In, He0 | exact Hpage0].
    - unfold has_class, contains in Hact1. apply bool_decide_eq_true in Hact1. exact Hact1. }
  unfold bind at 1, the_document, gets.
  (* marking the navigation entry *)
  assert (∃ w5,
            match List.find (App.is_nav_target viewId) (document (browser w4)) with
            | Some activeNavItem =>
                on_node (el_node activeNavItem) (with_classList (class_add "active"))
            | None => skip
            end w4 = (Ret tt, w5) ∧
            no_active_page (document (browser w5)) ∧
            timers (browser w5) = timers (browser w4)) as (w5 & Hrun5 & Hnone5 & Htimers5).
  { destruct (List.find (App.is_nav_target viewId) (document (browser w4))) as [nav |] eqn:Hfind;
      [| exists w4; auto].
    eexists. split; [reflexivity |]. split; [| reflexivity].
    cbn. intros e5 He5 Hpage5. apply update_node_elem in He5 as (e4 & He4 & ->).
    destruct (Nat.eqb_spec (el_node e4) (el_node nav)) as [Heq | Hne];
      [exfalso | apply Hnone4; assumption].
    apply List.find_some in Hfind as [Hnav Htarget].
    assert (e4 = nav) as ->.
    { apply (NoDup_fmap_elem el_node (document (browser w4))); auto.
      - rewrite (Forall2_dimmed_nodes _ _ Hd04). exact Hnd.
      - apply list_elem_of_In, Hnav. }
    assert (has_class "page" nav = true) as Hpagenav.
    { unfold has_class, contains in *. cbn in Hpage5.
      apply bool_decide_eq_true in Hpage5. apply bool_decide_eq_true.
      apply elem_of_class_add in Hpage5 as [[=] | Hin]. exact Hin. }
    assert (has_class "nav-item" nav = true) as Hitem.
    { unfold App.is_nav_target in Htarget. apply andb_true_iff in Htarget as [Hitem _].
      exact Hitem. }
    destruct (Forall2_dimmed_elem _ _ _ Hd04 He4) as (e0 & He0 & Hdim).
    pose proof (Hdisjoint e0 He0 (has_class_dimmed _ _ _ Hdim Hpagenav)) as Hno.
    rewrite (has_class_dimmed _ _ _ Hdim Hitem) in Hno. discriminate. }
  unfold bind. rewrite Hrun5.
  pose proof (initializePageModules_grows viewId w5) as [(extra & Hdoc & Hextra) Hkeep].
  destruct (App.initializePageModules viewId w5) as [r w'].
  cbn [snd] in Hdoc, Hkeep.
  exists r, w'. split; [reflexivity |]. split.
  - intros e He Hpage. rewrite Hdoc in He. apply elem_of_app in He as [He | He].
    + apply Hnone5; assumption.
    + rewrite (Hextra e He) in Hpage. discriminate.
  - apply Hkeep. rewrite Htimers5. exact Hframe.
Qed.

(** *** The queue of callbacks *)

Lemma queues_refl (n : node) (w : world) : queues n w w.
Proof. intros s t Hin. auto. Qed.

Lemma queues_trans (n : node) (w1 w2 w3 : world) :
  queues n w1 w2 → queues n w2 w3 → queues n w1 w3.
Proof.
  intros H12 H23 s t Hin. destruct (H23 s t Hin) as [Hin2 | Hok]; [| auto].
  apply (H12 s t Hin2).
Qed.

Lemma queues_same (n : node) (w w' : world) :
  timers (browser w') = timers (browser w) → queues n w w'.
Proof. intros Heq s t Hin. rewrite Heq in Hin. auto. Qed.

Lemma queues_push (n : node) (w w' : world) (s : schedule) (t : task) :
  timers (browser w') = (timers (browser w) ++ [(s, t)])%list →
  settled_for n t → queues n w w'.
Proof.
  intros Heq Hok s' t' Hin. rewrite Heq in Hin.
  apply elem_of_app in Hin as [Hin | Hin]; [auto |].
  apply list_elem_of_singleton in Hin as [= -> ->]. auto.
Qed.

Ltac queue_step n :=
  first
    [ apply along_ret; exact (queues_refl n)
    | apply along_gets; exact (queues_refl n)
    | apply along_throw; exact (queues_refl n)
    | apply along_when; [exact (queues_refl n) |]
    | apply along_forEach; [exact (queues_refl n) | exact (queues_trans n) | intros ?]
    | apply along_try_catch; [exact (queues_trans n) | | intros ?]
    | apply along_bind; [exact (queues_trans n) | | intros ?]
    | apply along_modify; intros ?;
      first [ apply queues_same; reflexivity
            | eapply queues_push; [reflexivity | first [exact I | reflexivity]] ]
    | match goal with
      | |- along _ (match ?x with _ => _ end) => destruct x
      | |- along _ (if ?b then _ else _) => destruct b
      end ].

(** A transition to the page [p] queues callbacks that are settled for
    [p]: it never assigns the fragment. *)
Lemma transition_queues (allPages navItems : list element) (p : element) (viewId : string) :
  along (queues (el_node p)) (App.transition allPages navItems p viewId).
Proof.
  unfold App.transition, App.initializePageModules, App.initializeDashboard,
    App.initializeAlertsPage, App.showNotification, call, append_to_body.
  basic_ops.
  repeat queue_step (el_node p).
Qed.

(** *** Pages while callbacks are delivered *)

Lemma has_class_add_other (c x : string) (e : element) :
  c ≠ x → has_class c (with_classList (class_add x) e) = has_class c e.
Proof.
  intros Hne. unfold has_class, contains. cbn. apply bool_decide_ext.
  rewrite elem_of_class_add. split; [intros [? | ?]; [contradiction | assumption] | auto].
Qed.

Lemma has_class_remove_other (c x : string) (e : element) :
  c ≠ x → has_class c (with_classList (class_remove x) e) = has_class c e.
Proof.
  intros Hne. unfold has_class, contains. cbn. apply bool_decide_ext.
  rewrite elem_of_class_remove. tauto.
Qed.

Lemma has_class_add_same (x : string) (e : element) :
  has_class x (with_classList (class_add x) e) = true.
Proof.
  unfold has_class, contains. cbn. apply bool_decide_eq_true, elem_of_class_add. auto.
Qed.

(** An update that keeps handles and the "page" class, and that leaves
    "active" alone unless it is the activation of [n] itself. *)
Lemma at_most_active_update (n k : node) (f : element → element) (d : list element) :
  (∀ e, el_node (f e) = el_node e) →
  (∀ e, has_class "page" (f e) = has_class "page" e) →
  (∀ e, has_class "active" (f e) = has_class "active" e ∨ k = n) →
  at_most_active n d → at_most_active n (update_node k f d).
Proof.
  intros Hnode Hpage Hactive Hd e' Hin Hp Ha.
  apply update_node_elem in Hin as (e & Hin & ->).
  destruct (Nat.eqb_spec (el_node e) k) as [Hk | _]; [| apply Hd; assumption].
  rewrite Hnode. rewrite Hpage in Hp.
  destruct (Hactive e) as [Hsame | ->]; [| exact Hk].
  rewrite Hsame in Ha. apply Hd; assumption.
Qed.

Lemma exactly_active_update (n k : node) (f : element → element) (d : list element) :
  (∀ e, el_node (f e) = el_node e) →
  (∀ e, has_class "page" (f e) = has_class "page" e) →
  (∀ e, has_class "active" (f e) = has_class "active" e ∨
        (k = n ∧ has_class "active" (f e) = true)) →
  exactly_active n d → exactly_active n (update_node k f d).
Proof.
  intros Hnode Hpage Hactive Hd e' Hin Hp.
  apply update_node_elem in Hin as (e & Hin & ->).
  destruct (Nat.eqb_spec (el_node e) k) as [Hk | _]; [| apply Hd; assumption].
  rewrite Hnode. rewrite Hpage in Hp.
  destruct (Hactive e) as [-> | [-> ->]]; [apply Hd; assumption |].
  split; [intros _; exact Hk | reflexivity].
Qed.

(** The activation of [n]. *)
Lemma exactly_active_enter (n : node) (f : element → element) (d : list element) :
  (∀ e, el_node (f e) = el_node e) →
  (∀ e, has_class "page" (f e) = has_class "page" e) →
  (∀ e, has_class "active" (f e) = true) →
  at_most_active n d → exactly_active n (update_node n f d).
Proof.
  intros Hnode Hpage Hactive Hd e' Hin Hp.
  apply update_node_elem in Hin as (e & Hin & ->).
  destruct (Nat.eqb_spec (el_node e) n) as [Hk | Hne].
  - rewrite Hnode, Hactive. split; [intros _; exact Hk | reflexivity].
  - split; [apply Hd; assumption | intros Hk; contradiction].
Qed.

Lemma remove_node_elem (k : node) (d : list element) (e : element) :
  e ∈ App.remove_node k d → e ∈ d.
Proof.
  unfold App.remove_node. intros Hin.
  apply list_elem_of_In, List.filter_In in Hin as [Hin _]. apply list_elem_of_In, Hin.
Qed.

(** What one callback does to the pages and to the queue. *)
Lemma run_task_pages (n : node) (t : task) (w : world) :
  settled_for n t →
  ∃ w',
    App.run_task t w = (Ret tt, w') ∧
    queues n w w' ∧
    (at_most_active n (document (browser w)) → at_most_active n (document (browser w'))) ∧
    (exactly_active n (document (browser w)) → exactly_active n (document (browser w'))) ∧
    (t = PageEnter n → at_most_active n (document (browser w)) →
     exactly_active n (document (browser w'))).
Proof.
  intros Hok. destruct t as [k | k | k | k | m | k |]; cbn in Hok; [| | | | subst m | | tauto].
  - (* the notification is shown *)
    eexists. split; [reflexivity |]. split; [apply queues_same; reflexivity |]. cbn.
    split; [| split; [| discriminate]].
    + apply at_most_active_update; [reflexivity | | ];
        intros e; [| left]; apply has_class_add_other; discriminate.
    + apply exactly_active_update; [reflexivity | | ];
        intros e; [| left]; apply has_class_add_other; discriminate.
  - (* the notification expires *)
    cbn [App.run_task]. unfold bind at 1, the_document, gets.
    destruct (lookup_node (document (browser w)) k) as [e0 |];
      [destruct (has_class "show" e0) |].
    + eexists. split; [reflexivity |].
      split; [eapply queues_push; [reflexivity | exact I] |]. cbn.
      split; [| split; [| discriminate]].
      * apply at_most_active_update; [reflexivity | | ];
          intros e; [| left]; apply has_class_remove_other; discriminate.
      * apply exactly_active_update; [reflexivity | | ];
          intros e; [| left]; apply has_class_remove_other; discriminate.
    + exists w. split; [reflexivity |]. split; [apply queues_refl |].
      split; [auto |]. split; [auto | discriminate].
    + exists w. split; [reflexivity |]. split; [apply queues_refl |].
      split; [auto |]. split; [auto | discriminate].
  - (* the notification is detached *)
    eexists. split; [reflexivity |]. split; [apply queues_same; reflexivity |]. cbn.
    split; [| split; [| discriminate]].
    + intros Hd e Hin. apply Hd. eapply remove_node_elem, Hin.
    + intros Hd e Hin. apply Hd. eapply remove_node_elem, Hin.
  - (* the page left is hidden *)
    eexists. split; [reflexivity |]. split; [apply queues_same; reflexivity |]. cbn.
    split; [| split; [| discriminate]].
    + apply at_most_active_update; [reflexivity | reflexivity | left; reflexivity].
    + apply exactly_active_update; [reflexivity | reflexivity | left; reflexivity].
  - (* the target enters *)
    eexists. split; [reflexivity |].
    split; [eapply queues_push; [reflexivity | exact I] |]. cbn.
    split; [| split].
    + apply at_most_active_update; [reflexivity | | right; reflexivity].
      intros e. exact (has_class_add_other "page" "active" (with_style _ e) ltac:(discriminate)).
    + apply exactly_active_update; [reflexivity | | ].
      * intros e.
        exact (has_class_add_other "page" "active" (with_style _ e) ltac:(discriminate)).
      * intros e. right. split; [reflexivity |].
        exact (has_class_add_same "active" (with_style _ e)).
    + intros _. apply exactly_active_enter; [reflexivity | | ].
      * intros e.
        exact (has_class_add_other "page" "active" (with_style _ e) ltac:(discriminate)).
      * intros e. exact (has_class_add_same "active" (with_style _ e)).
  - (* the transition style is cleared *)
    eexists. split; [reflexivity |]. split; [apply queues_same; reflexivity |]. cbn.
    split; [| split; [| discriminate]].
    + apply at_most_active_update; [reflexivity | reflexivity | left; reflexivity].
    + apply exactly_active_update; [reflexivity | reflexivity | left; reflexivity].
Qed.

Lemma elem_of_without (i : nat) (q : list (schedule * task)) (x : schedule * task) :
  x ∈ (take i q ++ drop (S i) q)%list → x ∈ q.
Proof.
  intros Hin. apply elem_of_app in Hin as [Hin | Hin].
  - exact (subseteq_take i q x Hin).
  - exact (subseteq_drop (S i) q x Hin).
Qed.

(** Delivering the [i]-th pending callback. *)
Lemma deliver_pages (n : node) (i : nat) (w : world) :
  queue_settled n w →
  ∃ w',
    App.deliver i w = (Ret tt, w') ∧
    queue_settled n w' ∧
    (at_most_active n (document (browser w)) → at_most_active n (document (browser w'))) ∧
    (exactly_active n (document (browser w)) → exactly_active n (document (browser w'))) ∧
    (∀ s, timers (browser w) !! i = Some (s, PageEnter n) →
          at_most_active n (document (browser w)) →
          exactly_active n (document (browser w'))).
Proof.
  intros Hq. unfold App.deliver, bind at 1, gets.
  destruct (timers (browser w) !! i) as [[s t] |] eqn:Hi.
  - assert (settled_for n t) as Hok
      by (apply (Hq s), list_elem_of_lookup; eauto).
    unfold bind, on_browser, modify.
    set (w0 := mkWorld _ (foreign w) (auth w) (app w)).
    destruct (run_task_pages n t w0 Hok) as (w' & Hrun & Hqueue & Hmost & Hexact & Henter).
    exists w'. split; [exact Hrun |]. split; [| split; [| split]].
    + intros s' t' Hin. destruct (Hqueue s' t' Hin) as [Hold | Hnew]; [| exact Hnew].
      apply (Hq s'). cbn in Hold. eapply elem_of_without, Hold.
    + exact Hmost.
    + exact Hexact.
    + intros s0 [= -> ->]. apply Henter. reflexivity.
  - exists w. split; [reflexivity |]. split; [exact Hq |].
    split; [auto |]. split; [auto | discriminate].
Qed.

(** Callbacks delivered one after the other, in any order. *)
Lemma deliveries_at_most (n : node) (order : list nat) (w : world) :
  queue_settled n w → at_most_active n (document (browser w)) →
  ∃ w',
    forEach order App.deliver w = (Ret tt, w') ∧
    queue_settled n w' ∧ at_most_active n (document (browser w')).
Proof.
  revert w. induction order as [| i order IH]; intros w Hq Hd; [exists w; auto |].
  destruct (deliver_pages n i w Hq) as (w1 & Hrun & Hq1 & Hmost & _).
  destruct (IH w1 Hq1 (Hmost Hd)) as (w' & Hrest & Hq' & Hd').
  exists w'. cbn [forEach]. unfold bind. rewrite Hrun. auto.
Qed.

Lemma deliveries_exactly (n : node) (order : list nat) (w : world) :
  queue_settled n w → exactly_active n (document (browser w)) →
  ∃ w',
    forEach order App.deliver w = (Ret tt, w') ∧
    queue_settled n w' ∧ exactly_active n (document (browser w')).
Proof.
  revert w. induction order as [| i order IH]; intros w Hq Hd; [exists w; auto |].
  destruct (deliver_pages n i w Hq) as (w1 & Hrun & Hq1 & _ & Hexact & _).
  destruct (IH w1 Hq1 (Hexact Hd)) as (w' & Hrest & Hq' & Hd').
  exists w'. cbn [forEach]. unfold bind. rewrite Hrun. auto.
Qed.

(** X30. A transition on its own leaves one page active. When [navigateTo()]
    gets past its checks for a page that is not active yet, in a document
    whose element handles are distinct and whose pages are not navigation
    items, no page is marked active when it ends, whether it returns or
    throws, and the frame callback of the target is queued. When moreover
    no frame callback of another transition and no [hashchange] event was
    waiting when it started, then while the pending callbacks are
    delivered, in whatever order, no page other than the target is ever
    active, and from the delivery of the target's frame callback on exactly
    the target is active among the pages. *)
Theorem navigateTo_one_active_page (w : world) (viewId : string) (p : element) :
  viewId = "login" ∨ truthy (app_user (app w)) = true →
  page_of w viewId = Some p →
  has_class "supervisor-only" p = false ∨
    is_str (opt_prop (app_user (app w)) "role") config.ROLES.SUPERVISOR = true →
  has_class "active" p = false →
  NoDup (el_node <$> document (browser w)) →
  (∀ e, e ∈ document (browser w) → has_class "page" e = true →
        has_class "nav-item" e = false) →
  no_transition_pending (timers (browser w)) →
  ∃ r w',
    App.navigateTo viewId w = (r, w') ∧
    no_active_page (document (browser w')) ∧
    (NextFrame, PageEnter (el_node p)) ∈ timers (browser w') ∧
    ∀ order, ∃ w1,
      forEach order App.deliver w' = (Ret tt, w1) ∧
      at_most_active (el_node p) (document (browser w1)) ∧
      ∀ i s later,
        timers (browser w1) !! i = Some (s, PageEnter (el_node p)) →
        ∃ w2,
          forEach (i :: later) App.deliver w1 = (Ret tt, w2) ∧
          exactly_active (el_node p) (document (browser w2)).
Proof.
  intros Hauth Hpage Hsup Hactive Hnd Hdisjoint Hquiet. unfold page_of in Hpage.
  destruct (transition_run w (querySelectorAll_class (document (browser w)) "nav-item")
              p viewId Hnd Hdisjoint) as (r & w' & Hrun & Hnone & Hframe).
  pose proof (transition_queues (querySelectorAll_class (document (browser w)) "page")
                (querySelectorAll_class (document (browser w)) "nav-item") p viewId w)
    as Hqueue.
  rewrite Hrun in Hqueue. cbn [snd] in Hqueue.
  assert (queue_settled (el_node p) w') as Hq.
  { intros s t Hin. destruct (Hqueue s t Hin) as [Hold | Hnew]; [| exact Hnew].
    specialize (Hquiet s t Hold). destruct t; first [exact I | contradiction]. }
  assert (at_most_active (el_node p) (document (browser w'))) as Hmost.
  { intros e He Hp Ha. rewrite (Hnone e He Hp) in Ha. discriminate. }
  exists r, w'. split; [| split; [exact Hnone | split; [exact Hframe |]]].
  - unfold App.navigateTo, bind at 1, the_document, gets. unfold bind at 1. rewrite Hpage.
    assert (negb (String.eqb viewId "login") && negb (truthy (app_user (app w))) = false)
      as ->.
    { destruct Hauth as [-> | ->]; [reflexivity | apply andb_false_r]. }
    assert (has_class "supervisor-only" p &&
            negb (is_str (opt_prop (app_user (app w)) "role") config.ROLES.SUPERVISOR) = false)
      as ->.
    { destruct Hsup as [-> | ->]; [reflexivity | apply andb_false_r]. }
    rewrite Hactive. exact Hrun.
  - intros order.
    destruct (deliveries_at_most (el_node p) order w' Hq Hmost) as (w1 & Hrun1 & Hq1 & Hmost1).
    exists w1. split; [exact Hrun1 |]. split; [exact Hmost1 |].
    intros i s later Hi.
    destruct (deliver_pages (el_node p) i w1 Hq1) as (w1' & Hrun2 & Hq2 & _ & _ & Henter).
    destruct (deliveries_exactly (el_node p) later w1' Hq2 (Henter s Hi Hmost1))
      as (w2 & Hrun3 & _ & Hexact).
    exists w2. cbn [forEach]. unfold bind. rewrite Hrun2. auto.
Qed.

(** Without the last hypothesis the conclusion fails: after two navigations
    before the next animation frame, the two frame callbacks leave both
    pages active. *)
Example two_transitions_two_active_pages :
  (has_class "active" <$> page_of two_transitions "dashboard") = Some true ∧
  (has_class "active" <$> page_of two_transitions "login") = Some true.
Proof. split; vm_compute; reflexivity. Qed.

(** ** Instances *)

Lemma isTokenExpired_fresh_or_unreadable_witness :
  stored login_at_24h !! "iot_last_login" = Some "2024-01-01T00:00:00.000Z" ∧
  Date_now (browser login_at_24h) - 1704067200000 = day_ms ∧
  @Auth.isTokenExpired example_host login_at_24h = (Ret false, login_at_24h).
Proof.
  split; [reflexivity |]. split; [reflexivity |].
  apply (@isTokenExpired_fresh_or_unreadable example_host login_at_24h
           "2024-01-01T00:00:00.000Z"); [reflexivity | discriminate |].
  right. exists 1704067200000. split; [reflexivity | vm_compute; discriminate].
Defined.

Lemma login_then_expiry_witness :
  remote_failed NetworkFailure ∧
  fallback_matches "operador" "op123" operador_entry ∧
  ∃ r w',
    @Auth.login example_host "operador" "op123" NetworkFailure logged_out = (r, w') ∧
    fst (@Auth.isTokenExpired example_host (at_time one_day_later w')) = Ret true ∧
    fst (@Auth.isTokenExpired example_host (at_time (1704067200000 + day_ms) w')) = Ret false.
Proof.
  assert (remote_failed NetworkFailure) as Hnet by exact I.
  assert (fallback_matches "operador" "op123" operador_entry) as Hmatch by (split; reflexivity).
  split; [exact Hnet |]. split; [exact Hmatch |].
  destruct (@login_then_expiry example_host logged_out "operador" "op123" NetworkFailure
              operador_entry one_day_later Hnet Hmatch)
    as (r & w' & Hrun & Hlate); [discriminate | reflexivity |].
  destruct (@login_then_expiry example_host logged_out "operador" "op123" NetworkFailure
              operador_entry (1704067200000 + day_ms) Hnet Hmatch)
    as (r2 & w2 & Hrun2 & Hedge); [discriminate | reflexivity |].
  assert (w2 = w') as -> by congruence.
  exists r, w'. split; [exact Hrun |]. split; [rewrite Hlate | rewrite Hedge]; reflexivity.
Defined.

Lemma login_then_hasPermission_witness :
  remote_failed TimedOut ∧
  fallback_matches "operador" "op123" operador_entry ∧
  ∃ r w',
    @Auth.login example_host "operador" "op123" TimedOut logged_out = (r, w') ∧
    AuthSession.hasPermission "view_alerts" w' = (Ret true, w').
Proof.
  assert (remote_failed TimedOut) as Hnet by exact I.
  assert (fallback_matches "operador" "op123" operador_entry) as Hmatch by (split; reflexivity).
  split; [exact Hnet |]. split; [exact Hmatch |].
  destruct (@login_then_hasPermission example_host logged_out "operador" "op123" TimedOut
              operador_entry "view_alerts" Hnet Hmatch) as (r & w' & Hrun & Hperm).
  exists r, w'. split; [exact Hrun |]. rewrite Hperm. reflexivity.
Defined.

Lemma login_then_constructor_witness :
  remote_failed TimedOut ∧
  fallback_matches "operador" "op123" operador_entry ∧
  @JSON_parse example_host
    (@JSON_stringify example_host (Auth.demo_session "operador" operador_entry)) =
    Some (Auth.demo_session "operador" operador_entry) ∧
  ∃ v',
    @Auth.constructor example_host
      (snd (@Auth.login example_host "operador" "op123" TimedOut logged_out)) = (Ret tt, v') ∧
    token (auth v') = JStr "DEMO_TOKEN_operador_1704067200000" ∧
    user (auth v') = operator_user ∧
    fst (Auth.isAuthenticated v') = Ret true.
Proof.
  assert (remote_failed TimedOut) as Hnet by exact I.
  assert (fallback_matches "operador" "op123" operador_entry) as Hmatch by (split; reflexivity).
  split; [exact Hnet |]. split; [exact Hmatch |]. split; [reflexivity |].
  destruct (@login_then_constructor example_host logged_out
              (snd (@Auth.login example_host "operador" "op123" TimedOut logged_out))
              "operador" "op123" TimedOut operador_entry Hnet Hmatch)
    as (r & w' & Hrun & Hrestore); [discriminate | reflexivity |].
  rewrite Hrun in Hrestore. destruct (Hrestore eq_refl) as (v' & Hcons & Htoken & Huser & Hauth).
  rewrite Hrun. exists v'. split; [exact Hcons |].
  assert (w' = snd (@Auth.login example_host "operador" "op123" TimedOut logged_out)) as Hw'
    by (rewrite Hrun; reflexivity).
  split; [rewrite Htoken, Hw'; reflexivity |].
  split; [rewrite Huser, Hw'; reflexivity | exact Hauth].
Defined.

Lemma checkCurrentAuth_cases_witness :
  @Auth.isTokenExpired example_host stale_login = (Ret true, stale_login) ∧
  fst (Auth.isAuthenticated stale_login) = Ret true ∧
  @AuthSession.checkCurrentAuth example_host (Page stale_login [] []) =
    AuthSession.logout (Page stale_login [] []).
Proof.
  assert (@Auth.isTokenExpired example_host stale_login = (Ret true, stale_login)) as Hexp
    by (vm_compute; reflexivity).
  split; [exact Hexp |]. split; [reflexivity |].
  destruct (@checkCurrentAuth_cases example_host (Page stale_login [] []) true Hexp)
    as (_ & Hexpired & _).
  apply Hexpired; reflexivity.
Defined.

Lemma checkAuth_adopts_user_witness :
  fst (Auth.isAuthenticated fresh_login) = Ret true ∧
  @Auth.isTokenExpired example_host fresh_login = (Ret false, fresh_login) ∧
  app_user (app fresh_login) = JNull ∧
  NoDup (el_node <$> document (browser fresh_login)) ∧
  (classList <$> getElementById (document (browser fresh_login)) "app-header") =
    Some ["hidden"] ∧
  ∃ w',
    @AppStartup.checkAuth example_host (Page fresh_login [] []) = (Ret tt, Page w' [] []) ∧
    app_user (app w') = operator_user ∧
    authenticated_shell operator_user (document (browser w')).
Proof.
  assert (@Auth.isTokenExpired example_host fresh_login = (Ret false, fresh_login)) as Hexp
    by (vm_compute; reflexivity).
  assert (NoDup (el_node <$> document (browser fresh_login))) as Hnd.
  { cbn. repeat (apply NoDup_cons_2; [rewrite ?not_elem_of_cons; repeat split;
                                       try discriminate; apply not_elem_of_nil |]).
    apply NoDup_nil_2. }
  split; [reflexivity |]. split; [exact Hexp |]. split; [reflexivity |].
  split; [exact Hnd |]. split; [reflexivity |].
  destruct (@checkAuth_adopts_user example_host (Page fresh_login [] []) eq_refl Hexp)
    as (w' & Hrun & Huser & _ & _ & _ & _ & Hshell).
  exists w'. split; [exact Hrun |]. split; [exact Huser | exact (Hshell Hnd)].
Defined.

Lemma checkAuth_without_timestamp_reloads_witness :
  stored logged_out !! "iot_last_login" = None ∧
  ∃ w',
    @AppStartup.checkAuth example_host (Page logged_out [] []) =
      (Ret tt, Page w' [100] [LogoutEvent]) ∧
    fst (Auth.isAuthenticated w') = Ret false ∧
    location_hash (browser w') = "#login" ∧
    stored w' !! "iot_last_login" = None.
Proof.
  split; [reflexivity |].
  exact (@checkAuth_without_timestamp_reloads example_host (Page logged_out [] []) eq_refl).
Defined.

Lemma checkAuth_user_iff_witness :
  @Auth.isTokenExpired example_host stale_login = (Ret true, stale_login) ∧
  truthy (app_user (app stale_login)) = false ∧
  ∃ p',
    @AppStartup.checkAuth example_host (Page stale_login [] []) = (Ret tt, p') ∧
    truthy (app_user (app (running p'))) = false.
Proof.
  assert (@Auth.isTokenExpired example_host stale_login = (Ret true, stale_login)) as Hexp
    by (vm_compute; reflexivity).
  split; [exact Hexp |]. split; [reflexivity |].
  destruct (@checkAuth_user_iff example_host (Page stale_login [] []) true Hexp eq_refl)
    as (p' & Hrun & Hiff).
  exists p'. split; [exact Hrun |].
  destruct (truthy (app_user (app (running p')))); [| reflexivity].
  destruct (proj1 Hiff eq_refl) as [_ Hfalse]. discriminate Hfalse.
Defined.

Lemma navigateTo_unknown_view_witness :
  truthy (app_user (app operator_session)) = true ∧
  page_of operator_session "alerts" = None ∧
  ∃ w',
    App.navigateTo "alerts" operator_session = (Ret tt, w') ∧
    location_hash (browser w') = "#dashboard" ∧
    document (browser w') = document (browser operator_session).
Proof.
  split; [reflexivity |]. split; [reflexivity |].
  destruct (navigateTo_unknown_view operator_session "alerts" (or_intror eq_refl) eq_refl)
    as (w' & Hrun & Hhash & Hdoc & _).
  exists w'. auto.
Defined.

Lemma cleanup_repeats_on_held_objects_witness :
  wsService (app with_registry) = Some 0%nat ∧
  dashboardController (app with_registry) = Some 1%nat ∧
  callable with_registry 0 "disconnect" ∧
  callable with_registry 1 "destroy" ∧
  ∃ w1 w2 first second,
    App.cleanup with_registry = (Ret tt, w1) ∧ App.cleanup w1 = (Ret tt, w2) ∧
    calls (foreign w2) = ((calls (foreign with_registry) ++ first) ++ second)%list ∧
    (0%nat, "disconnect") ∈ second ∧ (1%nat, "destroy") ∈ second.
Proof.
  assert (callable with_registry 0 "disconnect") as Hc0 by (vm_compute; eauto).
  assert (callable with_registry 1 "destroy") as Hc1 by (vm_compute; eauto).
  split; [reflexivity |]. split; [reflexivity |]. split; [exact Hc0 |]. split; [exact Hc1 |].
  destruct (cleanup_repeats_on_held_objects with_registry 0%nat 1%nat eq_refl Hc0 eq_refl Hc1)
    as (w1 & w2 & l1 & l2 & Hrun1 & Hrun2 & Hcalls1 & Hcalls2 & _ & _ & Hd & Hk).
  exists w1, w2, l1, l2. rewrite Hcalls2, Hcalls1. auto.
Defined.

Lemma cleanup_destroys_registered_controller_twice_witness :
  dashboardController (app with_registry) = Some 1%nat ∧
  ("dashboard", Some 1%nat) ∈ modules (app with_registry) ∧
  callable with_registry 1 "destroy" ∧
  ∃ w' before direct through,
    App.cleanup with_registry = (Ret tt, w') ∧
    calls (foreign w') =
      (calls (foreign with_registry) ++ (before ++ direct) ++ through)%list ∧
    (1%nat, "destroy") ∈ direct ∧ (1%nat, "destroy") ∈ through.
Proof.
  assert (("dashboard", Some 1%nat) ∈ modules (app with_registry)) as Hin
    by (apply list_elem_of_In; vm_compute; auto).
  assert (callable with_registry 1 "destroy") as Hc by (vm_compute; eauto).
  split; [reflexivity |]. split; [exact Hin |]. split; [exact Hc |].
  exact (cleanup_destroys_registered_controller_twice with_registry "dashboard" 1%nat
           eq_refl Hin Hc).
Defined.

Lemma toggleTheme_supervisor_switches_witness :
  truthy (user (auth supervisor_session)) = true ∧
  opt_prop (user (auth supervisor_session)) "role" = JStr "supervisor" ∧
  currentTheme (auth supervisor_session) = "operator" ∧
  ∃ w',
    Auth.toggleTheme supervisor_session = (Ret tt, w') ∧
    currentTheme (auth w') = "supervisor" ∧
    stored w' !! "iot_theme" = Some "supervisor" ∧
    "supervisor-theme" ∈ body_classList (browser w').
Proof.
  split; [reflexivity |]. split; [reflexivity |]. split; [reflexivity |].
  destruct (toggleTheme_supervisor_switches supervisor_session eq_refl eq_refl)
    as (w' & Hrun & Htheme & _ & _ & _ & Hstored & _ & Hbody & _).
  exists w'. auto.
Defined.

Lemma toggleTheme_twice_witness :
  truthy (user (auth supervisor_session)) = true ∧
  opt_prop (user (auth supervisor_session)) "role" = JStr "supervisor" ∧
  ∃ w1 w2,
    Auth.toggleTheme supervisor_session = (Ret tt, w1) ∧
    Auth.toggleTheme w1 = (Ret tt, w2) ∧
    currentTheme (auth w2) = "operator" ∧
    stored w2 !! "iot_theme" = Some "operator".
Proof.
  split; [reflexivity |]. split; [reflexivity |].
  destruct (toggleTheme_twice supervisor_session eq_refl eq_refl)
    as (w1 & w2 & Hrun1 & Hrun2 & Htheme & _ & Hstored).
  exists w1, w2. split; [exact Hrun1 |]. split; [exact Hrun2 |].
  rewrite Hstored, Htheme. split; reflexivity.
Defined.

Lemma toggleTheme_then_constructor_witness :
  truthy (user (auth supervisor_session)) = true ∧
  opt_prop (user (auth supervisor_session)) "role" = JStr "supervisor" ∧
  @JSON_parse example_host (Auth.item_or (stored supervisor_session !! "iot_user") "null") =
    Some JNull ∧
  ∃ w' v,
    Auth.toggleTheme supervisor_session = (Ret tt, w') ∧
    @Auth.constructor example_host w' = (Ret tt, v) ∧
    currentTheme (auth v) = "supervisor".
Proof.
  split; [reflexivity |]. split; [reflexivity |]. split; [reflexivity |].
  destruct (@toggleTheme_then_constructor example_host supervisor_session JNull
              eq_refl eq_refl eq_refl) as (w' & v & Hrun & Hcons & _ & Htheme).
  exists w', v. auto.
Defined.




Lemma notification_expires_witness :
  lookup_node (document (browser logged_out)) (next_node (browser logged_out)) = None ∧
  ∃ w1 w2 w3 w4,
    App.showNotification "Error inicializando dashboard" "error" logged_out = (Ret tt, w1) ∧
    App.run_task (NotificationShow 6) w1 = (Ret tt, w2) ∧
    App.run_task (NotificationExpire 6) w2 = (Ret tt, w3) ∧
    App.run_task (NotificationDetach 6) w3 = (Ret tt, w4) ∧
    document (browser w4) = example_document.
Proof.
  split; [reflexivity |].
  destruct (notification_expires logged_out "Error inicializando dashboard" "error" eq_refl)
    as (w1 & w2 & w3 & w4 & shown & Hrun1 & _ & Hrun2 & _ & _ & Hrun3 & _ & Hrun4 & Hdoc).
  exists w1, w2, w3, w4. auto 10.
Defined.

Lemma notification_closed_by_hand_witness :
  lookup_node (document (browser logged_out)) (next_node (browser logged_out)) = None ∧
  ∃ w1 w2 w3 w4,
    App.showNotification "Error inicializando dashboard" "error" logged_out = (Ret tt, w1) ∧
    App.run_task (NotificationShow 6) w1 = (Ret tt, w2) ∧
    App.dismiss 6 w2 = (Ret tt, w3) ∧
    App.run_task (NotificationExpire 6) w3 = (Ret tt, w3) ∧
    App.run_task (NotificationDetach 6) w3 = (Ret tt, w4) ∧
    document (browser w4) = example_document.
Proof.
  split; [reflexivity |].
  destruct (notification_closed_by_hand logged_out "Error inicializando dashboard" "error"
              eq_refl)
    as (w1 & w2 & w3 & w4 & Hrun1 & _ & Hrun2 & Hrun3 & _ & Hinert & Hrun4 & Hdoc & _).
  exists w1, w2, w3, w4. auto 10.
Defined.

Lemma navigateTo_one_active_page_witness :
  truthy (app_user (app just_logged_in)) = true ∧
  page_of just_logged_in "dashboard" = Some (div_ 3 "dashboard-page" ["page"]) ∧
  NoDup (el_node <$> document (browser just_logged_in)) ∧
  no_transition_pending (timers (browser just_logged_in)) ∧
  ∃ r w',
    App.navigateTo "dashboard" just_logged_in = (r, w') ∧
    no_active_page (document (browser w')) ∧
    (NextFrame, PageEnter 3) ∈ timers (browser w') ∧
    ∃ w2,
      forEach [1; 0; 0]%nat App.deliver w' = (Ret tt, w2) ∧
      exactly_active 3 (document (browser w2)).
Proof.
  assert (NoDup (el_node <$> document (browser just_logged_in))) as Hnd.
  { cbn. repeat (apply NoDup_cons_2; [rewrite ?not_elem_of_cons; repeat split;
                                       try discriminate; apply not_elem_of_nil |]).
    apply NoDup_nil_2. }
  assert (no_transition_pending (timers (browser just_logged_in))) as Hquiet
    by (intros s t Hin; inversion Hin).
  split; [reflexivity |]. split; [reflexivity |]. split; [exact Hnd |].
  split; [exact Hquiet |].
  destruct (navigateTo_one_active_page just_logged_in "dashboard"
              (div_ 3 "dashboard-page" ["page"])
              (or_intror eq_refl) eq_refl (or_introl eq_refl) eq_refl Hnd)
    as (r & w' & Hrun & Hnone & Hframe & Horder); [| exact Hquiet |].
  { intros e He _. cbn in He.
    repeat (apply elem_of_cons in He as [-> | He]; [reflexivity |]).
    inversion He. }
  exists r, w'. split; [exact Hrun |]. split; [exact Hnone |]. split; [exact Hframe |].
  destruct (Horder []) as (w1 & Hrun1 & _ & Hlater).
  cbn in Hrun1. injection Hrun1 as <-.
  apply (Hlater 1%nat NextFrame [0; 0]%nat).
  injection Hrun as _ <-. reflexivity.
Defined.

Lemma applyTheme_class_and_palette_witness :
  currentTheme (auth supervisor_session) = "operator" ∧
  ∃ w',
    Auth.applyTheme supervisor_session = (Ret tt, w') ∧
    "operator-theme" ∈ body_classList (browser w') ∧
    root_style (browser w') !! "--bg-color" = Some "var(--operator-bg)".
Proof.
  split; [reflexivity |].
  destruct (applyTheme_class_and_palette supervisor_session (or_introl eq_refl))
    as (w' & Hrun & Hclass & _ & _ & _ & Hbg & _).
  exists w'. split; [exact Hrun |]. split; [exact Hclass | exact Hbg].
Defined.
